(** * GoodWe SEMS wallbox integration: a shallow embedding and its properties

    The development follows the Python sources under
    [custom_components/sems-wallbox]:

    - [sems_api.py]     the HTTP client ([SemsApi]): login, token cache,
                        status fetch, the two commands;
    - [coordinator.py]  the periodic poll ([_async_update_data]);
    - [sensor.py], [select.py], [number.py], [switch.py]
                        the presentation entities and their setup;
    - [config_flow.py]  the user step of the configuration flow.

    Python values are modelled by the type [value]; Python floats are the
    kernel's binary64 floats.  The network is a script of replies consumed
    by [requests.post], and every call to it is recorded in a trace. *)

From Stdlib Require Import ZArith String Ascii List Bool Floats Lia.
From stdpp Require Import base option list gmap strings pretty.

Set Warnings "-inexact-float".

Local Open Scope Z_scope.
Local Open Scope string_scope.
Local Open Scope list_scope.

(** ** Python values *)

Module Py.

(** The values [json.loads] produces, which are all the values the
    integration handles.  JSON objects have string keys. *)
#[warnings="-register-all"]
Inductive value : Type :=
  | VNone
  | VBool (b : bool)
  | VInt (z : Z)
  | VFloat (f : float)
  | VStr (s : string)
  | VList (l : list value)
  | VDict (d : gmap string value).

(** The exceptions that occur in the modelled code. *)
Inductive update_failure : Type :=
  | TooManyRetries        (* "Too many retries talking to SEMS API" *)
  | ErrorCommunicating    (* "Error communicating with SEMS API" *)
  | NoDataReceived        (* "No data received from SEMS API, ..." *)
  | MissingSn.            (* "Missing 'sn' in SEMS API data" *)

Inductive exn : Type :=
  | OutOfRetries
  | UpdateFailed (why : update_failure)
  | HTTPError (status_code : Z)
  | RequestException      (* requests.post raised: connection, timeout, ... *)
  | JSONDecodeError
  | AttributeError
  | TypeError
  | KeyError
  | ValueError
  | OverflowError.

Inductive result (A : Type) : Type :=
  | Ok (a : A)
  | Raise (e : exn).
Arguments Ok {A} a.
Arguments Raise {A} e.

(** [x is None] *)
Definition is_none (v : value) : bool :=
  match v with VNone => true | _ => false end.

(** [bool(x)] *)
Definition truthy (v : value) : bool :=
  match v with
  | VNone => false
  | VBool b => b
  | VInt z => negb (Z.eqb z 0)
  | VFloat f => negb (f =? 0)%float
  | VStr s => negb (String.eqb s "")
  | VList l => match l with [] => false | _ => true end
  | VDict d => negb (Nat.eqb (size d) 0)
  end.

(** [a or b] *)
Definition py_or (a b : value) : value := if truthy a then a else b.

(** [d.get(k)] on a dictionary: a missing key reads as [None]. *)
Definition dict_get (d : gmap string value) (k : string) : value :=
  default VNone (d !! k).

(** [d.get(k, dflt)] *)
Definition dict_get_default (d : gmap string value) (k : string) (dflt : value) : value :=
  default dflt (d !! k).

(** [x.get(k)] on an arbitrary value: only dictionaries have [get]. *)
Definition value_get (v : value) (k : string) : result value :=
  match v with
  | VDict d => Ok (dict_get d k)
  | _ => Raise AttributeError
  end.

Definition value_get_default (v : value) (k : string) (dflt : value) : result value :=
  match v with
  | VDict d => Ok (dict_get_default d k dflt)
  | _ => Raise AttributeError
  end.

(** [isinstance(x, dict)] *)
Definition is_dict (v : value) : bool :=
  match v with VDict _ => true | _ => false end.

(** [x == s] for a string literal [s]: only an equal string is equal. *)
Definition eq_str (v : value) (s : string) : bool :=
  match v with VStr s' => String.eqb s' s | _ => false end.

(** [x == 0]: Python's numeric tower identifies [0], [0.0] and [False]. *)
Definition eq_zero (v : value) : bool :=
  match v with
  | VInt z => Z.eqb z 0
  | VFloat f => (f =? 0)%float
  | VBool b => negb b
  | _ => false
  end.

(** Hashable values can be dictionary keys. *)
Definition hashable (v : value) : bool :=
  match v with VList _ | VDict _ => false | _ => true end.

(** *** Strings *)

(** [needle in haystack].  Strings are byte strings (UTF-8); on valid
    UTF-8 a byte-wise search finds the same occurrences as a search by
    code point. *)
Fixpoint contains (needle haystack : string) : bool :=
  String.prefix needle haystack ||
  match haystack with
  | EmptyString => false
  | String _ rest => contains needle rest
  end.

Definition lower_ascii (c : ascii) : ascii :=
  let n := nat_of_ascii c in
  if (Nat.leb 65 n && Nat.leb n 90)%bool then ascii_of_nat (n + 32) else c.

(** [s.lower()] on the ASCII letters.  No code point outside ASCII
    lowers to a letter sequence that can complete the needle searched
    for below, so the search result is the same. *)
Fixpoint lower (s : string) : string :=
  match s with
  | EmptyString => EmptyString
  | String c rest => String (lower_ascii c) (lower rest)
  end.

(** [s.endswith(suffix)] *)
Definition endswith (s suffix : string) : bool :=
  let n := String.length s in
  let k := String.length suffix in
  (Nat.leb k n && String.eqb (String.substring (n - k) k s) suffix)%bool.

(** *** Conversions *)

(** [float(z)] for an integer: correctly rounded, [OverflowError] when
    the integer is too large. *)
Definition float_of_int (z : Z) : result float :=
  match SpecFloat.binary_normalize prec emax z 0 false with
  | SpecFloat.S754_infinity _ => Raise OverflowError
  | sf => Ok (SF2Prim sf)
  end.

End Py.
Export Py.

(** Python builtins whose result on some arguments is not modelled
    here: [repr] of floats, lists and dictionaries (reached through
    [str(x)]) and the parsing done by [float(s)] on a string.  Every
    theorem below holds for whatever these two functions are. *)
Class Builtins : Type := {
  py_repr : value -> string;
  float_of_str : string -> result float
}.

Section Conversions.
Context `{Builtins}.

(** [str(x)] *)
Definition py_str (v : value) : string :=
  match v with
  | VStr s => s
  | VNone => "None"
  | VBool true => "True"
  | VBool false => "False"
  | VInt z => pretty z
  | other => py_repr other
  end.

(** [float(x)] *)
Definition py_float (v : value) : result float :=
  match v with
  | VFloat f => Ok f
  | VInt z => float_of_int z
  | VBool b => Ok (if b then 1 else 0)%float
  | VStr s => float_of_str s
  | VNone | VList _ | VDict _ => Raise TypeError
  end.
End Conversions.

(** ** sems_api.py *)

Module SemsApiModel.

Definition _LoginURL := "https://www.semsportal.com/api/v3/Common/CrossLogin".
Definition _WallboxURL_V3 := "https://www.semsportal.com/api/v3/EvCharger/GetCurrentChargeinfo".
Definition _WallboxURL_V4 := "https://www.semsportal.com/api/v4/EvCharger/GetEvChargerMoreView".
Definition _USE_V4_STATUS : bool := false.
Definition _SetChargeModeURL := "https://www.semsportal.com/api/v3/EvCharger/SetChargeMode".
Definition _PowerControlURL := "https://www.semsportal.com/api/v3/EvCharger/Charging".

(** The literal searched for in the vendor's [msg], and the vendor's
    word for success (two CJK characters, six bytes of UTF-8). *)
Definition AUTH_EXPIRED := "authorization has expired".
Definition SUCCESS_MARK := "成功".

Abbreviation token := (gmap string value).

(** The [headers] argument of [requests.post]: either [_DefaultHeaders]
    or the headers of [_build_headers], which carry
    [json.dumps(self._token)]. *)
Inductive headers : Type :=
  | DefaultHeaders
  | TokenHeaders (tok : option token).

(** What [requests.post] can do: raise, or return a response with a
    status code and a body ([None] when [response.json()] raises). *)
Inductive reply : Type :=
  | NetFail
  | Http (status_code : Z) (json : option value).

Inductive level : Type := INFO | WARNING | ERROR.

(** The observable events.  Logging at debug level is not traced. *)
Inductive event : Type :=
  | Post (url : string) (h : headers) (payload : value)
  | TokenCleared                       (* self._token = None *)
  | TokenStored (tok : token)          (* self._token = token *)
  | Log (lvl : level) (text : string).

Record SemsApi : Type := mkSemsApi {
  _username : string;
  _password : string;
  _token : option token
}.

(** The client object, the replies the network will give to the next
    calls of [requests.post], and the events so far, oldest first. *)
Record world : Type := mkWorld {
  api : SemsApi;
  inbox : list reply;
  trace : list event
}.

(** [SemsApi(hass, username, password)]: the new client, which has no
    token, and the line it logs. *)
Definition __init__ (username password : string) : SemsApi * event :=
  (mkSemsApi username password None, Log INFO "SEMS API wrapper initialized").

(** *** A state and exception monad *)

Definition M (A : Type) : Type := world -> result A * world.

#[global] Instance M_ret : MRet M := fun A (a : A) w => (Ok a, w).

#[global] Instance M_bind : MBind M :=
  fun A B (k : A -> M B) (m : M A) w =>
    match m w with
    | (Ok a, w') => k a w'
    | (Raise e, w') => (Raise e, w')
    end.

Definition ret {A} (a : A) : M A := mret a.

Definition raise {A} (e : exn) : M A := fun w => (Raise e, w).

(** [try: m except Exception as e: h e] *)
Definition try_except {A} (m : M A) (h : exn -> M A) : M A :=
  fun w => match m w with
           | (Ok a, w') => (Ok a, w')
           | (Raise e, w') => h e w'
           end.

Definition lift {A} (r : result A) : M A := fun w => (r, w).

Definition emit (e : event) : M unit :=
  fun w => (Ok tt, mkWorld (api w) (inbox w) (trace w ++ [e])).

Definition log (lvl : level) (text : string) : M unit := emit (Log lvl text).

Definition get_token : M (option token) := fun w => (Ok (_token (api w)), w).

Definition get_self : M SemsApi := fun w => (Ok (api w), w).

Definition set_token (t : option token) : M unit :=
  fun w =>
    let self := api w in
    (Ok tt,
     mkWorld (mkSemsApi (_username self) (_password self) t) (inbox w)
             (trace w ++ [match t with None => TokenCleared | Some tok => TokenStored tok end])).

(** *** requests *)

Definition response : Type := Z * option value.

(** [requests.post(url, headers=..., data=/json=..., timeout=...)]: the
    call is recorded, and the next reply of the script is its outcome. A
    script that has run out is a network that does not answer. *)
Definition post (url : string) (h : headers) (payload : value) : M response :=
  fun w =>
    let tr := trace w ++ [Post url h payload] in
    match inbox w with
    | [] => (Raise RequestException, mkWorld (api w) [] tr)
    | NetFail :: rest => (Raise RequestException, mkWorld (api w) rest tr)
    | Http s j :: rest => (Ok (s, j), mkWorld (api w) rest tr)
    end.

(** The status codes for which [raise_for_status] raises. *)
Definition http_error (status_code : Z) : bool :=
  ((400 <=? status_code)%Z && (status_code <? 600)%Z)%bool.

(** [response.raise_for_status()] *)
Definition raise_for_status (r : response) : M unit :=
  if http_error (fst r) then raise (HTTPError (fst r)) else ret tt.

(** [response.json()] *)
Definition response_json (r : response) : M value :=
  match snd r with
  | Some j => ret j
  | None => raise JSONDecodeError
  end.

(** [x[k]] *)
Definition value_index (v : value) (k : string) : result value :=
  match v with
  | VDict d => match d !! k with Some x => Ok x | None => Raise KeyError end
  | _ => Raise TypeError
  end.

(** [x[k] = y], which returns the dictionary it updated *)
Definition value_setitem (v : value) (k : string) (y : value) : result token :=
  match v with
  | VDict d => Ok (<[k := y]> d)
  | _ => Raise TypeError
  end.

(** [self._token is None] *)
Definition token_is_none (t : option token) : bool :=
  match t with None => true | Some _ => false end.

Section Methods.
Context `{Builtins}.

(** *** Token handling *)

(** [json.dumps({"account": self._username, "pwd": self._password})] *)
Definition login_payload (self : SemsApi) : value :=
  VDict {[ "account" := VStr (_username self); "pwd" := VStr (_password self) ]}.

Definition _fetch_login_token : M (option token) :=
  try_except
    (self ← get_self;
     let login_data := login_payload self in
     login_response ← post _LoginURL DefaultHeaders login_data;
     raise_for_status login_response;;
     json_response ← response_json login_response;
     hasError ← lift (value_get json_response "hasError");
     code ← lift (value_get json_response "code");
     if (truthy hasError || negb (eq_zero code || is_none code))%bool then
       log ERROR "SEMS login returned error";;
       mret None
     else
       token_dict ← lift (value_index json_response "data");
       api_field ← lift (value_get json_response "api");
       token_dict ← lift (value_setitem token_dict "api" api_field);
       mret (Some token_dict))
    (fun exc =>
       log ERROR "Unable to fetch login token from SEMS API.";;
       mret None).

Definition _ensure_token (renew : bool) : M bool :=
  cached ← get_token;
  if (token_is_none cached || renew)%bool then
    tok ← _fetch_login_token;
    match tok with
    | None => set_token None;; mret false
    | Some t => set_token (Some t);; mret true
    end
  else mret true.

Definition _build_headers : M headers :=
  ok ← _ensure_token false;
  if negb ok then raise OutOfRetries
  else
    tok ← get_token;
    mret (TokenHeaders tok).

Definition test_authentication : M bool :=
  try_except (_ensure_token true)
    (fun exc => log ERROR "SEMS Authentication exception";; mret false).

(** *** Data fetch *)

(** The functions below take the module constant [_USE_V4_STATUS] as
    the parameter [USE_V4]; the module as shipped is their instance
    at [_USE_V4_STATUS]. *)
Variable USE_V4 : bool.

Definition _resolve_status_url : string :=
  if USE_V4 then _WallboxURL_V4 else _WallboxURL_V3.

(** ["authorization has expired" in msg.lower()] *)
Definition expired (msg : string) : bool := contains AUTH_EXPIRED (lower msg).

(** The first request of [getData] and its [except HTTPError] clause. *)
Definition fetch_status_json (wallbox_url : string) (hdrs : headers) (payload : value)
  : M value :=
  try_except
    (response ← post wallbox_url hdrs payload;
     raise_for_status response;;
     response_json response)
    (fun http_err =>
       match http_err with
       | HTTPError status_code =>
           if (USE_V4 && endswith wallbox_url "GetEvChargerMoreView"
               && Z.eqb status_code 404)%bool then
             log WARNING "v4 endpoint 404, falling back to v3";;
             v3_response ← post _WallboxURL_V3 hdrs payload;
             raise_for_status v3_response;;
             response_json v3_response
           else raise http_err
       | _ => raise http_err
       end).

(** The v4 branch of [getData] for a response that has no data. *)
Definition v4_no_data_fallback (wallbox_url : string) (hdrs : headers) (payload : value)
    (data : value) (msg : string) : M (value * string) :=
  if (USE_V4 && endswith wallbox_url "GetEvChargerMoreView" && is_none data)%bool then
    if contains SUCCESS_MARK msg then
      log WARNING "v4 endpoint returned success but no data, falling back to v3 once";;
      v3_response ← post _WallboxURL_V3 hdrs payload;
      raise_for_status v3_response;;
      json_v3 ← response_json v3_response;
      data ← lift (value_get json_v3 "data");
      msg_v3 ← lift (value_get_default json_v3 "msg" (VStr msg));
      mret (data, py_str msg_v3)
    else mret (data, msg)
  else mret (data, msg).

(** [json.dumps({"sn": wallbox_sn})] *)
Definition status_payload (wallbox_sn : string) : value :=
  VDict {[ "sn" := VStr wallbox_sn ]}.

(** The two [except] clauses that close [getData]. *)
Definition getData_except (body : M value) : M value :=
  try_except body
    (fun exc =>
       match exc with
       | OutOfRetries => raise OutOfRetries
       | _ => log ERROR "Unable to fetch data from SEMS.";; mret VNone
       end).

(** [getData], by recursion on [maxTokenRetries + 1]: the budget is
    [0] exactly when [maxTokenRetries < 0]. *)
Fixpoint getData_budget (budget : nat) (wallbox_sn : string) (renewToken : bool)
  : M value :=
  getData_except
    match budget with
    | O =>
        log INFO "SEMS - Maximum token fetch tries reached, aborting for now";;
        raise OutOfRetries
    | S budget' =>
        ok ← _ensure_token renewToken;
        if negb ok then
          log ERROR "SEMS - Could not ensure token before getData";;
          mret VNone
        else
          hdrs ← _build_headers;
          let wallbox_url := _resolve_status_url in
          let payload := status_payload wallbox_sn in
          json_response ← fetch_status_json wallbox_url hdrs payload;
          data ← lift (value_get json_response "data");
          msg ← lift (value_get_default json_response "msg" (VStr ""));
          let msg := py_str msg in
          dm ← v4_no_data_fallback wallbox_url hdrs payload data msg;
          let data := fst dm in
          let msg := snd dm in
          if (is_none data && expired msg)%bool then
            set_token None;;
            getData_budget budget' wallbox_sn true
          else if is_none data then
            log ERROR "Unable to fetch data from SEMS, message";;
            mret VNone
          else mret data
    end.

Definition getData (wallbox_sn : string) (renewToken : bool) (maxTokenRetries : Z)
  : M value :=
  getData_budget (Z.to_nat (maxTokenRetries + 1)) wallbox_sn renewToken.

(** *** Commands *)

(** [isinstance(resp_json, dict) and "authorization has expired" in
    str(resp_json.get("msg", "")).lower()] *)
Definition resp_expired (resp_json : option value) : bool :=
  match resp_json with
  | Some (VDict d) => expired (py_str (dict_get_default d "msg" (VStr "")))
  | _ => false
  end.

(** [isinstance(resp_json, dict) and resp_json.get("data") is None] *)
Definition resp_no_data (resp_json : option value) : bool :=
  match resp_json with
  | Some (VDict d) => is_none (dict_get d "data")
  | _ => false
  end.

(** [{"sn": inverterSn, "status": str(status)}] *)
Definition change_status_payload (inverterSn : string) (status : Z) : value :=
  VDict {[ "sn" := VStr inverterSn; "status" := VStr (pretty status) ]}.

(** The [data] of [set_charge_mode]: with [charge_power] unless
    [chargePower is None]. *)
Definition set_charge_mode_payload (wallboxSn : string) (mode chargePower : value) : value :=
  if negb (is_none chargePower) then
    VDict {[ "sn" := VStr wallboxSn; "type" := mode; "charge_power" := chargePower ]}
  else
    VDict {[ "sn" := VStr wallboxSn; "type" := mode ]}.

Fixpoint change_status_budget (budget : nat) (inverterSn : string) (status : Z)
    (renewToken : bool) : M unit :=
  try_except
    match budget with
    | O =>
        log INFO "SEMS - Maximum token fetch tries reached for change_status";;
        raise OutOfRetries
    | S budget' =>
        let maxTokenRetries := Z.of_nat budget' in
        ok ← _ensure_token renewToken;
        if negb ok then
          log ERROR "SEMS - Could not ensure token before change_status";;
          mret tt
        else
          hdrs ← _build_headers;
          let data := change_status_payload inverterSn status in
          response ← post _PowerControlURL hdrs data;
          let resp_json := snd response in
          if (negb (Z.eqb (fst response) 200)
              || (resp_no_data resp_json && resp_expired resp_json))%bool then
            if (resp_expired resp_json && (0 <? maxTokenRetries)%Z)%bool then
              set_token None;;
              change_status_budget budget' inverterSn status true
            else
              log WARNING "Power control command not successful";;
              mret tt
          else mret tt
    end
    (fun exc => log ERROR "Unable to execute Power control command.").

Definition change_status (inverterSn : string) (status : Z) (renewToken : bool)
    (maxTokenRetries : Z) : M unit :=
  change_status_budget (Z.to_nat (maxTokenRetries + 1)) inverterSn status renewToken.

Fixpoint set_charge_mode_budget (budget : nat) (wallboxSn : string) (mode : value)
    (chargePower : value) (renewToken : bool) : M unit :=
  try_except
    match budget with
    | O =>
        log INFO "SEMS - Maximum token fetch tries reached for set_charge_mode";;
        raise OutOfRetries
    | S budget' =>
        let maxTokenRetries := Z.of_nat budget' in
        ok ← _ensure_token renewToken;
        if negb ok then
          log ERROR "SEMS - Could not ensure token before set_charge_mode";;
          mret tt
        else
          hdrs ← _build_headers;
          let data := set_charge_mode_payload wallboxSn mode chargePower in
          response ← post _SetChargeModeURL hdrs data;
          let resp_json := snd response in
          if (negb (Z.eqb (fst response) 200)
              || (resp_no_data resp_json && resp_expired resp_json))%bool then
            if (resp_expired resp_json && (0 <? maxTokenRetries)%Z)%bool then
              set_token None;;
              set_charge_mode_budget budget' wallboxSn mode chargePower true
            else
              log WARNING "SetChargeMode command not successful";;
              mret tt
          else mret tt
    end
    (fun exc => log ERROR "Unable to execute SetChargeMode command.").

Definition set_charge_mode (wallboxSn : string) (mode : value) (chargePower : value)
    (renewToken : bool) (maxTokenRetries : Z) : M unit :=
  set_charge_mode_budget (Z.to_nat (maxTokenRetries + 1)) wallboxSn mode chargePower
    renewToken.

End Methods.

End SemsApiModel.

(** ** coordinator.py *)

Module SemsUpdateCoordinator.
Import SemsApiModel.

(** A reading is the [data] object of the vendor's status response. *)
Abbreviation reading := (gmap string value).

(** The coordinator's data, the Python dictionary [{sn: result}]: its
    entries as pairs of a key and a reading. *)
Abbreviation coordinator_data := (list (value * gmap string value)).

(** [coordinator.data.get(sn, {})] for a string [sn]: a key equals a
    string only if it is that string. *)
Fixpoint data_get (data : coordinator_data) (sn : string) : reading :=
  match data with
  | [] => ∅
  | (k, r) :: rest => if eq_str k sn then r else data_get rest sn
  end.

(** [coordinator.data[sn]] *)
Fixpoint data_index (data : coordinator_data) (sn : string) : result reading :=
  match data with
  | [] => Raise KeyError
  | (k, r) :: rest => if eq_str k sn then Ok r else data_index rest sn
  end.

Section Update.
Context `{Builtins}.

(** [self._api.getData(self._station_id)] runs with the defaults
    [renewToken=False] and [maxTokenRetries=1]. *)
Definition _async_update_data (_station_id : string) : M coordinator_data :=
  result ← try_except (getData _USE_V4_STATUS _station_id false 1)
             (fun err =>
                match err with
                | OutOfRetries => raise (UpdateFailed TooManyRetries)
                | _ => raise (UpdateFailed ErrorCommunicating)
                end);
  if is_none result then raise (UpdateFailed NoDataReceived)
  else
    match result with
    | VDict fetched =>
        let sn := dict_get fetched "sn" in
        if negb (truthy sn) then raise (UpdateFailed MissingSn)
        else if negb (hashable sn) then raise TypeError
        else mret [(sn, fetched)]
    | _ => raise AttributeError          (* result.get *)
    end.
End Update.

End SemsUpdateCoordinator.

(** ** The entities *)

(** What an entity method asks of the host and of the API client, in the
    order of the calls. *)
Inductive action : Type :=
  | WriteHaState                       (* self.async_write_ha_state() *)
  | RequestRefresh                     (* coordinator.async_request_refresh() *)
  | CallSetChargeMode (sn : string) (mode : value) (chargePower : value)
                                       (* executor job api.set_charge_mode *)
  | CallChangeStatus (sn : string) (status : Z)
                                       (* executor job api.change_status *)
  | LogWarning (text : string).

(** The executor jobs run the client's methods with their default
    [renewToken] and [maxTokenRetries]. *)
Definition run_action `{Builtins} (a : action) : SemsApiModel.M unit :=
  match a with
  | CallSetChargeMode sn mode chargePower =>
      SemsApiModel.set_charge_mode sn mode chargePower false 1
  | CallChangeStatus sn status => SemsApiModel.change_status sn status false 1
  | WriteHaState | RequestRefresh | LogWarning _ => mret tt
  end.

(** *** sensor.py *)

Module SemsSensor.
Import SemsUpdateCoordinator.

Definition _attr_options : list string := ["Charging"; "Standby"; "Offline"; "Unknown"].

Definition state (coordinator_data : coordinator_data) (sn : string) : string :=
  let data := data_get coordinator_data sn in
  let status := dict_get data "status" in
  if eq_str status "EVDetail_Status_Title_Charging" then "Charging"
  else if eq_str status "EVDetail_Status_Title_Waiting" then "Standby"
  else if eq_str status "EVDetail_Status_Title_Offline" then "Offline"
  else "Unknown".

(** [coordinator.data.get(self.sn, {}).get("sn", self.sn)] *)
Definition unique_id (coordinator_data : coordinator_data) (sn : string) : value :=
  dict_get_default (data_get coordinator_data sn) "sn" (VStr sn).

(** The attributes are the fields of the reading that are not [None]
    (a reading that is empty is replaced by [{}], which is the same), and
    [statusText] when the reading has a [status]. *)
Definition extra_state_attributes (coordinator_data : coordinator_data) (sn : string)
  : gmap string value :=
  let data := data_get coordinator_data sn in
  let attributes := filter (fun kv => is_none (snd kv) = false) data in
  match data !! "status" with
  | Some status => <["statusText" := status]> attributes
  | None => attributes
  end.
End SemsSensor.

Module SemsPowerSensor.
Import SemsUpdateCoordinator.

(** [max(a, b)]: the second argument only when it is greater. *)
Definition py_max (a b : float) : float := if (a <? b)%float then b else a.

Section Power.
Context `{Builtins}.

(** The f-string [{sn}_power] *)
Definition unique_id (coordinator_data : coordinator_data) (sn : string) : string :=
  py_str (dict_get_default (data_get coordinator_data sn) "sn" (VStr sn)) ++ "_power".

(** [native_value]: [TypeError] and [ValueError] of the conversion give
    the power [0.0]; any other exception is not caught. *)
Definition native_value (coordinator_data : coordinator_data) (sn : string) : result float :=
  let data := data_get coordinator_data sn in
  match py_float (py_or (dict_get_default data "power" (VInt 0)) (VInt 0)) with
  | Ok power => Ok (py_max 0 power)
  | Raise TypeError | Raise ValueError => Ok (py_max 0 0)
  | Raise e => Raise e
  end.
End Power.
End SemsPowerSensor.

Module SemsStatisticsSensor.
Import SemsUpdateCoordinator.

(** The f-string [{sn}-energy] *)
Definition unique_id `{Builtins} (coordinator_data : coordinator_data) (sn : string)
  : string :=
  py_str (dict_get_default (data_get coordinator_data sn) "sn" (VStr sn)) ++ "-energy".
End SemsStatisticsSensor.

(** *** select.py *)

Module InverterOperationModeEntity.

Definition _MODE_TO_OPTION : gmap Z string :=
  {[ 0 := "Fast"; 1 := "PV priority"; 2 := "PV & battery" ]}.

(** [{value: key for key, value in _MODE_TO_OPTION.items()}] *)
Definition _OPTION_TO_MODE : gmap string Z :=
  map_fold (fun key value acc => <[value := key]> acc) ∅ _MODE_TO_OPTION.

(** [list(_MODE_TO_OPTION.values())], the options the entity is created
    with: the labels in the order in which the dictionary lists its keys. *)
Definition supported_options : list string :=
  omap (fun mode => _MODE_TO_OPTION !! mode) [0; 1; 2].

Record t : Type := mk {
  sn : string;
  _attr_options : list string;
  _attr_current_option : string;
  _current_charge_power : value
}.

Definition async_select_option (self : t) (option : string) : t * list action :=
  match _OPTION_TO_MODE !! option with
  | None => (self, [LogWarning "Unknown operation mode option"])
  | Some mode =>
      (mk (sn self) (_attr_options self) option (_current_charge_power self),
       [WriteHaState;
        CallSetChargeMode (sn self) (VInt mode) (_current_charge_power self);
        RequestRefresh])
  end.

(** The lookup of a value of the reading in [_MODE_TO_OPTION], as done
    by [_MODE_TO_OPTION.get(mode)], [mode in _MODE_TO_OPTION] and
    [_MODE_TO_OPTION[mode]]: the keys are the integers 0, 1 and 2, which an
    integer, a boolean or a float of the same numeric value equals; a list
    or a dictionary cannot be hashed. *)
Definition _MODE_TO_OPTION_get (mode : value) : result (option string) :=
  match mode with
  | VInt z => Ok (_MODE_TO_OPTION !! z)
  | VBool b => Ok (_MODE_TO_OPTION !! (if b then 1 else 0))
  | VFloat f =>
      Ok (if (f =? 0)%float then _MODE_TO_OPTION !! 0
          else if (f =? 1)%float then _MODE_TO_OPTION !! 1
          else if (f =? 2)%float then _MODE_TO_OPTION !! 2
          else None)
  | VNone | VStr _ => Ok None
  | VList _ | VDict _ => Raise TypeError
  end.

(** [__init__]: the current option is [str(current_mode)], where
    [current_mode] is a label or [None]. *)
Definition __init__ (sn : string) (supported_options : list string)
    (current_mode : option string) (current_charge_power : value) : t :=
  mk sn supported_options
    (match current_mode with Some label => label | None => "None" end)
    current_charge_power.

(** [async_setup_entry], on the items of [coordinator.data] (with the
    serial numbers that are strings); the result is the list given to
    [async_add_entities]. *)
Fixpoint async_setup_entry (items : list (string * gmap string value)) : result (list t) :=
  match items with
  | [] => Ok []
  | (sn, inverter) :: rest =>
      match SemsApiModel.value_index (VDict inverter) "chargeMode" with
      | Raise e => Raise e
      | Ok active_mode =>
          match SemsApiModel.value_index (VDict inverter) "max_charge_power" with
          | Raise e => Raise e
          | Ok current_charge_power =>
              match _MODE_TO_OPTION_get active_mode with
              | Raise e => Raise e
              | Ok current_mode =>
                  match async_setup_entry rest with
                  | Raise e => Raise e
                  | Ok entities =>
                      Ok (__init__ sn supported_options current_mode current_charge_power
                            :: entities)
                  end
              end
          end
      end
  end.

Definition _handle_coordinator_update (self : t)
    (coordinator_data : SemsUpdateCoordinator.coordinator_data)
  : result (t * list action) :=
  match SemsUpdateCoordinator.data_index coordinator_data (sn self) with
  | Raise e => Raise e
  | Ok inverter =>
      match SemsApiModel.value_index (VDict inverter) "chargeMode" with
      | Raise e => Raise e
      | Ok mode =>
          match SemsApiModel.value_index (VDict inverter) "max_charge_power" with
          | Raise e => Raise e
          | Ok charge_power =>
              match _MODE_TO_OPTION_get mode with
              | Raise e => Raise e
              | Ok (Some label) =>
                  Ok (mk (sn self) (_attr_options self) label charge_power, [WriteHaState])
              | Ok None =>
                  Ok (mk (sn self) (_attr_options self) (_attr_current_option self)
                        charge_power,
                      [LogWarning "Unknown chargeMode in coordinator update"; WriteHaState])
              end
          end
      end
  end.
End InverterOperationModeEntity.

(** *** number.py *)

Module SemsNumber.
Import SemsUpdateCoordinator.

Record t : Type := mk {
  sn : string;
  _attr_native_value : option float
}.

Definition native_step : float := 0.1.
Definition native_min_value : float := 4.2.
(** The source returns the integer [11]; it is compared as a float. *)
Definition native_max_value : float := 11.

(** The values the entity declares acceptable. *)
Definition in_range (value : float) : bool :=
  ((native_min_value <=? value) && (value <=? native_max_value))%float.

Definition async_set_native_value (coordinator_data : coordinator_data) (self : t)
    (value : float) : t * list action :=
  let data := data_get coordinator_data (sn self) in
  let active_mode := dict_get_default data "chargeMode" (VInt 0) in
  (mk (sn self) (Some value),
   [WriteHaState;
    CallSetChargeMode (sn self) (if (4.2 <? value)%float then VInt 0 else active_mode)
      (VFloat value);
    RequestRefresh]).

Section Updates.
Context `{Builtins}.

(** [__init__]: [float(value) if value is not None else None] *)
Definition __init__ (sn : string) (value : value) : result t :=
  if negb (is_none value) then
    match py_float value with
    | Ok f => Ok (mk sn (Some f))
    | Raise e => Raise e
    end
  else Ok (mk sn None).

(** [async_setup_entry], on the items of [coordinator.data]. *)
Fixpoint async_setup_entry (items : list (string * reading)) : result (list t) :=
  match items with
  | [] => Ok []
  | (sn, data) :: rest =>
      match __init__ sn (dict_get data "set_charge_power") with
      | Raise e => Raise e
      | Ok entity =>
          match async_setup_entry rest with
          | Raise e => Raise e
          | Ok entities => Ok (entity :: entities)
          end
      end
  end.

(** What [_handle_coordinator_update] and [async_update] do with the
    coordinator's data: [TypeError] and [ValueError] of the conversion are
    logged, any other exception is not caught. *)
Definition _handle_coordinator_update (self : t) (coordinator_data : coordinator_data)
  : result (t * list action) :=
  match data_index coordinator_data (sn self) with
  | Raise e => Raise e
  | Ok data =>
      let set_charge_power := dict_get data "set_charge_power" in
      if negb (is_none set_charge_power) then
        match py_float set_charge_power with
        | Ok f => Ok (mk (sn self) (Some f), [WriteHaState])
        | Raise TypeError | Raise ValueError =>
            Ok (self, [LogWarning "invalid set_charge_power value from API"; WriteHaState])
        | Raise e => Raise e
        end
      else Ok (self, [WriteHaState])
  end.

(** [async_update]: the refresh is awaited first; [coordinator_data] is
    the coordinator's data after it. *)
Definition async_update (self : t) (coordinator_data : coordinator_data)
  : result (t * list action) :=
  match data_index coordinator_data (sn self) with
  | Raise e => Raise e
  | Ok data =>
      let set_charge_power := dict_get data "set_charge_power" in
      if negb (is_none set_charge_power) then
        match py_float set_charge_power with
        | Ok f => Ok (mk (sn self) (Some f), [RequestRefresh; WriteHaState])
        | Raise TypeError | Raise ValueError =>
            Ok (self,
                [RequestRefresh;
                 LogWarning "invalid set_charge_power value from API (async_update)";
                 WriteHaState])
        | Raise e => Raise e
        end
      else Ok (self, [RequestRefresh; WriteHaState])
  end.
End Updates.
End SemsNumber.

(** *** switch.py *)

Module SemsSwitch.
Import SemsUpdateCoordinator.

(** The source has the integers [130]; they are compared with a
    difference of floats. *)
Definition GRACE_ON_SECONDS : float := 130.
Definition GRACE_OFF_SECONDS : float := 130.

Record t : Type := mk {
  sn : string;
  _attr_is_on : bool;
  _last_command_ts : option float;
  _last_command_target : option bool
}.

(** [target is True] and [target is False] for [target: bool | None] *)
Definition is_True (target : option bool) : bool :=
  match target with Some true => true | _ => false end.

Definition is_False (target : option bool) : bool :=
  match target with Some false => true | _ => false end.

Section Compute.
Context `{Builtins}.

(** [status == "EVDetail_Status_Title_Charging" or power > 0], after
    [power = float(data.get("power", 0) or 0)]. *)
Definition api_is_on (data : reading) : result bool :=
  let status := dict_get data "status" in
  match py_float (py_or (dict_get_default data "power" (VInt 0)) (VInt 0)) with
  | Raise e => Raise e
  | Ok power => Ok (eq_str status "EVDetail_Status_Title_Charging" || (0 <? power)%float)
  end.

(** [_compute_is_on_from_data]; [now] is [self.hass.loop.time()].  The
    result is the returned state and the entity after the call. *)
Definition _compute_is_on_from_data (self : t) (now : float) (data : reading)
  : result (bool * t) :=
  match api_is_on data with
  | Raise e => Raise e
  | Ok api_on =>
      let target := _last_command_target self in
      let ts := _last_command_ts self in
      (* ts is not None and now - ts < grace *)
      let within grace :=
        match ts with
        | Some ts' => (now - ts' <? grace)%float
        | None => false
        end in
      if (is_True target && within GRACE_ON_SECONDS
          && negb api_on)%bool then
        Ok (true, self)
      else if (is_False target && within GRACE_OFF_SECONDS
               && api_on)%bool then
        Ok (false, self)
      else
        let agrees :=
          match target with
          | Some b => Bool.eqb api_on b
          | None => false
          end in
        Ok (api_on,
            if agrees then mk (sn self) (_attr_is_on self) None None else self)
  end.

(** [async_turn_on] and [async_turn_off], called at time [now]. *)
Definition async_turn_on (self : t) (now : float) : t * list action :=
  (mk (sn self) true (Some now) (Some true),
   [WriteHaState; RequestRefresh; CallChangeStatus (sn self) 1]).

Definition async_turn_off (self : t) (now : float) : t * list action :=
  (mk (sn self) false (Some now) (Some false),
   [WriteHaState; RequestRefresh; CallChangeStatus (sn self) 2]).

Definition _handle_coordinator_update (self : t) (now : float)
    (coordinator_data : coordinator_data) : result (t * list action) :=
  match data_index coordinator_data (sn self) with
  | Raise e => Raise e
  | Ok data =>
      match _compute_is_on_from_data self now data with
      | Raise e => Raise e
      | Ok (is_on, self') =>
          Ok (mk (sn self') is_on (_last_command_ts self') (_last_command_target self'),
              [WriteHaState])
      end
  end.

(** A run of coordinator updates, each at its own time with its own
    data; the result lists the state shown after each. *)
Fixpoint handle_updates (self : t) (updates : list (float * coordinator_data))
  : result (list bool * t) :=
  match updates with
  | [] => Ok ([], self)
  | (now, d) :: rest =>
      match _handle_coordinator_update self now d with
      | Raise e => Raise e
      | Ok (self', _) =>
          match handle_updates self' rest with
          | Raise e => Raise e
          | Ok (shown, final) => Ok (_attr_is_on self' :: shown, final)
          end
      end
  end.

(** [__init__]: no command has been given yet. *)
Definition __init__ (sn : string) (current_is_on : bool) : t :=
  mk sn current_is_on None None.

(** [async_setup_entry], on the items of [coordinator.data]. *)
Fixpoint async_setup_entry (items : list (string * reading)) : result (list t) :=
  match items with
  | [] => Ok []
  | (sn, data) :: rest =>
      match api_is_on data with
      | Raise e => Raise e
      | Ok current_is_on =>
          match async_setup_entry rest with
          | Raise e => Raise e
          | Ok entities => Ok (__init__ sn current_is_on :: entities)
          end
      end
  end.

(** [async_update]: the refresh is awaited first; [coordinator_data] is
    the coordinator's data after it. *)
Definition async_update (self : t) (now : float) (coordinator_data : coordinator_data)
  : result (t * list action) :=
  match data_index coordinator_data (sn self) with
  | Raise e => Raise e
  | Ok data =>
      match _compute_is_on_from_data self now data with
      | Raise e => Raise e
      | Ok (is_on, self') =>
          Ok (mk (sn self') is_on (_last_command_ts self') (_last_command_target self'),
              [RequestRefresh; WriteHaState])
      end
  end.
End Compute.
End SemsSwitch.

(** ** config_flow.py *)

Module ConfigFlow.
Import SemsApiModel.

(** The user's input as [SEMS_CONFIG_SCHEMA] of [const.py] admits it:
    three required strings and an optional integer. *)
Record user_input : Type := mk_user_input {
  username : string;
  password : string;
  wallbox_serial_No : string;
  scan_interval : option Z
}.

(** The exceptions of the flow: its own two, and any other. *)
Inductive flow_exn : Type :=
  | CannotConnect
  | InvalidAuth
  | Unexpected (e : exn).

(** [async_show_form(step_id="user", ..., errors=errors)] and
    [async_create_entry(title=..., data=...)] *)
Inductive flow_result : Type :=
  | ShowForm (errors : gmap string string)
  | CreateEntry (title : string) (data : user_input).

Section Flow.
Context `{Builtins}.

(** [validate_input]: a client of its own is created and asked to
    authenticate.  [net] are the replies the network will give and [tr]
    the events so far; the result has the world of that client. *)
Definition validate_input (data : user_input) (net : list reply) (tr : list event)
  : (flow_exn + user_input) * world :=
  let (client, initialized) := __init__ (username data) (password data) in
  match test_authentication (mkWorld client net (tr ++ [initialized])) with
  | (Ok authenticated, w) =>
      if negb authenticated then (inl InvalidAuth, w) else (inr data, w)
  | (Raise e, w) => (inl (Unexpected e), w)
  end.

(** [async_step_user]: the result of the step, the replies left and the
    events. *)
Definition async_step_user (input : option user_input) (net : list reply)
    (tr : list event) : flow_result * list reply * list event :=
  match input with
  | None => (ShowForm ∅, net, tr)
  | Some data =>
      match validate_input data net tr with
      | (inl CannotConnect, w) =>
          (ShowForm {[ "base" := "cannot_connect" ]}, inbox w, trace w)
      | (inl InvalidAuth, w) =>
          (ShowForm {[ "base" := "invalid_auth" ]}, inbox w, trace w)
      | (inl (Unexpected _), w) =>
          (ShowForm {[ "base" := "unknown" ]}, inbox w,
           trace w ++ [Log ERROR "Unexpected exception during config flow"])
      | (inr info, w) =>
          (CreateEntry (wallbox_serial_No info) data, inbox w, trace w)
      end
  end.
End Flow.
End ConfigFlow.


(** * Properties *)

Import SemsApiModel.

(** ** The monad: how its operations run *)

Lemma run_bind {A B} (m : M A) (k : A -> M B) (w : world) :
  (m ≫= k) w =
  match m w with
  | (Ok a, w') => k a w'
  | (Raise e, w') => (Raise e, w')
  end.
Proof. reflexivity. Qed.

Lemma run_try_except {A} (m : M A) (h : exn -> M A) (w : world) :
  try_except m h w =
  match m w with
  | (Ok a, w') => (Ok a, w')
  | (Raise e, w') => h e w'
  end.
Proof. reflexivity. Qed.

(** A computation returns when it does not raise. *)
Definition returns {A} (m : M A) : Prop :=
  forall w, exists a w', m w = (Ok a, w').

Lemma try_except_returns {A} (m : M A) (h : exn -> M A) :
  (forall e, returns (h e)) -> returns (try_except m h).
Proof.
  intros Hh w. rewrite run_try_except.
  destruct (m w) as [[a|e] w']; [by eexists _, _ | apply Hh].
Qed.

Lemma log_then_ret_returns {A} (lvl : level) (text : string) (a : A) :
  returns (log lvl text;; mret a).
Proof. intros w. by eexists _, _. Qed.

(** Symbolic execution of the monad's operations on an explicit world. *)
Ltac exec1 :=
  cbv beta iota zeta delta
    [mbind M_bind mret M_ret ret raise lift log emit try_except get_token get_self
     set_token post raise_for_status response_json token_is_none];
  cbn [api inbox trace _token _username _password fst snd head tail negb andb orb
       value_get value_get_default value_index value_setitem is_none is_dict].
Ltac exec := repeat (progress exec1); rewrite <- ?app_assoc; cbn [app].

(** ** Token handling *)

(** What [_fetch_login_token] makes of the reply to its request: the
    token it returns, and what it logs. *)
Definition login_refused (j : gmap string value) : bool :=
  (truthy (dict_get j "hasError")
   || negb (eq_zero (dict_get j "code") || is_none (dict_get j "code")))%bool.

Definition login_token_of (r : option reply) : option token :=
  match r with
  | Some (Http s (Some (VDict j))) =>
      if http_error s then None
      else if login_refused j then None
      else match j !! "data" with
           | Some (VDict d) => Some (<["api" := dict_get j "api"]> d)
           | _ => None
           end
  | _ => None
  end.

Definition login_log (r : option reply) : list event :=
  match r with
  | Some (Http s (Some (VDict j))) =>
      if http_error s then [Log ERROR "Unable to fetch login token from SEMS API."]
      else if login_refused j then [Log ERROR "SEMS login returned error"]
      else match j !! "data" with
           | Some (VDict d) => []
           | _ => [Log ERROR "Unable to fetch login token from SEMS API."]
           end
  | _ => [Log ERROR "Unable to fetch login token from SEMS API."]
  end.

(** The world after a login request: the reply is consumed, the request
    and its logs are recorded, and the token is stored or cleared. *)
Definition after_login (w : world) : world :=
  let tok := login_token_of (head (inbox w)) in
  mkWorld (mkSemsApi (_username (api w)) (_password (api w)) tok) (tail (inbox w))
    (trace w ++ Post _LoginURL DefaultHeaders (login_payload (api w))
       :: login_log (head (inbox w))
       ++ [match tok with None => TokenCleared | Some t => TokenStored t end]).

Section TokenProperties.
Context `{Builtins}.

Lemma _fetch_login_token_spec (w : world) :
  _fetch_login_token w =
  (Ok (login_token_of (head (inbox w))),
   mkWorld (api w) (tail (inbox w))
     (trace w ++ Post _LoginURL DefaultHeaders (login_payload (api w))
        :: login_log (head (inbox w)))).
Proof.
  destruct w as [self inb tr].
  unfold _fetch_login_token, login_token_of, login_log.
  destruct inb as [|[|s [j|]] rest]; exec; try reflexivity.
  - destruct (http_error s) eqn:E; exec.
    + destruct j; reflexivity.
    + destruct j as [| | | | | |d]; exec; try reflexivity.
      unfold login_refused.
      destruct (truthy (dict_get d "hasError")
                || negb (eq_zero (dict_get d "code") || is_none (dict_get d "code")))%bool;
        exec; [reflexivity|].
      destruct (d !! "data") as [[]|]; exec; reflexivity.
  - destruct (http_error s) eqn:E; exec; reflexivity.
Qed.

Lemma _ensure_token_spec (renew : bool) (w : world) :
  _ensure_token renew w =
  if (token_is_none (_token (api w)) || renew)%bool then
    (Ok (negb (token_is_none (login_token_of (head (inbox w))))), after_login w)
  else (Ok true, w).
Proof.
  unfold _ensure_token, after_login. rewrite run_bind. unfold get_token at 1.
  destruct (token_is_none (_token (api w)) || renew)%bool; [|reflexivity].
  rewrite run_bind, _fetch_login_token_spec.
  destruct (login_token_of (head (inbox w))) as [t|]; exec; reflexivity.
Qed.

(** C8: [_ensure_token] returns [True] exactly when a token is cached
    afterwards (so [False] only with the token cleared), and with a cached
    token and [renew=False] it returns [True] and changes nothing: no login
    request is made and the cached token stays. *)
Theorem ensure_token_invariant (renew : bool) (w : world) :
  exists b : bool,
    fst (_ensure_token renew w) = Ok b /\
    (b = true <-> _token (api (snd (_ensure_token renew w))) <> None) /\
    (_token (api w) <> None -> renew = false ->
     b = true /\ snd (_ensure_token renew w) = w).
Proof.
  rewrite _ensure_token_spec. unfold after_login.
  destruct (_token (api w)) as [t0|] eqn:Et, renew; cbn [token_is_none orb].
  - destruct (login_token_of _) as [t|]; eexists; cbn;
      (split; [reflexivity|]); split; try split; try congruence; done.
  - exists true. cbn. rewrite Et. split; [done|]. split; [split; congruence|done].
  - destruct (login_token_of _) as [t|]; eexists; cbn;
      (split; [reflexivity|]); split; try split; try congruence; done.
  - destruct (login_token_of _) as [t|]; eexists; cbn;
      (split; [reflexivity|]); split; try split; try congruence; done.
Qed.

End TokenProperties.

(** ** The status fetch *)

(** Appending events to a world's trace, and clearing its token. *)
Definition record (es : list event) (w : world) : world :=
  mkWorld (api w) (inbox w) (trace w ++ es).

Definition clear_token (w : world) : world :=
  mkWorld (mkSemsApi (_username (api w)) (_password (api w)) None) (inbox w)
    (trace w ++ [TokenCleared]).

(** The world after one request: its reply is consumed. *)
Definition after_post (url : string) (h : headers) (payload : value) (w : world) : world :=
  mkWorld (api w) (tail (inbox w)) (trace w ++ [Post url h payload]).

Definition is_post (e : event) : bool :=
  match e with Post _ _ _ => true | _ => false end.

(** The requests of a trace. *)
Definition posts (tr : list event) : list event := List.filter is_post tr.

Definition is_clearing (e : event) : bool :=
  match e with TokenCleared => true | _ => false end.

(** The clearings of the cached token in a trace. *)
Definition clearings (tr : list event) : list event := List.filter is_clearing tr.

Inductive status_outcome : Type :=
  | StData (data : value)
  | StExpired
  | StFailed (logged : string).

Section GetData.
Context `{Builtins}.

(** What [getData] makes of the reply of the v3 endpoint. *)
Definition status_outcome_of (r : option reply) : status_outcome :=
  match r with
  | Some (Http s (Some (VDict j))) =>
      if http_error s then StFailed "Unable to fetch data from SEMS."
      else
        let data := dict_get j "data" in
        if (is_none data && expired (py_str (dict_get_default j "msg" (VStr ""))))%bool
        then StExpired
        else if is_none data then StFailed "Unable to fetch data from SEMS, message"
        else StData data
  | _ => StFailed "Unable to fetch data from SEMS."
  end.

Lemma getData_budget_O (v : bool) (sn : string) (renew : bool) (w : world) :
  getData_budget v O sn renew w =
  (Raise OutOfRetries,
   record [Log INFO "SEMS - Maximum token fetch tries reached, aborting for now"] w).
Proof. reflexivity. Qed.

Lemma getData_except_idem (m : M value) (w : world) :
  getData_except (getData_except m) w = getData_except m w.
Proof.
  unfold getData_except. rewrite !run_try_except.
  destruct (m w) as [[a|e] w']; [reflexivity|].
  destruct e; reflexivity.
Qed.

Lemma getData_budget_except (v : bool) (b : nat) (sn : string) (renew : bool) (w : world) :
  getData_except (getData_budget v b sn renew) w = getData_budget v b sn renew w.
Proof. destruct b; apply getData_except_idem. Qed.

Lemma getData_v3_cached (tok : token) (b : nat) (sn : string) (w : world) :
  _token (api w) = Some tok ->
  getData_budget false (S b) sn false w =
  let w1 := after_post _WallboxURL_V3 (TokenHeaders (Some tok)) (status_payload sn) w in
  match status_outcome_of (head (inbox w)) with
  | StData d => (Ok d, w1)
  | StFailed text => (Ok VNone, record [Log ERROR text] w1)
  | StExpired => getData_budget false b sn true (clear_token w1)
  end.
Proof.
  destruct w as [[u p t] inb tr]. cbn [api _token]. intros ->.
  cbn zeta. cbn [getData_budget]. unfold getData_except at 1.
  unfold _build_headers, fetch_status_json, v4_no_data_fallback, _resolve_status_url.
  unfold status_outcome_of, after_post, record, clear_token.
  exec. repeat (rewrite _ensure_token_spec; exec).
  destruct inb as [|[|s [j|]] rest]; exec; try reflexivity.
  - destruct (http_error s); exec; [destruct j; exec; reflexivity|].
    destruct j as [| | | | | |d]; exec; try reflexivity.
    destruct (is_none (dict_get d "data") && expired _)%bool; exec.
    + apply getData_budget_except.
    + destruct (is_none (dict_get d "data")); exec; reflexivity.
  - destruct (http_error s); exec; reflexivity.
Qed.

Lemma getData_renew (v : bool) (b : nat) (sn : string) (renew : bool) (w : world) :
  (token_is_none (_token (api w)) || renew)%bool = true ->
  getData_budget v (S b) sn renew w =
  match login_token_of (head (inbox w)) with
  | None =>
      (Ok VNone,
       record [Log ERROR "SEMS - Could not ensure token before getData"] (after_login w))
  | Some _ => getData_budget v (S b) sn false (after_login w)
  end.
Proof.
  intros Hr. cbn [getData_budget]. unfold getData_except.
  rewrite !run_try_except, !run_bind, !_ensure_token_spec, Hr.
  destruct (login_token_of (head (inbox w))) as [t|] eqn:Et;
    cbn [token_is_none negb orb _token api].
  - change (_token (api (after_login w))) with (login_token_of (head (inbox w))).
    rewrite Et. reflexivity.
  - reflexivity.
Qed.

(** The response the vendor gives when the token is no longer valid: a
    JSON object without [data] whose [msg] says so. *)
Definition auth_expired (body : option value) : bool :=
  (resp_no_data body && resp_expired body)%bool.

Lemma status_outcome_expired (s : Z) (body : option value) :
  http_error s = false -> auth_expired body = true ->
  status_outcome_of (Some (Http s body)) = StExpired.
Proof.
  unfold auth_expired, resp_no_data, resp_expired, status_outcome_of.
  intros -> Hb. destruct body as [[| | | | | |j]|]; try discriminate Hb.
  rewrite Hb. reflexivity.
Qed.

Lemma posts_app (l1 l2 : list event) : posts (l1 ++ l2) = posts l1 ++ posts l2.
Proof. apply List.filter_app. Qed.

Lemma posts_login_log (r : option reply) : posts (login_log r) = [].
Proof.
  unfold login_log. destruct r as [[|s [[| | | | | |j]|]]|]; try reflexivity.
  destruct (http_error s); [reflexivity|].
  destruct (login_refused j); [reflexivity|].
  destruct (j !! "data") as [[]|]; reflexivity.
Qed.

(** One attempt with a cached token and no retry left makes one request. *)
Lemma getData_last_attempt (tok : token) (sn : string) (w : world) :
  _token (api w) = Some tok ->
  exists tl,
    trace (snd (getData_budget false 1 sn false w)) =
      trace w ++ Post _WallboxURL_V3 (TokenHeaders (Some tok)) (status_payload sn) :: tl /\
    posts tl = [].
Proof.
  intros Ht. rewrite (getData_v3_cached tok) by exact Ht. cbn zeta.
  destruct (status_outcome_of (head (inbox w))).
  - exists []. split; reflexivity.
  - exists [TokenCleared; Log INFO "SEMS - Maximum token fetch tries reached, aborting for now"].
    rewrite getData_budget_O. cbn. rewrite <- !app_assoc. split; reflexivity.
  - exists [Log ERROR logged]. cbn. rewrite <- !app_assoc. split; reflexivity.
Qed.

Lemma getData_expired_once (tok : token) (sn : string) (s : Z) (body : option value)
    (rest : list reply) (w : world) :
  _token (api w) = Some tok ->
  inbox w = Http s body :: rest ->
  http_error s = false ->
  auth_expired body = true ->
  exists tl,
    trace (snd (getData false sn false 1 w)) =
      trace w ++ Post _WallboxURL_V3 (TokenHeaders (Some tok)) (status_payload sn)
              :: TokenCleared
              :: Post _LoginURL DefaultHeaders (login_payload (api w)) :: tl /\
    posts tl =
      match login_token_of (head rest) with
      | Some tok' => [Post _WallboxURL_V3 (TokenHeaders (Some tok')) (status_payload sn)]
      | None => []
      end.
Proof.
  intros Ht Hin Hs Hb. unfold getData. change (Z.to_nat (1 + 1)) with 2%nat.
  rewrite (getData_v3_cached tok) by exact Ht. cbn zeta.
  rewrite Hin. cbn [head]. rewrite status_outcome_expired by assumption.
  rewrite getData_renew by reflexivity.
  set (w1 := clear_token _).
  assert (Hw1 : inbox w1 = rest) by (unfold w1; cbn; by rewrite Hin).
  assert (Htr : trace w1 = trace w ++ [Post _WallboxURL_V3 (TokenHeaders (Some tok)) (status_payload sn); TokenCleared]).
  { unfold w1. cbn. by rewrite <- app_assoc. }
  assert (Hapi : login_payload (api w1) = login_payload (api w)) by reflexivity.
  rewrite Hw1.
  destruct (login_token_of (head rest)) as [tok'|] eqn:Hlogin.
  - destruct (getData_last_attempt tok' sn (after_login w1)) as (tl & Htl & Hp).
    { unfold after_login. cbn [api _token]. by rewrite Hw1. }
    rewrite Htl. unfold after_login. cbn [trace]. rewrite Htr, Hw1, Hlogin, Hapi.
    eexists. split.
    + rewrite <- !app_assoc. cbn [app]. reflexivity.
    + rewrite !posts_app, posts_login_log. cbn. change (List.filter is_post tl) with (posts tl). by rewrite Hp.
  - cbn [snd record trace]. unfold after_login. cbn [trace]. rewrite Htr, Hw1, Hlogin, Hapi.
    eexists. split.
    + rewrite <- !app_assoc. cbn [app]. reflexivity.
    + rewrite !posts_app, posts_login_log. reflexivity.
Qed.
End GetData.

(** ** The commands *)

Inductive command_outcome : Type :=
  | CmdDone                       (* the plain [return] at the end *)
  | CmdRetry                      (* token cleared, the call repeated *)
  | CmdNotSuccessful              (* warning logged *)
  | CmdRaised.                    (* [requests.post] raised, error logged *)

Section Commands.
Context `{Builtins}.

(** What a command makes of the reply to its request, given whether
    [maxTokenRetries > 0]. *)
Definition command_outcome_of (may_retry : bool) (r : option reply) : command_outcome :=
  match r with
  | Some (Http s body) =>
      if (negb (Z.eqb s 200) || (resp_no_data body && resp_expired body))%bool then
        if (resp_expired body && may_retry)%bool then CmdRetry else CmdNotSuccessful
      else CmdDone
  | _ => CmdRaised
  end.

Lemma change_status_budget_O (sn : string) (status : Z) (renew : bool) (w : world) :
  change_status_budget O sn status renew w =
  (Ok tt,
   record [Log INFO "SEMS - Maximum token fetch tries reached for change_status";
           Log ERROR "Unable to execute Power control command."] w).
Proof. unfold record. cbn [change_status_budget]. exec. reflexivity. Qed.

Lemma change_status_budget_returns (b : nat) (sn : string) (status : Z) (renew : bool) :
  returns (change_status_budget b sn status renew).
Proof.
  destruct b; apply try_except_returns; intros e w; by eexists _, _.
Qed.

Lemma try_except_of_returns {A} (m : M A) (h : exn -> M A) (w : world) :
  returns m -> try_except m h w = m w.
Proof.
  intros Hm. rewrite run_try_except. destruct (Hm w) as (a & w' & ->). reflexivity.
Qed.

Lemma change_status_cached (tok : token) (b : nat) (sn : string) (status : Z) (w : world) :
  _token (api w) = Some tok ->
  change_status_budget (S b) sn status false w =
  let w1 := after_post _PowerControlURL (TokenHeaders (Some tok))
              (change_status_payload sn status) w in
  match command_outcome_of (0 <? Z.of_nat b)%Z (head (inbox w)) with
  | CmdDone => (Ok tt, w1)
  | CmdRetry => change_status_budget b sn status true (clear_token w1)
  | CmdNotSuccessful => (Ok tt, record [Log WARNING "Power control command not successful"] w1)
  | CmdRaised => (Ok tt, record [Log ERROR "Unable to execute Power control command."] w1)
  end.
Proof.
  destruct w as [[u p t] inb tr]. cbn [api _token]. intros ->.
  cbn zeta. cbn [change_status_budget].
  unfold _build_headers, command_outcome_of, after_post, record, clear_token,
    change_status_payload.
  exec. repeat (rewrite _ensure_token_spec; exec).
  destruct inb as [|[|s body] rest]; exec; try reflexivity.
  destruct (negb (Z.eqb s 200) || resp_no_data body && resp_expired body)%bool; exec;
    [|reflexivity].
  destruct (resp_expired body && (0 <? Z.of_nat b)%Z)%bool; exec; [|reflexivity].
  match goal with
  | |- context [change_status_budget b sn status true ?w] =>
      destruct (change_status_budget_returns b sn status true w) as (a & w' & ->)
  end.
  reflexivity.
Qed.

Lemma change_status_renew (b : nat) (sn : string) (status : Z) (renew : bool) (w : world) :
  (token_is_none (_token (api w)) || renew)%bool = true ->
  change_status_budget (S b) sn status renew w =
  match login_token_of (head (inbox w)) with
  | None =>
      (Ok tt,
       record [Log ERROR "SEMS - Could not ensure token before change_status"]
         (after_login w))
  | Some _ => change_status_budget (S b) sn status false (after_login w)
  end.
Proof.
  intros Hr. cbn [change_status_budget].
  rewrite !run_try_except, !run_bind, !_ensure_token_spec, Hr.
  destruct (login_token_of (head (inbox w))) as [t|] eqn:Et;
    cbn [token_is_none negb orb _token api].
  - change (_token (api (after_login w))) with (login_token_of (head (inbox w))).
    rewrite Et. reflexivity.
  - reflexivity.
Qed.

Lemma set_charge_mode_budget_returns (b : nat) (sn : string) (mode power : value)
    (renew : bool) :
  returns (set_charge_mode_budget b sn mode power renew).
Proof.
  destruct b; apply try_except_returns; intros e w; by eexists _, _.
Qed.

Lemma set_charge_mode_cached (tok : token) (b : nat) (sn : string) (mode power : value)
    (w : world) :
  _token (api w) = Some tok ->
  set_charge_mode_budget (S b) sn mode power false w =
  let w1 := after_post _SetChargeModeURL (TokenHeaders (Some tok))
              (set_charge_mode_payload sn mode power) w in
  match command_outcome_of (0 <? Z.of_nat b)%Z (head (inbox w)) with
  | CmdDone => (Ok tt, w1)
  | CmdRetry => set_charge_mode_budget b sn mode power true (clear_token w1)
  | CmdNotSuccessful => (Ok tt, record [Log WARNING "SetChargeMode command not successful"] w1)
  | CmdRaised => (Ok tt, record [Log ERROR "Unable to execute SetChargeMode command."] w1)
  end.
Proof.
  destruct w as [[u p t] inb tr]. cbn [api _token]. intros ->.
  cbn zeta. cbn [set_charge_mode_budget].
  unfold _build_headers, command_outcome_of, after_post, record, clear_token,
    set_charge_mode_payload.
  exec. repeat (rewrite _ensure_token_spec; exec).
  destruct inb as [|[|s body] rest]; exec; try reflexivity.
  destruct (negb (Z.eqb s 200) || resp_no_data body && resp_expired body)%bool; exec;
    [|reflexivity].
  destruct (resp_expired body && (0 <? Z.of_nat b)%Z)%bool; exec; [|reflexivity].
  match goal with
  | |- context [set_charge_mode_budget b sn mode power true ?w] =>
      destruct (set_charge_mode_budget_returns b sn mode power true w) as (a & w' & ->)
  end.
  reflexivity.
Qed.

Lemma set_charge_mode_renew (b : nat) (sn : string) (mode power : value) (renew : bool)
    (w : world) :
  (token_is_none (_token (api w)) || renew)%bool = true ->
  set_charge_mode_budget (S b) sn mode power renew w =
  match login_token_of (head (inbox w)) with
  | None =>
      (Ok tt,
       record [Log ERROR "SEMS - Could not ensure token before set_charge_mode"]
         (after_login w))
  | Some _ => set_charge_mode_budget (S b) sn mode power false (after_login w)
  end.
Proof.
  intros Hr. cbn [set_charge_mode_budget].
  rewrite !run_try_except, !run_bind, !_ensure_token_spec, Hr.
  destruct (login_token_of (head (inbox w))) as [t|] eqn:Et;
    cbn [token_is_none negb orb _token api].
  - change (_token (api (after_login w))) with (login_token_of (head (inbox w))).
    rewrite Et. reflexivity.
  - reflexivity.
Qed.

(** With no retry left an expired response is not retried: the outcome
    of a command is never [CmdRetry]. *)
Lemma command_outcome_no_retry (r : option reply) :
  command_outcome_of false r <> CmdRetry.
Proof.
  unfold command_outcome_of. destruct r as [[|s body]|]; try discriminate.
  destruct (negb _ || _)%bool; [|discriminate].
  rewrite andb_false_r. discriminate.
Qed.

Lemma command_outcome_expired (s : Z) (body : option value) :
  auth_expired body = true ->
  command_outcome_of true (Some (Http s body)) = CmdRetry.
Proof.
  unfold auth_expired, command_outcome_of. intros Hb. rewrite Hb.
  apply andb_prop in Hb as [_ ->]. by rewrite orb_true_r.
Qed.

(** A command attempt with a cached token and no retry left makes one
    request, and does not clear the token. *)
Lemma change_status_last_attempt (tok : token) (sn : string) (status : Z) (w : world) :
  _token (api w) = Some tok ->
  exists tl,
    trace (snd (change_status_budget 1 sn status false w)) =
      trace w ++ Post _PowerControlURL (TokenHeaders (Some tok))
                   (change_status_payload sn status) :: tl /\
    posts tl = [] /\ clearings tl = [].
Proof.
  intros Ht. rewrite (change_status_cached tok) by exact Ht. cbn zeta.
  change (0 <? Z.of_nat 0)%Z with false.
  pose proof (command_outcome_no_retry (head (inbox w))) as Hn.
  destruct (command_outcome_of false (head (inbox w))); try done.
  - exists []. done.
  - eexists. cbn. rewrite <- !app_assoc. done.
  - eexists. cbn. rewrite <- !app_assoc. done.
Qed.

Lemma set_charge_mode_last_attempt (tok : token) (sn : string) (mode power : value)
    (w : world) :
  _token (api w) = Some tok ->
  exists tl,
    trace (snd (set_charge_mode_budget 1 sn mode power false w)) =
      trace w ++ Post _SetChargeModeURL (TokenHeaders (Some tok))
                   (set_charge_mode_payload sn mode power) :: tl /\
    posts tl = [] /\ clearings tl = [].
Proof.
  intros Ht. rewrite (set_charge_mode_cached tok) by exact Ht. cbn zeta.
  change (0 <? Z.of_nat 0)%Z with false.
  pose proof (command_outcome_no_retry (head (inbox w))) as Hn.
  destruct (command_outcome_of false (head (inbox w))); try done.
  - exists []. done.
  - eexists. cbn. rewrite <- !app_assoc. done.
  - eexists. cbn. rewrite <- !app_assoc. done.
Qed.
End Commands.

(** ** Expired authorization *)

(** What follows the first request when its response says that the
    authorization has expired: the token is cleared and a login is
    requested; [retry_after_login] is the one request that follows a
    successful login. *)
Definition relogin (w : world) : list event :=
  [TokenCleared; Post _LoginURL DefaultHeaders (login_payload (api w))].

Definition retry_after_login (url : string) (payload : value) (login_reply : option reply)
  : list event :=
  match login_token_of login_reply with
  | Some tok' => [Post url (TokenHeaders (Some tok')) payload]
  | None => []
  end.

Section ExpiredAuthorization.
Context `{Builtins}.

Lemma clearings_app (l1 l2 : list event) :
  clearings (l1 ++ l2) = clearings l1 ++ clearings l2.
Proof. apply List.filter_app. Qed.

Lemma change_status_expired_once (tok : token) (sn : string) (status s : Z)
    (body : option value) (rest : list reply) (w : world) :
  _token (api w) = Some tok ->
  inbox w = Http s body :: rest ->
  auth_expired body = true ->
  exists tl,
    trace (snd (change_status sn status false 1 w)) =
      trace w ++ Post _PowerControlURL (TokenHeaders (Some tok))
                   (change_status_payload sn status) :: relogin w ++ tl /\
    posts tl = retry_after_login _PowerControlURL (change_status_payload sn status)
                 (head rest).
Proof.
  intros Ht Hin Hb. unfold change_status, retry_after_login, relogin.
  change (Z.to_nat (1 + 1)) with 2%nat.
  rewrite (change_status_cached tok) by exact Ht. cbn zeta.
  rewrite Hin. cbn [head]. change (0 <? Z.of_nat 1)%Z with true.
  rewrite command_outcome_expired by assumption.
  rewrite change_status_renew by reflexivity.
  set (w1 := clear_token _).
  assert (Hw1 : inbox w1 = rest) by (unfold w1; cbn; by rewrite Hin).
  assert (Htr : trace w1 = trace w ++ [Post _PowerControlURL (TokenHeaders (Some tok))
                                         (change_status_payload sn status); TokenCleared]).
  { unfold w1. cbn. by rewrite <- app_assoc. }
  assert (Hapi : login_payload (api w1) = login_payload (api w)) by reflexivity.
  rewrite Hw1.
  destruct (login_token_of (head rest)) as [tok'|] eqn:Hlogin.
  - destruct (change_status_last_attempt tok' sn status (after_login w1))
      as (tl & Htl & Hp & _).
    { unfold after_login. cbn [api _token]. by rewrite Hw1. }
    rewrite Htl. unfold after_login. cbn [trace]. rewrite Htr, Hw1, Hlogin, Hapi.
    eexists. split.
    + rewrite <- !app_assoc. cbn [app]. reflexivity.
    + rewrite !posts_app, posts_login_log. cbn.
      change (List.filter is_post tl) with (posts tl). by rewrite Hp.
  - cbn [snd record trace]. unfold after_login. cbn [trace]. rewrite Htr, Hw1, Hlogin, Hapi.
    eexists. split.
    + rewrite <- !app_assoc. cbn [app]. reflexivity.
    + rewrite !posts_app, posts_login_log. reflexivity.
Qed.

Lemma set_charge_mode_expired_once (tok : token) (sn : string) (mode power : value)
    (s : Z) (body : option value) (rest : list reply) (w : world) :
  _token (api w) = Some tok ->
  inbox w = Http s body :: rest ->
  auth_expired body = true ->
  exists tl,
    trace (snd (set_charge_mode sn mode power false 1 w)) =
      trace w ++ Post _SetChargeModeURL (TokenHeaders (Some tok))
                   (set_charge_mode_payload sn mode power) :: relogin w ++ tl /\
    posts tl = retry_after_login _SetChargeModeURL (set_charge_mode_payload sn mode power)
                 (head rest).
Proof.
  intros Ht Hin Hb. unfold set_charge_mode, retry_after_login, relogin.
  change (Z.to_nat (1 + 1)) with 2%nat.
  rewrite (set_charge_mode_cached tok) by exact Ht. cbn zeta.
  rewrite Hin. cbn [head]. change (0 <? Z.of_nat 1)%Z with true.
  rewrite command_outcome_expired by assumption.
  rewrite set_charge_mode_renew by reflexivity.
  set (w1 := clear_token _).
  assert (Hw1 : inbox w1 = rest) by (unfold w1; cbn; by rewrite Hin).
  assert (Htr : trace w1 = trace w ++ [Post _SetChargeModeURL (TokenHeaders (Some tok))
                                         (set_charge_mode_payload sn mode power);
                                       TokenCleared]).
  { unfold w1. cbn. by rewrite <- app_assoc. }
  assert (Hapi : login_payload (api w1) = login_payload (api w)) by reflexivity.
  rewrite Hw1.
  destruct (login_token_of (head rest)) as [tok'|] eqn:Hlogin.
  - destruct (set_charge_mode_last_attempt tok' sn mode power (after_login w1))
      as (tl & Htl & Hp & _).
    { unfold after_login. cbn [api _token]. by rewrite Hw1. }
    rewrite Htl. unfold after_login. cbn [trace]. rewrite Htr, Hw1, Hlogin, Hapi.
    eexists. split.
    + rewrite <- !app_assoc. cbn [app]. reflexivity.
    + rewrite !posts_app, posts_login_log. cbn.
      change (List.filter is_post tl) with (posts tl). by rewrite Hp.
  - cbn [snd record trace]. unfold after_login. cbn [trace]. rewrite Htr, Hw1, Hlogin, Hapi.
    eexists. split.
    + rewrite <- !app_assoc. cbn [app]. reflexivity.
    + rewrite !posts_app, posts_login_log. reflexivity.
Qed.
End ExpiredAuthorization.

(** ** The coordinator *)

Import SemsUpdateCoordinator.

(** What [_async_update_data] makes of the outcome of [getData]. *)
Definition update_of (r : result value) : result coordinator_data :=
  match r with
  | Raise OutOfRetries => Raise (UpdateFailed TooManyRetries)
  | Raise _ => Raise (UpdateFailed ErrorCommunicating)
  | Ok VNone => Raise (UpdateFailed NoDataReceived)
  | Ok (VDict fetched) =>
      let sn := dict_get fetched "sn" in
      if negb (truthy sn) then Raise (UpdateFailed MissingSn)
      else if negb (hashable sn) then Raise TypeError
      else Ok [(sn, fetched)]
  | Ok _ => Raise AttributeError
  end.

Section Coordinator.
Context `{Builtins}.

Lemma _async_update_data_spec (station : string) (w : world) :
  _async_update_data station w =
  (update_of (fst (getData _USE_V4_STATUS station false 1 w)),
   snd (getData _USE_V4_STATUS station false 1 w)).
Proof.
  unfold _async_update_data. rewrite run_bind, run_try_except.
  destruct (getData _USE_V4_STATUS station false 1 w) as [[v|e] w']; cbn [fst snd].
  - destruct v as [| | | | | |fetched]; try reflexivity.
    cbn [is_none update_of].
    destruct (negb (truthy (dict_get fetched "sn"))); [reflexivity|].
    destruct (negb (hashable (dict_get fetched "sn"))); reflexivity.
  - destruct e; reflexivity.
Qed.

Lemma getData_exhausted (v : bool) (sn : string) (renew : bool) (r : Z) (w : world) :
  r < 0 ->
  getData v sn renew r w =
  (Raise OutOfRetries,
   record [Log INFO "SEMS - Maximum token fetch tries reached, aborting for now"] w).
Proof.
  intros Hr. unfold getData.
  replace (Z.to_nat (r + 1)) with 0%nat by lia.
  apply getData_budget_O.
Qed.

(** C2: entered with [maxTokenRetries < 0], [getData] raises
    [OutOfRetries] and returns no value; and the poll fails with the
    "too many retries" [UpdateFailed] exactly when its call of [getData]
    raises [OutOfRetries]. *)
Theorem exhausted_retries_fail_update (v : bool) (sn : string) (renew : bool) (r : Z)
    (w : world) (station : string) (w0 : world) :
  r < 0 ->
  fst (getData v sn renew r w) = Raise OutOfRetries /\
  (fst (getData _USE_V4_STATUS station false 1 w0) = Raise OutOfRetries <->
   fst (_async_update_data station w0) = Raise (UpdateFailed TooManyRetries)).
Proof.
  intros Hr. split.
  - by rewrite getData_exhausted.
  - rewrite _async_update_data_spec. cbn [fst].
    destruct (fst (getData _USE_V4_STATUS station false 1 w0)) as [val|e].
    + split; [discriminate|].
      destruct val as [| | | | | |fetched]; try discriminate.
      cbn [update_of]. destruct (negb _); [discriminate|].
      destruct (negb _); discriminate.
    + destruct e; split; (discriminate || reflexivity).
Qed.

(** C4: a successful update returns the dictionary with the one key
    [sn], the serial number of the fetched reading, mapped to the whole
    reading, so that looking the serial number up gives the fresh reading
    whatever was held before; and a reading without a serial number, or
    with an empty one, is not stored: the update fails. *)
Theorem update_holds_one_reading (station : string) (w : world) :
  (forall data : coordinator_data,
     fst (_async_update_data station w) = Ok data ->
     exists fetched : gmap string value,
       fst (getData _USE_V4_STATUS station false 1 w) = Ok (VDict fetched) /\
       truthy (dict_get fetched "sn") = true /\
       data = [(dict_get fetched "sn", fetched)] /\
       fst <$> data = [dict_get fetched "sn"] /\
       (forall s, dict_get fetched "sn" = VStr s ->
          data_get data s = fetched /\ data_index data s = Ok fetched)) /\
  (forall fetched : gmap string value,
     fst (getData _USE_V4_STATUS station false 1 w) = Ok (VDict fetched) ->
     fetched !! "sn" = None \/ fetched !! "sn" = Some (VStr "") ->
     fst (_async_update_data station w) = Raise (UpdateFailed MissingSn)).
Proof.
  rewrite _async_update_data_spec. cbn [fst]. split.
  - intros data.
    destruct (fst (getData _USE_V4_STATUS station false 1 w)) as [val|e];
      [|destruct e; discriminate].
    destruct val as [| | | | | |fetched]; try discriminate.
    cbn [update_of]. destruct (truthy (dict_get fetched "sn")) eqn:Hsn; [|discriminate].
    cbn [negb]. destruct (negb (hashable _)); [discriminate|].
    intros [= <-]. exists fetched.
    split; [reflexivity|]. split; [exact Hsn|]. do 2 (split; [reflexivity|]).
    intros s Hs. cbn. rewrite Hs. cbn. by rewrite String.eqb_refl.
  - intros fetched -> Hsn. cbn [update_of].
    assert (truthy (dict_get fetched "sn") = false) as ->; [|reflexivity].
    unfold dict_get. by destruct Hsn as [-> | ->].
Qed.
End Coordinator.

(** ** Network and vendor errors *)

(** A warning or an error was logged. *)
Definition is_failure_log (e : event) : bool :=
  match e with Log WARNING _ | Log ERROR _ => true | _ => false end.

Definition failure_logged (tr : list event) : bool := existsb is_failure_log tr.

Section Errors.
Context `{Builtins}.

(** The replies to the status request that [getData] gives up on: no
    reply or an exception of [requests.post], an HTTP error status, a body
    that is no JSON object, or one without [data] that does not say that
    the authorization has expired. *)
Definition fetch_failed (r : option reply) : bool :=
  match r with
  | None | Some NetFail => true
  | Some (Http s body) =>
      http_error s ||
      match body with
      | Some (VDict j) =>
          is_none (dict_get j "data")
          && negb (expired (py_str (dict_get_default j "msg" (VStr ""))))
      | _ => true
      end
  end.

(** The replies to a command's request that the command reports: an
    exception of [requests.post], or a status other than 200 on a response
    that does not say that the authorization has expired. *)
Definition command_failed (r : option reply) : bool :=
  match r with
  | None | Some NetFail => true
  | Some (Http s body) => negb (Z.eqb s 200) && negb (resp_expired body)
  end.

Lemma fetch_failed_outcome (r : option reply) :
  fetch_failed r = true -> exists text, status_outcome_of r = StFailed text.
Proof.
  unfold fetch_failed, status_outcome_of.
  destruct r as [[|s [[| | | | | |j]|]]|]; try (intros _; by eexists).
  destruct (http_error s); [intros _; by eexists|]. cbn [orb].
  destruct (is_none (dict_get j "data")); [|discriminate]. cbn [andb].
  destruct (expired _); [discriminate|]. intros _. by eexists.
Qed.

Lemma command_failed_outcome (may_retry : bool) (r : option reply) :
  command_failed r = true ->
  command_outcome_of may_retry r = CmdNotSuccessful \/
  command_outcome_of may_retry r = CmdRaised.
Proof.
  unfold command_failed, command_outcome_of.
  destruct r as [[|s body]|]; try (intros _; by right).
  intros [-> Hb]%andb_prop. apply negb_true_iff in Hb as ->. by left.
Qed.
End Errors.

(** ** The two endpoints of the status fetch *)

(** A computation only ever appends to the trace. *)
Definition extends {A} (m : M A) : Prop :=
  forall w, exists tl, trace (snd (m w)) = trace w ++ tl.

Lemma extends_ret {A} (a : A) : extends (mret a).
Proof. intros w. exists []. cbn. by rewrite app_nil_r. Qed.

Lemma extends_raise {A} (e : exn) : extends (@raise A e).
Proof. intros w. exists []. cbn. by rewrite app_nil_r. Qed.

Lemma extends_lift {A} (r : result A) : extends (lift r).
Proof. intros w. exists []. cbn. by rewrite app_nil_r. Qed.

Lemma extends_log (lvl : level) (text : string) : extends (log lvl text).
Proof. intros w. by eexists. Qed.

Lemma extends_set_token (t : option token) : extends (set_token t).
Proof. intros w. by eexists. Qed.

Lemma extends_get_token : extends get_token.
Proof. intros w. exists []. cbn. by rewrite app_nil_r. Qed.

Lemma extends_post (url : string) (h : headers) (payload : value) :
  extends (post url h payload).
Proof. intros w. unfold post. destruct (inbox w) as [|[|s j] rest]; by eexists. Qed.

Lemma extends_bind {A B} (m : M A) (k : A -> M B) :
  extends m -> (forall a, extends (k a)) -> extends (m ≫= k).
Proof.
  intros Hm Hk w. rewrite run_bind. destruct (Hm w) as (tl & Htl).
  destruct (m w) as [[a|e] w']; cbn [snd] in *.
  - destruct (Hk a w') as (tl' & Htl'). exists (tl ++ tl').
    by rewrite Htl', Htl, app_assoc.
  - by exists tl.
Qed.

Lemma extends_try_except {A} (m : M A) (h : exn -> M A) :
  extends m -> (forall e, extends (h e)) -> extends (try_except m h).
Proof.
  intros Hm Hh w. rewrite run_try_except. destruct (Hm w) as (tl & Htl).
  destruct (m w) as [[a|e] w']; cbn [snd] in *.
  - by exists tl.
  - destruct (Hh e w') as (tl' & Htl'). exists (tl ++ tl').
    by rewrite Htl', Htl, app_assoc.
Qed.

Lemma extends_raise_for_status (r : response) : extends (raise_for_status r).
Proof.
  unfold raise_for_status. destruct (http_error _); [apply extends_raise|apply extends_ret].
Qed.

Lemma extends_response_json (r : response) : extends (response_json r).
Proof.
  unfold response_json. destruct (snd r); [apply extends_ret|apply extends_raise].
Qed.

Create HintDb extends.
#[local] Hint Resolve extends_ret extends_raise extends_lift extends_log extends_set_token
  extends_get_token extends_post extends_raise_for_status extends_response_json : extends.

Ltac extends_step :=
  first
    [ apply extends_bind; [|intros ?]
    | apply extends_try_except; [|intros ?]
    | solve [auto with extends]
    | match goal with
      | |- extends (if ?b then _ else _) => destruct b
      | |- extends (match ?x with _ => _ end) => destruct x
      end ].

Section Endpoints.
Context `{Builtins}.

Lemma extends_ensure_token (renew : bool) : extends (_ensure_token renew).
Proof.
  intros w. rewrite _ensure_token_spec.
  destruct (_ || _)%bool; [by eexists|]. exists []. cbn. by rewrite app_nil_r.
Qed.

Lemma extends_build_headers : extends _build_headers.
Proof.
  unfold _build_headers. apply extends_bind; [apply extends_ensure_token|intros ok].
  repeat extends_step.
Qed.

Lemma extends_fetch_status_json (v : bool) (url : string) (h : headers) (payload : value) :
  extends (fetch_status_json v url h payload).
Proof. unfold fetch_status_json. repeat extends_step. Qed.

Lemma extends_v4_no_data_fallback (v : bool) (url : string) (h : headers) (payload : value)
    (data : value) (msg : string) :
  extends (v4_no_data_fallback v url h payload data msg).
Proof. unfold v4_no_data_fallback. repeat extends_step. Qed.

Lemma extends_getData_budget (v : bool) (b : nat) (sn : string) (renew : bool) :
  extends (getData_budget v b sn renew).
Proof.
  revert renew. induction b as [|b IH]; intros renew; cbn [getData_budget];
    unfold getData_except.
  - repeat extends_step.
  - apply extends_try_except; [|intros e; repeat extends_step].
    apply extends_bind; [apply extends_ensure_token|intros ok].
    destruct (negb ok); [repeat extends_step|].
    apply extends_bind; [apply extends_build_headers|intros hdrs].
    apply extends_bind; [apply extends_fetch_status_json|intros j].
    do 2 (apply extends_bind; [auto with extends|intros ?]).
    apply extends_bind; [apply extends_v4_no_data_fallback|intros dm].
    destruct (_ && _)%bool.
    + apply extends_bind; [auto with extends|intros _]. apply IH.
    + repeat extends_step.
Qed.

(** [m], run in [w], first does the events [es]. *)
Definition starts_with {A} (es : list event) (m : M A) (w : world) : Prop :=
  exists tl, trace (snd (m w)) = trace w ++ es ++ tl.

Lemma starts_with_bind {A B} (es : list event) (m : M A) (k : A -> M B) (w : world) :
  starts_with es m w -> (forall a, extends (k a)) -> starts_with es (m ≫= k) w.
Proof.
  intros (tl & Htl) Hk. unfold starts_with. rewrite run_bind.
  destruct (m w) as [[a|e] w']; cbn [snd] in *.
  - destruct (Hk a w') as (tl' & Htl'). exists (tl ++ tl').
    by rewrite Htl', Htl, <- !app_assoc.
  - by exists tl.
Qed.

Lemma starts_with_try_except {A} (es : list event) (m : M A) (h : exn -> M A) (w : world) :
  starts_with es m w -> (forall e, extends (h e)) -> starts_with es (try_except m h) w.
Proof.
  intros (tl & Htl) Hh. unfold starts_with. rewrite run_try_except.
  destruct (m w) as [[a|e] w']; cbn [snd] in *.
  - by exists tl.
  - destruct (Hh e w') as (tl' & Htl'). exists (tl ++ tl').
    by rewrite Htl', Htl, <- !app_assoc.
Qed.

(** The continuation of [getData] after the first response was read. *)
Definition getData_rest (v : bool) (b : nat) (sn url : string) (hdrs : headers)
    (json_response : value) : M value :=
  data ← lift (value_get json_response "data");
  msg ← lift (value_get_default json_response "msg" (VStr ""));
  dm ← v4_no_data_fallback v url hdrs (status_payload sn) data (py_str msg);
  if (is_none (fst dm) && expired (snd dm))%bool then
    set_token None;; getData_budget v b sn true
  else if is_none (fst dm) then
    log ERROR "Unable to fetch data from SEMS, message";; mret VNone
  else mret (fst dm).

Lemma extends_getData_tail (v : bool) (b : nat) (sn : string) (dm : value * string) :
  extends
    (if (is_none (fst dm) && expired (snd dm))%bool then
       set_token None;; getData_budget v b sn true
     else if is_none (fst dm) then
       log ERROR "Unable to fetch data from SEMS, message";; mret VNone
     else mret (fst dm)).
Proof.
  destruct (_ && _)%bool.
  - apply extends_bind; [auto with extends|intros _]. apply extends_getData_budget.
  - repeat extends_step.
Qed.

Lemma extends_getData_rest (v : bool) (b : nat) (sn url : string) (hdrs : headers)
    (json_response : value) :
  extends (getData_rest v b sn url hdrs json_response).
Proof.
  unfold getData_rest.
  do 2 (apply extends_bind; [auto with extends|intros ?]).
  apply extends_bind; [apply extends_v4_no_data_fallback|intros dm].
  apply extends_getData_tail.
Qed.

Lemma extends_getData_handler (e : exn) :
  extends
    (match e with
     | OutOfRetries => raise OutOfRetries
     | _ => log ERROR "Unable to fetch data from SEMS.";; mret VNone
     end).
Proof. destruct e; repeat extends_step. Qed.

Lemma getData_cached_unfold (v : bool) (tok : token) (b : nat) (sn : string) (w : world) :
  _token (api w) = Some tok ->
  getData_budget v (S b) sn false w =
  getData_except
    (json_response ← fetch_status_json v (_resolve_status_url v) (TokenHeaders (Some tok))
                       (status_payload sn);
     getData_rest v b sn (_resolve_status_url v) (TokenHeaders (Some tok)) json_response) w.
Proof.
  intros Ht. cbn [getData_budget]. unfold getData_except.
  rewrite !run_try_except. f_equal.
  rewrite run_bind, _ensure_token_spec, Ht. cbn [token_is_none orb negb].
  unfold _build_headers. rewrite !run_bind, _ensure_token_spec, Ht.
  cbn [token_is_none orb negb].
  change ((get_token ≫= λ tok0 : option token, mret (TokenHeaders tok0)) w)
    with (Ok (TokenHeaders (_token (api w))), w).
  rewrite Ht. reflexivity.
Qed.

(** With a cached token, what [getData] starts with is what its first
    fetch starts with. *)
Lemma getData_starts_as_fetch (v : bool) (tok : token) (b : nat) (sn : string)
    (es : list event) (w : world) :
  _token (api w) = Some tok ->
  starts_with es
    (fetch_status_json v (_resolve_status_url v) (TokenHeaders (Some tok))
       (status_payload sn)) w ->
  starts_with es (getData_budget v (S b) sn false) w.
Proof.
  intros Ht Hfetch. unfold starts_with. rewrite (getData_cached_unfold v tok) by exact Ht.
  apply starts_with_try_except; [|apply extends_getData_handler].
  apply (starts_with_bind es _ _ w Hfetch). intros j. apply extends_getData_rest.
Qed.

Lemma starts_with_after {A B} (es1 es2 : list event) (m : M A) (k : A -> M B)
    (a : A) (w w1 : world) :
  m w = (Ok a, w1) -> trace w1 = trace w ++ es1 ->
  starts_with es2 (k a) w1 -> starts_with (es1 ++ es2) (m ≫= k) w.
Proof.
  intros Hm Hw1 (tl & Htl). exists tl. rewrite run_bind, Hm, Htl, Hw1.
  by rewrite <- !app_assoc.
Qed.

Lemma fetch_starts_with_request (v : bool) (url : string) (h : headers) (p : value)
    (w : world) :
  starts_with [Post url h p] (fetch_status_json v url h p) w.
Proof.
  unfold fetch_status_json.
  apply starts_with_try_except; [|intros e; repeat extends_step].
  apply starts_with_bind; [|intros r; repeat extends_step].
  unfold starts_with, post. destruct (inbox w) as [|[|s j] rest]; by exists [].
Qed.

Definition WARN_404 := Log WARNING "v4 endpoint 404, falling back to v3".
Definition WARN_NO_DATA :=
  Log WARNING "v4 endpoint returned success but no data, falling back to v3 once".

Lemma fetch_v4_404 (h : headers) (p : value) (body : option value) (rest : list reply)
    (w : world) :
  inbox w = Http 404 body :: rest ->
  starts_with [Post _WallboxURL_V4 h p; WARN_404; Post _WallboxURL_V3 h p]
    (fetch_status_json true _WallboxURL_V4 h p) w.
Proof.
  destruct w as [a inb tr]. cbn [inbox]. intros ->.
  unfold fetch_status_json, starts_with. exec.
  change (http_error 404) with true. exec.
  change (endswith _WallboxURL_V4 "GetEvChargerMoreView") with true.
  change (Z.eqb 404 404) with true. exec.
  destruct rest as [|[|s2 b2] rest']; exec; try by eexists.
  destruct (http_error s2); exec; [by eexists|].
  destruct b2; exec; by eexists.
Qed.

Lemma fallback_starts_with_v3 (h : headers) (p : value) (msg : string) (w : world) :
  contains SUCCESS_MARK msg = true ->
  starts_with [WARN_NO_DATA; Post _WallboxURL_V3 h p]
    (v4_no_data_fallback true _WallboxURL_V4 h p VNone msg) w.
Proof.
  intros Hm. destruct w as [a inb tr].
  unfold v4_no_data_fallback, starts_with.
  change (endswith _WallboxURL_V4 "GetEvChargerMoreView") with true. rewrite Hm. exec.
  destruct inb as [|[|s2 b2] rest']; exec; try by eexists.
  destruct (http_error s2); exec; [by eexists|].
  destruct b2 as [[| | | | | |d]|]; exec; by eexists.
Qed.

(** Without the vendor's word for success in [msg], the branch for a v4
    response without data does nothing. *)
Lemma fallback_needs_success_mark (v : bool) (url : string) (h : headers) (p : value)
    (data : value) (msg : string) (w : world) :
  contains SUCCESS_MARK msg = false ->
  v4_no_data_fallback v url h p data msg w = (Ok (data, msg), w).
Proof.
  intros Hm. unfold v4_no_data_fallback. rewrite Hm.
  destruct (_ && _)%bool; reflexivity.
Qed.

Lemma fetch_ok (v : bool) (url : string) (h : headers) (p : value) (s : Z) (j : value)
    (rest : list reply) (w : world) :
  inbox w = Http s (Some j) :: rest -> http_error s = false ->
  fetch_status_json v url h p w = (Ok j, after_post url h p w).
Proof.
  destruct w as [a inb tr]. cbn [inbox]. intros -> Hs.
  unfold fetch_status_json, after_post. exec. rewrite Hs. exec. reflexivity.
Qed.

Lemma is_none_true (x : value) : is_none x = true -> x = VNone.
Proof. by destruct x. Qed.

Lemma getData_v4_success_without_data (tok : token) (b : nat) (sn : string) (s : Z)
    (j : gmap string value) (rest : list reply) (w : world) :
  _token (api w) = Some tok ->
  inbox w = Http s (Some (VDict j)) :: rest ->
  http_error s = false ->
  is_none (dict_get j "data") = true ->
  contains SUCCESS_MARK (py_str (dict_get_default j "msg" (VStr ""))) = true ->
  starts_with
    [Post _WallboxURL_V4 (TokenHeaders (Some tok)) (status_payload sn); WARN_NO_DATA;
     Post _WallboxURL_V3 (TokenHeaders (Some tok)) (status_payload sn)]
    (getData_budget true (S b) sn false) w.
Proof.
  intros Ht Hin Hs Hd Hm. unfold starts_with.
  rewrite (getData_cached_unfold true tok) by exact Ht.
  apply starts_with_try_except; [|apply extends_getData_handler].
  apply (starts_with_after [_] [_; _] _ _ (VDict j) w
           (after_post _WallboxURL_V4 (TokenHeaders (Some tok)) (status_payload sn) w)).
  - by apply (fetch_ok _ _ _ _ s _ rest).
  - reflexivity.
  - unfold getData_rest. cbn [value_get value_get_default lift].
    apply is_none_true in Hd. rewrite Hd.
    set (w1 := after_post _ _ _ w).
    change (starts_with [WARN_NO_DATA; Post _WallboxURL_V3 (TokenHeaders (Some tok)) (status_payload sn)]
      (v4_no_data_fallback true _WallboxURL_V4 (TokenHeaders (Some tok)) (status_payload sn)
         VNone (py_str (dict_get_default j "msg" (VStr ""))) ≫=
       (fun dm => if (is_none (fst dm) && expired (snd dm))%bool then
          set_token None;; getData_budget true b sn true
        else if is_none (fst dm) then
          log ERROR "Unable to fetch data from SEMS, message";; mret VNone
        else mret (fst dm))) w1).
    apply starts_with_bind; [by apply fallback_starts_with_v3|].
    intros dm. apply extends_getData_tail.
Qed.

(** With no retry left, that fallback request is the last request. *)
Lemma getData_v4_fallback_once (tok : token) (sn : string) (s : Z)
    (j : gmap string value) (rest : list reply) (w : world) :
  _token (api w) = Some tok ->
  inbox w = Http s (Some (VDict j)) :: rest ->
  http_error s = false ->
  is_none (dict_get j "data") = true ->
  contains SUCCESS_MARK (py_str (dict_get_default j "msg" (VStr ""))) = true ->
  exists tl,
    trace (snd (getData_budget true 1 sn false w)) =
      trace w ++ [Post _WallboxURL_V4 (TokenHeaders (Some tok)) (status_payload sn);
                  WARN_NO_DATA;
                  Post _WallboxURL_V3 (TokenHeaders (Some tok)) (status_payload sn)] ++ tl /\
    posts tl = [].
Proof.
  destruct w as [[u p t] inb tr]. cbn [api _token inbox trace]. intros -> -> Hs Hd Hm.
  apply is_none_true in Hd.
  cbn [getData_budget].
  unfold getData_except, _build_headers, fetch_status_json, v4_no_data_fallback,
    _resolve_status_url, WARN_NO_DATA.
  exec. repeat (rewrite _ensure_token_spec; exec).
  rewrite Hs. exec. rewrite Hd. exec.
  change (endswith _WallboxURL_V4 "GetEvChargerMoreView") with true. rewrite Hm. exec.
  destruct rest as [|[|s2 b2] rest']; exec; try (eexists; split; reflexivity).
  destruct (http_error s2); exec; [eexists; split; reflexivity|].
  destruct b2 as [[| | | | | |d]|]; exec; try (eexists; split; reflexivity).
  destruct (is_none (dict_get d "data") && expired _)%bool; exec;
    [eexists; split; reflexivity|].
  destruct (is_none (dict_get d "data")); exec; eexists; split; reflexivity.
Qed.

(** A v4 response without data, without the vendor's word for success
    and without the expiry message ends the fetch: no request to v3. *)
Lemma getData_v4_no_mark_no_retry (tok : token) (b : nat) (sn : string) (s : Z)
    (j : gmap string value) (rest : list reply) (w : world) :
  _token (api w) = Some tok ->
  inbox w = Http s (Some (VDict j)) :: rest ->
  http_error s = false ->
  is_none (dict_get j "data") = true ->
  contains SUCCESS_MARK (py_str (dict_get_default j "msg" (VStr ""))) = false ->
  expired (py_str (dict_get_default j "msg" (VStr ""))) = false ->
  getData_budget true (S b) sn false w =
  (Ok VNone,
   record [Log ERROR "Unable to fetch data from SEMS, message"]
     (after_post _WallboxURL_V4 (TokenHeaders (Some tok)) (status_payload sn) w)).
Proof.
  destruct w as [[u p t] inb tr]. cbn [api _token inbox trace]. intros -> -> Hs Hd Hm He.
  apply is_none_true in Hd.
  cbn [getData_budget].
  unfold getData_except, _build_headers, fetch_status_json, v4_no_data_fallback,
    _resolve_status_url, record, after_post.
  exec. repeat (rewrite _ensure_token_spec; exec).
  rewrite Hs. exec. rewrite Hd. exec.
  change (endswith _WallboxURL_V4 "GetEvChargerMoreView") with true. rewrite Hm. exec.
  rewrite He. exec. reflexivity.
Qed.

Lemma to_nat_succ (r : Z) : 0 <= r -> Z.to_nat (r + 1) = S (Z.to_nat r).
Proof. lia. Qed.
End Endpoints.

(** ** The entities: sensor and select *)

Lemma eq_str_true (v : value) (s : string) : eq_str v s = true <-> v = VStr s.
Proof.
  destruct v; cbn; try (split; [discriminate|intros [=]]).
  rewrite String.eqb_eq. split; [by intros ->|by intros [= ->]].
Qed.

Lemma eq_str_false (v : value) (s : string) : eq_str v s = false <-> v <> VStr s.
Proof.
  rewrite <- eq_str_true. destruct (eq_str v s); split; congruence.
Qed.

(** C5: the state of the status sensor is one of its four declared
    options; the three vendor codes map to the first three, and any other
    status, a missing one included, to "Unknown". *)
Theorem status_sensor_state (data : coordinator_data) (sn : string) :
  let status := dict_get (data_get data sn) "status" in
  let state := SemsSensor.state data sn in
  SemsSensor._attr_options = ["Charging"; "Standby"; "Offline"; "Unknown"] /\
  state ∈ SemsSensor._attr_options /\
  (status = VStr "EVDetail_Status_Title_Charging" -> state = "Charging") /\
  (status = VStr "EVDetail_Status_Title_Waiting" -> state = "Standby") /\
  (status = VStr "EVDetail_Status_Title_Offline" -> state = "Offline") /\
  (status <> VStr "EVDetail_Status_Title_Charging" ->
   status <> VStr "EVDetail_Status_Title_Waiting" ->
   status <> VStr "EVDetail_Status_Title_Offline" -> state = "Unknown") /\
  (data_get data sn !! "status" = None -> state = "Unknown").
Proof.
  cbn zeta. unfold SemsSensor.state, SemsSensor._attr_options.
  split; [reflexivity|]. split; [|split; [|split; [|split; [|split]]]].
  - repeat (match goal with |- context [if ?b then _ else _] => destruct b end);
      set_solver.
  - by intros ->.
  - by intros ->.
  - by intros ->.
  - intros H1%eq_str_false H2%eq_str_false H3%eq_str_false. by rewrite H1, H2, H3.
  - intros Hs. unfold dict_get. by rewrite Hs.
Qed.

Import InverterOperationModeEntity.

Lemma mode_to_option_list :
  map_to_list _MODE_TO_OPTION = [(2, "PV & battery"); (1, "PV priority"); (0, "Fast")].
Proof. by vm_compute. Qed.

Lemma option_to_mode_list :
  map_to_list _OPTION_TO_MODE = [("Fast", 0); ("PV & battery", 2); ("PV priority", 1)].
Proof. by vm_compute. Qed.

Lemma mode_to_option_lookup (m : Z) (o : string) :
  _MODE_TO_OPTION !! m = Some o <->
  (m = 0 /\ o = "Fast") \/ (m = 1 /\ o = "PV priority") \/ (m = 2 /\ o = "PV & battery").
Proof.
  rewrite <- elem_of_map_to_list, mode_to_option_list.
  rewrite !elem_of_cons, elem_of_nil. split.
  - intros [[= -> ->] | [[= -> ->] | [[= -> ->] | []]]]; tauto.
  - intros [[-> ->] | [[-> ->] | [-> ->]]]; tauto.
Qed.

Lemma option_to_mode_lookup (o : string) (m : Z) :
  _OPTION_TO_MODE !! o = Some m <->
  (m = 0 /\ o = "Fast") \/ (m = 1 /\ o = "PV priority") \/ (m = 2 /\ o = "PV & battery").
Proof.
  rewrite <- elem_of_map_to_list, option_to_mode_list.
  rewrite !elem_of_cons, elem_of_nil. split.
  - intros [[= -> ->] | [[= -> ->] | [[= -> ->] | []]]]; tauto.
  - intros [[-> ->] | [[-> ->] | [-> ->]]]; tauto.
Qed.

Lemma supported_options_elem (o : string) :
  o ∈ supported_options <-> is_Some (_OPTION_TO_MODE !! o).
Proof.
  change supported_options with ["Fast"; "PV priority"; "PV & battery"].
  rewrite !elem_of_cons, elem_of_nil. split.
  - intros [-> | [-> | [-> | []]]]; [exists 0 | exists 1 | exists 2]; by vm_compute.
  - intros [m Hm]. apply option_to_mode_lookup in Hm. tauto.
Qed.

(** C6: the two maps are inverse bijections between the modes 0, 1, 2
    and the three labels; selecting a label of the options list sends
    [set_charge_mode] with the mode of that label (and shows the label),
    and selecting any other label sends nothing and changes nothing. *)
Theorem charge_mode_selection (self : t) (option : string) :
  (forall (m : Z) (o : string), _MODE_TO_OPTION !! m = Some o <-> _OPTION_TO_MODE !! o = Some m) /\
  dom _MODE_TO_OPTION = ({[ 0; 1; 2 ]} : gset Z) /\
  dom _OPTION_TO_MODE = ({[ "Fast"; "PV priority"; "PV & battery" ]} : gset string) /\
  (option ∈ supported_options ->
   exists m : Z,
     _MODE_TO_OPTION !! m = Some option /\
     async_select_option self option =
       (mk (sn self) (_attr_options self) option (_current_charge_power self),
        [WriteHaState;
         CallSetChargeMode (sn self) (VInt m) (_current_charge_power self);
         RequestRefresh])) /\
  (option ∉ supported_options ->
   async_select_option self option =
     (self, [LogWarning "Unknown operation mode option"])).
Proof.
  split; [|split; [|split; [|split]]].
  - intros m o. by rewrite mode_to_option_lookup, option_to_mode_lookup.
  - by vm_compute.
  - by vm_compute.
  - intros [m Hm]%supported_options_elem. exists m. split.
    + by rewrite mode_to_option_lookup, <- option_to_mode_lookup.
    + unfold async_select_option. by rewrite Hm.
  - intros Hno. unfold async_select_option.
    destruct (_OPTION_TO_MODE !! option) as [m|] eqn:Hm; [|reflexivity].
    exfalso. apply Hno, supported_options_elem. by exists m.
Qed.

(** ** The entities: number and switch *)

Lemma SFcompare_antisym (x y : SpecFloat.spec_float) :
  SpecFloat.SFcompare y x = option_map CompOpp (SpecFloat.SFcompare x y).
Proof.
  destruct x as [sx|sx| |sx mx ex], y as [sy|sy| |sy my ey]; cbn;
    try reflexivity; try (by destruct sx); try (by destruct sy);
    try (by destruct sx, sy).
  destruct sx, sy; try reflexivity; f_equal.
  - rewrite (Z.compare_antisym ex ey). destruct (ex ?= ey)%Z; cbn; try reflexivity.
    change (Pos.compare_cont Eq my mx) with (my ?= mx)%positive.
    change (Pos.compare_cont Eq mx my) with (mx ?= my)%positive.
    by rewrite (Pos.compare_antisym mx my).
  - rewrite (Z.compare_antisym ex ey). destruct (ex ?= ey)%Z; cbn; try reflexivity.
    change (Pos.compare_cont Eq my mx) with (my ?= mx)%positive.
    change (Pos.compare_cont Eq mx my) with (mx ?= my)%positive.
    by rewrite (Pos.compare_antisym mx my).
Qed.

(** [x <= y] excludes [y < x] (and holds of no NaN). *)
Lemma float_leb_not_ltb (x y : float) : (x <=? y)%float = true -> (y <? x)%float = false.
Proof.
  rewrite leb_spec, ltb_spec. unfold SpecFloat.SFleb, SpecFloat.SFltb.
  rewrite (SFcompare_antisym (Prim2SF x) (Prim2SF y)).
  by destruct (SpecFloat.SFcompare (Prim2SF x) (Prim2SF y)) as [[]|].
Qed.

(** Of two floats one of which is [<=] the other, one is [<] or they
    are [<=] the other way round. *)
Lemma float_leb_cases (x y : float) :
  (x <=? y)%float = true -> (x <? y)%float = true \/ (y <=? x)%float = true.
Proof.
  rewrite !leb_spec, ltb_spec. unfold SpecFloat.SFleb, SpecFloat.SFltb.
  rewrite (SFcompare_antisym (Prim2SF x) (Prim2SF y)).
  destruct (SpecFloat.SFcompare (Prim2SF x) (Prim2SF y)) as [[]|]; cbn; auto.
Qed.

Import SemsNumber.

(** C9: for a value in the declared range 4.2 to 11, the entity shows
    the value and sends [set_charge_mode] with the value as charge power,
    with mode 0 when the value is above 4.2 and with the reported
    [chargeMode] (0 when the reading has none) when it is 4.2 or less; one
    of the two is the case. *)
Theorem charge_power_command (data : coordinator_data) (self : t) (value : float) :
  in_range value = true ->
  let reported := dict_get_default (data_get data (sn self)) "chargeMode" (VInt 0) in
  let sent mode :=
    (mk (sn self) (Some value),
     [WriteHaState; CallSetChargeMode (sn self) mode (VFloat value); RequestRefresh]) in
  native_min_value = 4.2%float /\ native_max_value = 11%float /\
  ((4.2 <=? value)%float = true /\ (value <=? 11)%float = true) /\
  (data_get data (sn self) !! "chargeMode" = None -> reported = VInt 0) /\
  ((4.2 <? value)%float = true ->
   async_set_native_value data self value = sent (VInt 0)) /\
  ((value <=? 4.2)%float = true ->
   async_set_native_value data self value = sent reported) /\
  ((4.2 <? value)%float = true \/ (value <=? 4.2)%float = true).
Proof.
  intros [Hmin Hmax]%andb_prop. cbn zeta.
  unfold native_min_value, native_max_value in *.
  split; [reflexivity|]. split; [reflexivity|]. split; [done|].
  unfold async_set_native_value. split; [|split; [|split]].
  - intros Hm. unfold dict_get_default. by rewrite Hm.
  - by intros ->.
  - intros Hle. by rewrite (float_leb_not_ltb _ _ Hle).
  - by apply float_leb_cases.
Qed.

Import SemsSwitch.

(** The entity with its grace record cleared. *)
Definition cleared (self : SemsSwitch.t) : SemsSwitch.t :=
  SemsSwitch.mk (SemsSwitch.sn self) (_attr_is_on self) None None.

Section Switch.
Context `{Builtins}.

Lemma compute_within_on_grace (self : SemsSwitch.t) (ts now : float)
    (data : gmap string value) :
  _last_command_target self = Some true ->
  _last_command_ts self = Some ts ->
  (now - ts <? GRACE_ON_SECONDS)%float = true ->
  api_is_on data = Ok false ->
  _compute_is_on_from_data self now data = Ok (true, self).
Proof.
  intros Htarget Hts Hgrace Hapi. unfold _compute_is_on_from_data.
  by rewrite Hapi, Htarget, Hts, Hgrace.
Qed.

Lemma compute_within_off_grace (self : SemsSwitch.t) (ts now : float)
    (data : gmap string value) :
  _last_command_target self = Some false ->
  _last_command_ts self = Some ts ->
  (now - ts <? GRACE_OFF_SECONDS)%float = true ->
  api_is_on data = Ok true ->
  _compute_is_on_from_data self now data = Ok (false, self).
Proof.
  intros Htarget Hts Hgrace Hapi. unfold _compute_is_on_from_data.
  by rewrite Hapi, Htarget, Hts, Hgrace.
Qed.

Lemma compute_agrees (self : SemsSwitch.t) (now : float) (data : gmap string value)
    (b : bool) :
  _last_command_target self = Some b ->
  api_is_on data = Ok b ->
  _compute_is_on_from_data self now data = Ok (b, cleared self).
Proof.
  intros Htarget Hapi. unfold _compute_is_on_from_data.
  rewrite Hapi, Htarget. destruct b; cbn; by rewrite ?andb_false_r.
Qed.

Lemma compute_without_record (self : SemsSwitch.t) (now : float)
    (data : gmap string value) (api_on : bool) :
  _last_command_target self = None ->
  api_is_on data = Ok api_on ->
  _compute_is_on_from_data self now data = Ok (api_on, self).
Proof.
  intros Htarget Hapi. unfold _compute_is_on_from_data. by rewrite Hapi, Htarget.
Qed.

(** An update within the grace period of the command issued at [t0],
    with the API reporting the opposite of [target]. *)
Definition disagrees_in_grace (sn : string) (t0 : float) (target : bool)
    (u : float * coordinator_data) : Prop :=
  (fst u - t0 <? 130)%float = true /\
  exists data, data_index (snd u) sn = Ok data /\ api_is_on data = Ok (negb target).

Lemma handle_update_in_grace (self : SemsSwitch.t) (t0 : float) (target : bool)
    (u : float * coordinator_data) :
  _last_command_target self = Some target ->
  _last_command_ts self = Some t0 ->
  disagrees_in_grace (SemsSwitch.sn self) t0 target u ->
  _handle_coordinator_update self (fst u) (snd u) =
    Ok (SemsSwitch.mk (SemsSwitch.sn self) target (Some t0) (Some target), [WriteHaState]).
Proof.
  intros Htarget Hts (Hgrace & data & Hdata & Hapi).
  unfold _handle_coordinator_update. rewrite Hdata.
  destruct target; cbn [negb] in Hapi.
  - rewrite (compute_within_on_grace self t0) by assumption. by rewrite Hts, Htarget.
  - rewrite (compute_within_off_grace self t0) by assumption. by rewrite Hts, Htarget.
Qed.

Lemma handle_updates_in_grace (self : SemsSwitch.t) (t0 : float) (target : bool)
    (updates : list (float * coordinator_data)) :
  _last_command_target self = Some target ->
  _last_command_ts self = Some t0 ->
  Forall (disagrees_in_grace (SemsSwitch.sn self) t0 target) updates ->
  exists final,
    handle_updates self updates = Ok (replicate (length updates) target, final) /\
    _last_command_target final = Some target /\ _last_command_ts final = Some t0.
Proof.
  revert self. induction updates as [|[now d] rest IH]; intros self Htarget Hts Hall.
  - exists self. by cbn.
  - apply Forall_cons in Hall as [Hu Hrest].
    cbn [handle_updates].
    pose proof (handle_update_in_grace self t0 target (now, d) Htarget Hts Hu) as Hstep.
    cbn [fst snd] in Hstep. rewrite Hstep.
    destruct (IH (SemsSwitch.mk (SemsSwitch.sn self) target (Some t0) (Some target)))
      as (final & -> & Ht & Hts'); [done..|].
    exists final. by cbn.
Qed.

(** C10: after a turn-on command at [t0], an update at a time [now]
    with [now - t0 < 130] for which the API reports neither charging nor
    power leaves the computed state [True] and the grace record in place,
    and so does every update of a run of such updates; symmetrically after
    a turn-off command.  An update for which the API agrees with the
    command reports the API state and clears the record, after which the
    API state is reported as it is. *)
Theorem switch_grace_period (self : SemsSwitch.t) (t0 now : float)
    (data : gmap string value) (updates : list (float * coordinator_data)) :
  let on := fst (async_turn_on self t0) in
  let off := fst (async_turn_off self t0) in
  GRACE_ON_SECONDS = 130%float /\ GRACE_OFF_SECONDS = 130%float /\
  ((now - t0 <? 130)%float = true -> api_is_on data = Ok false ->
   _compute_is_on_from_data on now data = Ok (true, on)) /\
  ((now - t0 <? 130)%float = true -> api_is_on data = Ok true ->
   _compute_is_on_from_data off now data = Ok (false, off)) /\
  (Forall (disagrees_in_grace (SemsSwitch.sn self) t0 true) updates ->
   exists final,
     handle_updates on updates = Ok (replicate (length updates) true, final) /\
     _last_command_target final = Some true /\ _last_command_ts final = Some t0) /\
  (Forall (disagrees_in_grace (SemsSwitch.sn self) t0 false) updates ->
   exists final,
     handle_updates off updates = Ok (replicate (length updates) false, final) /\
     _last_command_target final = Some false /\ _last_command_ts final = Some t0) /\
  (api_is_on data = Ok true ->
   _compute_is_on_from_data on now data = Ok (true, cleared on)) /\
  (api_is_on data = Ok false ->
   _compute_is_on_from_data off now data = Ok (false, cleared off)) /\
  (forall api_on, api_is_on data = Ok api_on ->
   _compute_is_on_from_data (cleared on) now data = Ok (api_on, cleared on) /\
   _compute_is_on_from_data (cleared off) now data = Ok (api_on, cleared off)).
Proof.
  cbn zeta. split; [reflexivity|]. split; [reflexivity|].
  split; [|split; [|split; [|split; [|split; [|split]]]]].
  - intros Hgrace Hapi. by apply (compute_within_on_grace _ t0).
  - intros Hgrace Hapi. by apply (compute_within_off_grace _ t0).
  - intros Hall. by apply (handle_updates_in_grace _ t0 true).
  - intros Hall. by apply (handle_updates_in_grace _ t0 false).
  - intros Hapi. by apply compute_agrees.
  - intros Hapi. by apply compute_agrees.
  - intros api_on Hapi. split; by apply compute_without_record.
Qed.
End Switch.

(** * Further properties *)

(** ** The client: login and headers *)

Section Login.
Context `{Builtins}.

Lemma login_log_accepted (r : option reply) (tok : token) :
  login_token_of r = Some tok -> login_log r = [].
Proof.
  unfold login_token_of, login_log.
  destruct r as [[|s [[| | | | | |j]|]]|]; try discriminate.
  destruct (http_error s); [discriminate|].
  destruct (login_refused j); [discriminate|].
  by destruct (j !! "data") as [[]|].
Qed.

(** X1: [_fetch_login_token] never raises, whatever the network does: it
    sends exactly one request, the login with the client's credentials and
    the default headers, consumes one reply, and leaves the client and its
    cached token as they were. *)
Theorem login_is_one_request (w : world) :
  exists tok : option token,
    fst (_fetch_login_token w) = Ok tok /\
    api (snd (_fetch_login_token w)) = api w /\
    inbox (snd (_fetch_login_token w)) = tail (inbox w) /\
    posts (trace (snd (_fetch_login_token w))) =
      posts (trace w) ++ [Post _LoginURL DefaultHeaders (login_payload (api w))].
Proof.
  rewrite _fetch_login_token_spec. eexists. cbn [fst snd api inbox trace].
  do 3 (split; [reflexivity|]).
  change (?a :: ?l) with ([a] ++ l). rewrite !posts_app, posts_login_log.
  by rewrite app_nil_r.
Qed.

(** X2: the login yields the token [tok] exactly when the reply is a JSON
    object delivered with a status that is no error, whose [hasError] is
    not truthy, whose [code] is [0] or [None] (or missing) and whose [data]
    is an object; the token is then that object with the response's [api]
    field stored under the key [api]. *)
Theorem login_accepted_iff (w : world) (tok : token) :
  fst (_fetch_login_token w) = Ok (Some tok) <->
  exists (s : Z) (j d : gmap string value),
    head (inbox w) = Some (Http s (Some (VDict j))) /\
    http_error s = false /\
    truthy (dict_get j "hasError") = false /\
    (eq_zero (dict_get j "code") = true \/ dict_get j "code" = VNone) /\
    j !! "data" = Some (VDict d) /\
    tok = <["api" := dict_get j "api"]> d /\
    tok !! "api" = Some (dict_get j "api").
Proof.
  rewrite _fetch_login_token_spec. cbn [fst]. unfold login_token_of, login_refused. split.
  - destruct (head (inbox w)) as [[|s [[| | | | | |j]|]]|]; try discriminate.
    destruct (http_error s) eqn:Hs; [discriminate|].
    destruct (truthy (dict_get j "hasError")) eqn:Herr; [discriminate|].
    cbn [orb].
    destruct (eq_zero (dict_get j "code")) eqn:Hz; cbn [orb negb].
    + destruct (j !! "data") as [[| | | | | |d]|] eqn:Hd; try discriminate.
      intros [= <-]. exists s, j, d. rewrite lookup_insert_eq. tauto.
    + destruct (is_none (dict_get j "code")) eqn:Hn; [|discriminate]. cbn [negb].
      destruct (j !! "data") as [[| | | | | |d]|] eqn:Hd; try discriminate.
      intros [= <-]. exists s, j, d. rewrite lookup_insert_eq.
      apply is_none_true in Hn. tauto.
  - intros (s & j & d & -> & -> & -> & Hcode & -> & -> & _). cbn [orb].
    destruct Hcode as [-> | ->]; reflexivity.
Qed.

(** X3: [test_authentication] never raises and always sends one login
    request, also when a token is cached; it returns [True] exactly when
    that login yields a token, and afterwards the cached token is the one
    of that login, so that a failed test discards a token cached before. *)
Theorem test_authentication_always_logs_in (w : world) :
  exists ok : bool,
    fst (test_authentication w) = Ok ok /\
    _token (api (snd (test_authentication w))) = login_token_of (head (inbox w)) /\
    (ok = true <-> login_token_of (head (inbox w)) <> None) /\
    posts (trace (snd (test_authentication w))) =
      posts (trace w) ++ [Post _LoginURL DefaultHeaders (login_payload (api w))].
Proof.
  unfold test_authentication. rewrite run_try_except, _ensure_token_spec.
  rewrite orb_true_r. eexists. cbn [fst snd]. split; [reflexivity|].
  unfold after_login. cbn [api _token trace]. split; [reflexivity|]. split.
  - destruct (login_token_of (head (inbox w))); cbn; split; congruence.
  - change (?a :: ?l) with ([a] ++ l). rewrite !posts_app, posts_login_log.
    by destruct (login_token_of (head (inbox w))).
Qed.

(** X4: [_build_headers] either returns headers that carry a token, which
    is the token cached afterwards, or it raises [OutOfRetries], which
    happens only when no token was cached and the login failed; with a
    cached token it returns that token's headers and changes nothing. *)
Theorem headers_carry_the_cached_token (w : world) :
  ((exists tok : token,
      fst (_build_headers w) = Ok (TokenHeaders (Some tok)) /\
      _token (api (snd (_build_headers w))) = Some tok) \/
   (fst (_build_headers w) = Raise OutOfRetries /\
    _token (api (snd (_build_headers w))) = None /\
    _token (api w) = None /\ login_token_of (head (inbox w)) = None)) /\
  (forall tok : token,
     _token (api w) = Some tok -> _build_headers w = (Ok (TokenHeaders (Some tok)), w)).
Proof.
  assert (Hcached : forall tok : token,
            _token (api w) = Some tok -> _build_headers w = (Ok (TokenHeaders (Some tok)), w)).
  { intros tok Ht. unfold _build_headers. rewrite run_bind, _ensure_token_spec, Ht.
    cbn [token_is_none orb negb]. rewrite run_bind. cbn. by rewrite Ht. }
  split; [|exact Hcached].
  destruct (_token (api w)) as [t|] eqn:Ht.
  - left. exists t. rewrite (Hcached t eq_refl). by cbn.
  - unfold _build_headers. rewrite run_bind, _ensure_token_spec, Ht.
    cbn [token_is_none orb].
    destruct (login_token_of (head (inbox w))) as [t|] eqn:Hl; cbn [token_is_none negb].
    + left. exists t. rewrite run_bind. cbn. by rewrite Hl.
    + right. cbn. by rewrite Hl.
Qed.
End Login.

(** ** The status fetch: what it raises and how much it asks *)

Section FetchBounds.
Context `{Builtins}.

Lemma getData_only_raises_OutOfRetries (v : bool) (b : nat) (sn : string) (renew : bool)
    (w : world) (e : exn) :
  fst (getData_budget v b sn renew w) = Raise e -> e = OutOfRetries.
Proof.
  rewrite <- getData_budget_except. unfold getData_except. rewrite run_try_except.
  destruct (getData_budget v b sn renew w) as [[a|e'] w']; [discriminate|].
  destruct e'; exec; first [discriminate | by intros [= <-]].
Qed.

(** X5: for every endpoint switch, retry budget, renewal flag and
    network, [getData] either returns a value or raises [OutOfRetries]:
    every other exception is caught. *)
Theorem getData_raises_nothing_else (v : bool) (sn : string) (renew : bool) (r : Z)
    (w : world) :
  (exists data : value, fst (getData v sn renew r w) = Ok data) \/
  fst (getData v sn renew r w) = Raise OutOfRetries.
Proof.
  unfold getData.
  destruct (fst (getData_budget v (Z.to_nat (r + 1)) sn renew w)) as [a|e] eqn:E.
  - left. by exists a.
  - right. by rewrite (getData_only_raises_OutOfRetries _ _ _ _ _ _ E).
Qed.

(** X6: the poll never fails with "Error communicating with SEMS API":
    since [getData] raises nothing but [OutOfRetries], that branch of
    [_async_update_data] is never taken. *)
Theorem poll_never_reports_a_communication_error (station : string) (w : world) :
  fst (_async_update_data station w) <> Raise (UpdateFailed ErrorCommunicating).
Proof.
  rewrite _async_update_data_spec. cbn [fst]. unfold getData.
  destruct (fst (getData_budget _USE_V4_STATUS (Z.to_nat (1 + 1)) station false w))
    as [a|e] eqn:E.
  - destruct a as [| | | | | |fetched]; try discriminate.
    cbn [update_of]. destruct (negb _); [discriminate|]. destruct (negb _); discriminate.
  - by rewrite (getData_only_raises_OutOfRetries _ _ _ _ _ _ E).
Qed.

(** The number of requests in the trace of a world. *)
Definition requests (w : world) : nat := length (posts (trace w)).

(** [m] makes at most [n] requests. *)
Definition asks_at_most {A} (n : nat) (m : M A) : Prop :=
  forall w, (requests (snd (m w)) <= requests w + n)%nat.

Lemma asks_weaken {A} (n n' : nat) (m : M A) :
  (n <= n')%nat -> asks_at_most n m -> asks_at_most n' m.
Proof. intros Hn Hm w. specialize (Hm w). lia. Qed.

Lemma asks_bind {A B} (n k : nat) (m : M A) (f : A -> M B) :
  asks_at_most n m -> (forall a, asks_at_most k (f a)) -> asks_at_most (n + k) (m ≫= f).
Proof.
  intros Hm Hf w. rewrite run_bind. specialize (Hm w).
  destruct (m w) as [[a|e] w']; cbn [snd] in *.
  - specialize (Hf a w'). lia.
  - lia.
Qed.

Lemma asks_try_except {A} (n k : nat) (m : M A) (h : exn -> M A) :
  asks_at_most n m -> (forall e, asks_at_most k (h e)) ->
  asks_at_most (n + k) (try_except m h).
Proof.
  intros Hm Hh w. rewrite run_try_except. specialize (Hm w).
  destruct (m w) as [[a|e] w']; cbn [snd] in *.
  - lia.
  - specialize (Hh e w'). lia.
Qed.

Lemma asks_ret {A} (a : A) : asks_at_most 0 (mret a).
Proof. intros w. cbn. lia. Qed.

Lemma asks_raise {A} (e : exn) : asks_at_most 0 (@raise A e).
Proof. intros w. cbn. lia. Qed.

Lemma asks_lift {A} (r : result A) : asks_at_most 0 (lift r).
Proof. intros w. cbn. lia. Qed.

Lemma requests_record_log (lvl : level) (text : string) (w : world) :
  requests (record [Log lvl text] w) = requests w.
Proof. unfold requests, record. cbn [trace]. rewrite posts_app. cbn. by rewrite app_nil_r. Qed.

Lemma asks_log (lvl : level) (text : string) : asks_at_most 0 (log lvl text).
Proof.
  intros w. change (snd (log lvl text w)) with (record [Log lvl text] w).
  rewrite requests_record_log. lia.
Qed.

Lemma asks_set_token (t : option token) : asks_at_most 0 (set_token t).
Proof.
  intros w. unfold requests, set_token. cbn [snd trace]. rewrite posts_app.
  destruct t; cbn; rewrite app_nil_r; lia.
Qed.

Lemma asks_post (url : string) (h : headers) (payload : value) :
  asks_at_most 1 (post url h payload).
Proof.
  intros w. unfold requests, post.
  destruct (inbox w) as [|[|s j] rest]; cbn [snd trace]; rewrite posts_app, length_app;
    cbn; lia.
Qed.

Lemma asks_raise_for_status (r : response) : asks_at_most 0 (raise_for_status r).
Proof. unfold raise_for_status. destruct (http_error _); [apply asks_raise|apply asks_ret]. Qed.

Lemma asks_response_json (r : response) : asks_at_most 0 (response_json r).
Proof. unfold response_json. destruct (snd r); [apply asks_ret|apply asks_raise]. Qed.

(** One request, its status check and its decoding. *)
Lemma asks_request (url : string) (h : headers) (payload : value) :
  asks_at_most 1
    (response ← post url h payload; raise_for_status response;; response_json response).
Proof.
  apply (asks_bind 1 0); [apply asks_post|intros r].
  apply (asks_bind 0 0); [apply asks_raise_for_status|intros _; apply asks_response_json].
Qed.

(** The requests of one attempt of [getData] after the login. *)
Definition fetch_requests (v : bool) : nat := if v then 2%nat else 1%nat.
Definition fallback_requests (v : bool) : nat := if v then 1%nat else 0%nat.

Lemma asks_fetch_status_json (v : bool) (url : string) (h : headers) (payload : value) :
  asks_at_most (fetch_requests v) (fetch_status_json v url h payload).
Proof.
  unfold fetch_status_json.
  destruct v; cbn [fetch_requests andb].
  - apply (asks_try_except 1 1); [apply asks_request|intros e].
    destruct e; try apply (asks_weaken 0 1 _ ltac:(lia)), asks_raise.
    destruct (_ && _)%bool; [|apply (asks_weaken 0 1 _ ltac:(lia)), asks_raise].
    apply (asks_bind 0 1); [apply asks_log|intros _]. apply asks_request.
  - apply (asks_try_except 1 0); [apply asks_request|intros e].
    destruct e; apply asks_raise.
Qed.

Lemma asks_v4_no_data_fallback (v : bool) (url : string) (h : headers) (payload : value)
    (data : value) (msg : string) :
  asks_at_most (fallback_requests v) (v4_no_data_fallback v url h payload data msg).
Proof.
  unfold v4_no_data_fallback. destruct v; cbn [fallback_requests andb].
  - destruct (_ && _)%bool; [|apply (asks_weaken 0 1 _ ltac:(lia)), asks_ret].
    destruct (contains _ _); [|apply (asks_weaken 0 1 _ ltac:(lia)), asks_ret].
    apply (asks_bind 0 1); [apply asks_log|intros _].
    apply (asks_bind 1 0); [apply asks_post|intros r].
    apply (asks_bind 0 0); [apply asks_raise_for_status|intros _].
    apply (asks_bind 0 0); [apply asks_response_json|intros j].
    apply (asks_bind 0 0); [apply asks_lift|intros d].
    apply (asks_bind 0 0); [apply asks_lift|intros m]. apply asks_ret.
  - apply asks_ret.
Qed.

Lemma asks_getData_handler (e : exn) :
  asks_at_most 0
    (match e with
     | OutOfRetries => raise OutOfRetries
     | _ => log ERROR "Unable to fetch data from SEMS.";; mret VNone
     end).
Proof.
  destruct e; try apply asks_raise;
    (apply (asks_bind 0 0); [apply asks_log|intros _; apply asks_ret]).
Qed.

Lemma requests_after_login (w : world) : requests (after_login w) = S (requests w).
Proof.
  unfold requests, after_login. cbn [trace].
  change (?a :: ?l) with ([a] ++ l). rewrite !posts_app, posts_login_log.
  rewrite !length_app. destruct (login_token_of _); cbn; lia.
Qed.

(** The requests of one attempt: the login, and those of the fetch. *)
Definition attempt_requests (v : bool) : nat := (1 + fetch_requests v + fallback_requests v)%nat.

Lemma asks_getData_attempt (v : bool) (b : nat) (sn : string) (tok : token) (n : nat) :
  (forall renew, asks_at_most n (getData_budget v b sn renew)) ->
  asks_at_most (fetch_requests v + fallback_requests v + n)
    (getData_except
       (json_response ← fetch_status_json v (_resolve_status_url v)
                          (TokenHeaders (Some tok)) (status_payload sn);
        getData_rest v b sn (_resolve_status_url v) (TokenHeaders (Some tok))
          json_response)).
Proof.
  intros IH. unfold getData_except.
  apply (asks_weaken (fetch_requests v + fallback_requests v + n + 0)); [lia|].
  apply asks_try_except; [|apply asks_getData_handler].
  rewrite <- Nat.add_assoc.
  apply asks_bind; [apply asks_fetch_status_json|intros j].
  unfold getData_rest.
  apply (asks_bind 0); [apply asks_lift|intros data].
  apply (asks_bind 0); [apply asks_lift|intros msg].
  apply asks_bind; [apply asks_v4_no_data_fallback|intros dm].
  destruct (_ && _)%bool.
  - apply (asks_bind 0); [apply asks_set_token|intros _]. apply IH.
  - apply (asks_weaken 0); [lia|].
    destruct (is_none _); [|apply asks_ret].
    apply (asks_bind 0 0); [apply asks_log|intros _; apply asks_ret].
Qed.

Lemma getData_budget_requests (v : bool) (b : nat) (sn : string) (renew : bool) :
  asks_at_most (attempt_requests v * b) (getData_budget v b sn renew).
Proof.
  revert renew. induction b as [|b IH]; intros renew w.
  - rewrite getData_budget_O. cbn [snd]. rewrite requests_record_log. lia.
  - pose proof (fun tok => asks_getData_attempt v b sn tok _ IH) as Hattempt.
    destruct (token_is_none (_token (api w)) || renew)%bool eqn:Hr.
    + rewrite getData_renew by exact Hr.
      destruct (login_token_of (head (inbox w))) as [t|] eqn:Hl.
      * assert (Ht : _token (api (after_login w)) = Some t).
        { unfold after_login. cbn [api _token]. exact Hl. }
        rewrite (getData_cached_unfold v t) by exact Ht.
        specialize (Hattempt t (after_login w)). rewrite requests_after_login in Hattempt.
        unfold attempt_requests in *. destruct v; cbn [fetch_requests fallback_requests] in *; lia.
      * cbn [snd]. rewrite requests_record_log, requests_after_login.
        unfold attempt_requests. lia.
    + apply orb_false_iff in Hr as [Ht ->].
      destruct (_token (api w)) as [t|] eqn:Ht'; [|discriminate].
      rewrite (getData_cached_unfold v t) by exact Ht'.
      specialize (Hattempt t w).
      unfold attempt_requests in *. destruct v; cbn [fetch_requests fallback_requests] in *; lia.
Qed.

(** X7: [getData] makes at most two requests for each of its
    [maxTokenRetries + 1] attempts with the v3 endpoint (a login and the
    status request) and at most four with the v4 endpoint; a poll as the
    coordinator runs it makes at most four requests. *)
Theorem getData_request_bound (v : bool) (sn : string) (renew : bool) (r : Z) (w : world) :
  (length (posts (trace (snd (getData v sn renew r w))))
   <= length (posts (trace w)) + (if v then 4 else 2) * Z.to_nat (r + 1))%nat /\
  (length (posts (trace (snd (getData _USE_V4_STATUS sn false 1 w))))
   <= length (posts (trace w)) + 4)%nat.
Proof.
  split.
  - pose proof (getData_budget_requests v (Z.to_nat (r + 1)) sn renew w) as Hb.
    unfold requests, attempt_requests in Hb. unfold getData.
    destruct v; cbn [fetch_requests fallback_requests] in Hb; lia.
  - pose proof (getData_budget_requests _USE_V4_STATUS (Z.to_nat (1 + 1)) sn false w) as Hb.
    unfold requests in Hb. unfold getData. cbn in Hb. lia.
Qed.
End FetchBounds.

(** ** The poll, reply by reply *)

Section Polls.
Context `{Builtins}.

(** The reply says that the authorization has expired: a JSON object
    delivered with a status that is no error, without [data], and with the
    expiry message in its [msg]. *)
Definition says_expired (r : option reply) : Prop :=
  exists (s : Z) (j : gmap string value),
    r = Some (Http s (Some (VDict j))) /\
    http_error s = false /\
    dict_get j "data" = VNone /\
    expired (py_str (dict_get_default j "msg" (VStr ""))) = true.

Lemma status_outcome_says_expired (r : option reply) :
  status_outcome_of r = StExpired <-> says_expired r.
Proof.
  unfold status_outcome_of, says_expired. split.
  - destruct r as [[|s [[| | | | | |j]|]]|]; try discriminate.
    destruct (http_error s) eqn:Hs; [discriminate|].
    destruct (is_none (dict_get j "data")) eqn:Hd; cbn [andb]; [|discriminate].
    destruct (expired _) eqn:He; [|discriminate].
    intros _. exists s, j. apply is_none_true in Hd. done.
  - intros (s & j & -> & -> & -> & ->). reflexivity.
Qed.

(** X8: with a cached token, the poll fails with "Too many retries"
    exactly when the first reply says that the authorization has expired,
    the login that follows succeeds, and the reply to the repeated request
    says again that the authorization has expired. *)
Theorem too_many_retries_iff_expired_twice (station : string) (tok : token) (w : world) :
  _token (api w) = Some tok ->
  (fst (_async_update_data station w) = Raise (UpdateFailed TooManyRetries) <->
   says_expired (head (inbox w)) /\
   login_token_of (head (tail (inbox w))) <> None /\
   says_expired (head (tail (tail (inbox w))))).
Proof.
  intros Ht. rewrite <- !status_outcome_says_expired.
  rewrite _async_update_data_spec. cbn [fst].
  unfold getData. change (Z.to_nat (1 + 1)) with 2%nat.
  change _USE_V4_STATUS with false.
  rewrite (getData_v3_cached tok) by exact Ht. cbn zeta.
  set (w1 := after_post _ _ _ w).
  destruct (status_outcome_of (head (inbox w))) as [d| |text] eqn:E1.
  - cbn [fst]. split; [|by intros [? _]].
    destruct d as [| | | | | |fetched]; try discriminate.
    cbn [update_of]. destruct (negb _); [discriminate|]. destruct (negb _); discriminate.
  - rewrite getData_renew by reflexivity.
    change (inbox (clear_token w1)) with (tail (inbox w)).
    destruct (login_token_of (head (tail (inbox w)))) as [t|] eqn:Hl.
    + rewrite (getData_v3_cached t) by (unfold after_login; cbn [api _token]; exact Hl).
      cbn zeta.
      change (inbox (after_login (clear_token w1))) with (tail (tail (inbox w))).
      destruct (status_outcome_of (head (tail (tail (inbox w))))) as [d| |text] eqn:E2.
      * cbn [fst]. split; [|by intros (_ & _ & ?)].
        destruct d as [| | | | | |fetched]; try discriminate.
        cbn [update_of]. destruct (negb _); [discriminate|]. destruct (negb _); discriminate.
      * rewrite getData_budget_O. cbn [fst update_of]. split; [|done]. intros _.
        split; [done|]. split; [congruence|done].
      * cbn [fst update_of]. split; [discriminate|]. by intros (_ & _ & ?).
    + cbn [fst update_of]. split; [discriminate|]. by intros (_ & ? & _).
  - cbn [fst update_of]. split; [discriminate|]. by intros [? _].
Qed.

(** X9: a client without a token first logs in and then asks for the
    status with the token of that login; when the response has [data],
    [getData] returns it, after exactly these two requests, with the new
    token cached. *)
Theorem first_poll_logs_in_then_fetches (sn : string) (r : Z) (w : world) (login : reply)
    (t : token) (s : Z) (j : gmap string value) (rest : list reply) :
  0 <= r ->
  _token (api w) = None ->
  inbox w = login :: Http s (Some (VDict j)) :: rest ->
  login_token_of (Some login) = Some t ->
  http_error s = false ->
  is_none (dict_get j "data") = false ->
  getData _USE_V4_STATUS sn false r w =
    (Ok (dict_get j "data"),
     mkWorld (mkSemsApi (_username (api w)) (_password (api w)) (Some t)) rest
       (trace w ++ [Post _LoginURL DefaultHeaders (login_payload (api w));
                    TokenStored t;
                    Post _WallboxURL_V3 (TokenHeaders (Some t)) (status_payload sn)])).
Proof.
  intros Hr Ht Hin Hl Hs Hd. unfold getData. rewrite to_nat_succ by exact Hr.
  change _USE_V4_STATUS with false.
  rewrite getData_renew by (by rewrite Ht).
  rewrite Hin. cbn [head]. rewrite Hl.
  rewrite (getData_v3_cached t) by (unfold after_login; cbn [api _token]; by rewrite Hin).
  cbn zeta. unfold after_login, after_post. rewrite Hin. cbn [head tail inbox api trace].
  rewrite Hl, (login_log_accepted _ _ Hl).
  unfold status_outcome_of. rewrite Hs, Hd. cbn [andb].
  rewrite <- !app_assoc. reflexivity.
Qed.

(** X10: when no token is cached and the login fails, the poll fails with
    "No data received" after the login request alone: the status endpoint
    is not asked, and no token is cached afterwards. *)
Theorem failed_login_fails_the_poll (station : string) (w : world) :
  _token (api w) = None ->
  login_token_of (head (inbox w)) = None ->
  let after := snd (_async_update_data station w) in
  fst (_async_update_data station w) = Raise (UpdateFailed NoDataReceived) /\
  posts (trace after) =
    posts (trace w) ++ [Post _LoginURL DefaultHeaders (login_payload (api w))] /\
  _token (api after) = None /\
  inbox after = tail (inbox w).
Proof.
  intros Ht Hl. cbn zeta. rewrite _async_update_data_spec. cbn [fst snd].
  unfold getData. change (Z.to_nat (1 + 1)) with 2%nat.
  rewrite getData_renew by (by rewrite Ht).
  rewrite Hl. cbn [fst snd update_of]. split; [reflexivity|].
  unfold record, after_login. cbn [trace api _token inbox]. rewrite Hl.
  split; [|done].
  rewrite <- !app_assoc. rewrite posts_app. f_equal.
  change (?a :: ?l) with ([a] ++ l). rewrite !posts_app, posts_login_log. reflexivity.
Qed.

(** X11: [change_status] and [set_charge_mode] never raise: for every
    argument, retry budget and network they return [None]. *)
Theorem commands_never_raise (sn : string) (status : Z) (mode power : value) (renew : bool)
    (r : Z) (w : world) :
  fst (change_status sn status renew r w) = Ok tt /\
  fst (set_charge_mode sn mode power renew r w) = Ok tt.
Proof.
  unfold change_status, set_charge_mode. split.
  - destruct (change_status_budget_returns (Z.to_nat (r + 1)) sn status renew w)
      as ([] & w' & ->). reflexivity.
  - destruct (set_charge_mode_budget_returns (Z.to_nat (r + 1)) sn mode power renew w)
      as ([] & w' & ->). reflexivity.
Qed.

(** X12: a response whose [data] is neither [None] nor an object makes
    the poll raise [AttributeError], and a reading whose [sn] is truthy but
    not hashable makes it raise [TypeError]: neither is turned into
    [UpdateFailed]. *)
Theorem malformed_reading_escapes_the_poll (station : string) (tok : token) (w : world)
    (s : Z) (j : gmap string value) (rest : list reply) :
  _token (api w) = Some tok ->
  inbox w = Http s (Some (VDict j)) :: rest ->
  http_error s = false ->
  (is_none (dict_get j "data") = false -> is_dict (dict_get j "data") = false ->
   fst (_async_update_data station w) = Raise AttributeError) /\
  (forall fetched : gmap string value,
     dict_get j "data" = VDict fetched ->
     truthy (dict_get fetched "sn") = true -> hashable (dict_get fetched "sn") = false ->
     fst (_async_update_data station w) = Raise TypeError).
Proof.
  intros Ht Hin Hs.
  assert (Hget : is_none (dict_get j "data") = false ->
            fst (getData _USE_V4_STATUS station false 1 w) = Ok (dict_get j "data")).
  { intros Hd. unfold getData. change (Z.to_nat (1 + 1)) with 2%nat.
    change _USE_V4_STATUS with false.
    rewrite (getData_v3_cached tok) by exact Ht. cbn zeta. rewrite Hin. cbn [head].
    unfold status_outcome_of. by rewrite Hs, Hd. }
  rewrite _async_update_data_spec. cbn [fst]. split.
  - intros Hd Hnd. rewrite (Hget Hd). by destruct (dict_get j "data").
  - intros fetched Hf Hsn Hh. rewrite Hget by (by rewrite Hf). rewrite Hf.
    cbn [update_of]. by rewrite Hsn, Hh.
Qed.
End Polls.

(** ** The sensors *)

(** X13: the attributes of the status sensor are the fields of the
    reading whose value is not [None], unchanged; in addition [statusText]
    is the reading's [status] whenever the reading has that key, also when
    its value is [None]. *)
Theorem attributes_leave_out_missing_values (data : coordinator_data) (sn : string) :
  let reading := data_get data sn in
  let attributes := SemsSensor.extra_state_attributes data sn in
  (forall (k : string) (v : value),
     k <> "statusText" ->
     (attributes !! k = Some v <-> reading !! k = Some v /\ v <> VNone)) /\
  (forall status : value,
     reading !! "status" = Some status -> attributes !! "statusText" = Some status) /\
  (reading !! "status" = None ->
   forall v : value,
     attributes !! "statusText" = Some v <-> reading !! "statusText" = Some v /\ v <> VNone).
Proof.
  cbn zeta. unfold SemsSensor.extra_state_attributes.
  assert (Hfilter : forall (k : string) (v : value),
            filter (fun kv : string * value => is_none (snd kv) = false) (data_get data sn) !! k
              = Some v <-> data_get data sn !! k = Some v /\ v <> VNone).
  { intros k v. rewrite map_lookup_filter_Some. cbn [snd].
    split; intros [Hk Hv]; (split; [exact Hk|]); by destruct v. }
  split; [|split].
  - intros k v Hk. destruct (data_get data sn !! "status") as [st|].
    + by rewrite lookup_insert_ne.
    + apply Hfilter.
  - intros status ->. by rewrite lookup_insert_eq.
  - intros -> v. apply Hfilter.
Qed.

Lemma float_ltb_leb (x y : float) : (x <? y)%float = true -> (x <=? y)%float = true.
Proof.
  rewrite leb_spec, ltb_spec. unfold SpecFloat.SFleb, SpecFloat.SFltb.
  by destruct (SpecFloat.SFcompare (Prim2SF x) (Prim2SF y)) as [[]|].
Qed.

Lemma float_ltb_not_eqb (x y : float) : (x <? y)%float = true -> (y =? x)%float = false.
Proof.
  rewrite FloatAxioms.eqb_spec, ltb_spec. unfold SpecFloat.SFeqb, SpecFloat.SFltb.
  rewrite (SFcompare_antisym (Prim2SF x) (Prim2SF y)).
  by destruct (SpecFloat.SFcompare (Prim2SF x) (Prim2SF y)) as [[]|].
Qed.

Section Sensors.
Context `{Builtins}.

(** X14: the power sensor never shows a negative number or a NaN and
    never raises [TypeError] or [ValueError]; a missing or [None] power is
    shown as [0.0], a positive float as it is, and any other float as
    [0.0]. *)
Theorem power_sensor_is_never_negative (data : coordinator_data) (sn : string) :
  let reading := data_get data sn in
  match SemsPowerSensor.native_value data sn with
  | Ok power => (0 <=? power)%float = true
  | Raise e => e <> TypeError /\ e <> ValueError
  end /\
  (reading !! "power" = None -> SemsPowerSensor.native_value data sn = Ok 0%float) /\
  (reading !! "power" = Some VNone -> SemsPowerSensor.native_value data sn = Ok 0%float) /\
  (forall f : float,
     reading !! "power" = Some (VFloat f) ->
     ((0 <? f)%float = true -> SemsPowerSensor.native_value data sn = Ok f) /\
     ((0 <? f)%float = false -> SemsPowerSensor.native_value data sn = Ok 0%float)).
Proof.
  cbn zeta. unfold SemsPowerSensor.native_value, dict_get_default.
  split; [|split; [|split]].
  - destruct (py_float _) as [power|e].
    + unfold SemsPowerSensor.py_max. destruct (0 <? power)%float eqn:E.
      * by apply float_ltb_leb.
      * reflexivity.
    + destruct e; try (split; discriminate); reflexivity.
  - intros ->. reflexivity.
  - intros ->. reflexivity.
  - intros f ->. change (default (VInt 0) (Some (VFloat f))) with (VFloat f).
    unfold py_or. cbn [truthy]. split.
    + intros Hf. rewrite (float_ltb_not_eqb _ _ Hf). cbn [negb py_float].
      unfold SemsPowerSensor.py_max. by rewrite Hf.
    + intros Hf. destruct (f =? 0)%float; cbn [negb py_float].
      * reflexivity.
      * unfold SemsPowerSensor.py_max. by rewrite Hf.
Qed.

Lemma append_inv_head (s t u : string) : (s ++ t)%string = (s ++ u)%string -> t = u.
Proof. induction s as [|c s IH]; cbn; [done|]. intros [= E]. by apply IH. Qed.

Lemma append_not_self (s t : string) : t <> "" -> s <> (s ++ t)%string.
Proof.
  intros Ht. induction s as [|c s IH]; cbn.
  - intros E. apply Ht. symmetry. exact E.
  - intros [= E]. by apply IH.
Qed.

(** X15: the unique ids of the three sensors of one wallbox (status,
    energy, power) are pairwise different, whatever the data. *)
Theorem sensor_unique_ids_differ (data : coordinator_data) (sn : string) :
  NoDup [SemsSensor.unique_id data sn;
         VStr (SemsStatisticsSensor.unique_id data sn);
         VStr (SemsPowerSensor.unique_id data sn)].
Proof.
  unfold SemsSensor.unique_id, SemsStatisticsSensor.unique_id, SemsPowerSensor.unique_id.
  set (v := dict_get_default (data_get data sn) "sn" (VStr sn)).
  repeat constructor; rewrite ?elem_of_cons, ?elem_of_nil.
  - intros [E | [E | []]]; destruct v; try discriminate; cbn [py_str] in E;
      injection E as E; by apply append_not_self in E.
  - intros [[= E] | []]. by apply append_inv_head in E.
  - tauto.
Qed.
End Sensors.

(** ** The select entity *)

Section SelectEntity.
Import InverterOperationModeEntity.

Lemma supported_options_labels (label : string) :
  label ∈ supported_options <->
  label = "Fast" \/ label = "PV priority" \/ label = "PV & battery".
Proof.
  change supported_options with ["Fast"; "PV priority"; "PV & battery"].
  rewrite !elem_of_cons, elem_of_nil. tauto.
Qed.

Lemma mode_to_option_supported (m : Z) (label : string) :
  _MODE_TO_OPTION !! m = Some label -> label ∈ supported_options.
Proof.
  rewrite mode_to_option_lookup, supported_options_labels. tauto.
Qed.

Lemma _MODE_TO_OPTION_get_supported (mode : value) (label : string) :
  _MODE_TO_OPTION_get mode = Ok (Some label) -> label ∈ supported_options.
Proof.
  destruct mode as [|b|z|f| | |]; cbn [_MODE_TO_OPTION_get]; try discriminate.
  - intros [= E]. by apply mode_to_option_supported in E.
  - intros [= E]. by apply mode_to_option_supported in E.
  - intros [= E].
    repeat (match type of E with
            | (if ?c then _ else _) = _ => destruct c
            end); try discriminate; by apply mode_to_option_supported in E.
Qed.

(** X16: the setup of the select entity fails with [KeyError] when the
    reading lacks [chargeMode] or [max_charge_power]; otherwise the entity
    holds the reading's [max_charge_power] and shows the label of the
    reported mode when that is 0, 1 or 2, and the text "None", which is not
    one of its options, for any other integer. *)
Theorem select_setup_shows_the_reported_mode (sn : string) (inverter : gmap string value) :
  (inverter !! "chargeMode" = None \/ inverter !! "max_charge_power" = None ->
   async_setup_entry [(sn, inverter)] = Raise KeyError) /\
  (forall (m : Z) (power : value),
     inverter !! "chargeMode" = Some (VInt m) ->
     inverter !! "max_charge_power" = Some power ->
     exists label : string,
       async_setup_entry [(sn, inverter)] = Ok [mk sn supported_options label power] /\
       (0 <= m <= 2 -> _MODE_TO_OPTION !! m = Some label /\ label ∈ supported_options) /\
       (~ 0 <= m <= 2 -> label = "None" /\ label ∉ supported_options)).
Proof.
  split.
  - intros [Hm | Hp]; cbn [async_setup_entry value_index]; rewrite ?Hm; [reflexivity|].
    destruct (inverter !! "chargeMode"); by rewrite ?Hp.
  - intros m power Hm Hp. cbn [async_setup_entry value_index _MODE_TO_OPTION_get].
    rewrite Hm, Hp. cbn [_MODE_TO_OPTION_get]. unfold __init__.
    destruct (_MODE_TO_OPTION !! m) as [label|] eqn:E.
    + exists label. split; [reflexivity|].
      pose proof (mode_to_option_supported _ _ E) as Hin.
      apply mode_to_option_lookup in E. split; [done|]. intros Hno. lia.
    + exists "None". split; [reflexivity|]. split.
      * intros Hr. assert (m = 0 \/ m = 1 \/ m = 2) as [-> | [-> | ->]] by lia;
          by vm_compute in E.
      * intros _. split; [reflexivity|]. rewrite supported_options_labels.
        intros [? | [? | ?]]; discriminate.
Qed.

(** The current option is one of the options the entity was given. *)
Definition shows_an_option (self : t) : Prop :=
  _attr_options self = supported_options /\ _attr_current_option self ∈ _attr_options self.

(** X17: a select entity that shows one of its options keeps doing so:
    after every [async_select_option], whatever the label asked for, and
    after every coordinator update that does not raise. *)
Theorem select_keeps_showing_an_option (self : t) :
  shows_an_option self ->
  (forall option : string, shows_an_option (fst (async_select_option self option))) /\
  (forall (data : coordinator_data) (self' : t) (acts : list action),
     _handle_coordinator_update self data = Ok (self', acts) -> shows_an_option self').
Proof.
  intros [Hopts Hcur]. split.
  - intros option. unfold async_select_option.
    destruct (_OPTION_TO_MODE !! option) as [m|] eqn:E; cbn [fst]; [|done].
    split; [exact Hopts|]. cbn. rewrite Hopts. apply supported_options_elem. by exists m.
  - intros data self' acts. unfold _handle_coordinator_update.
    destruct (data_index data (sn self)) as [inverter|]; [|discriminate].
    destruct (value_index _ "chargeMode") as [mode|]; [|discriminate].
    destruct (value_index _ "max_charge_power") as [power|]; [|discriminate].
    destruct (_MODE_TO_OPTION_get mode) as [[label|]|] eqn:E; [| |discriminate].
    + intros [= <- _]. split; [exact Hopts|]. cbn. rewrite Hopts.
      by apply (_MODE_TO_OPTION_get_supported mode).
    + intros [= <- _]. by split.
Qed.

(** X18: selecting a label sends its mode, and when the next reading
    reports that mode the entity goes on showing the selected label, with
    the charge power of that reading. *)
Theorem selected_option_survives_the_poll (self : t) (option : string) (m : Z)
    (data : coordinator_data) (inverter : gmap string value) (power : value) :
  _OPTION_TO_MODE !! option = Some m ->
  data_index data (sn self) = Ok inverter ->
  inverter !! "chargeMode" = Some (VInt m) ->
  inverter !! "max_charge_power" = Some power ->
  snd (async_select_option self option) =
    [WriteHaState; CallSetChargeMode (sn self) (VInt m) (_current_charge_power self);
     RequestRefresh] /\
  _handle_coordinator_update (fst (async_select_option self option)) data =
    Ok (mk (sn self) (_attr_options self) option power, [WriteHaState]).
Proof.
  intros Ho Hd Hm Hp. unfold async_select_option. rewrite Ho. cbn [fst snd].
  split; [reflexivity|].
  unfold _handle_coordinator_update. cbn [sn]. rewrite Hd.
  cbn [value_index]. rewrite Hm, Hp. cbn [_MODE_TO_OPTION_get].
  apply option_to_mode_lookup in Ho. apply mode_to_option_lookup in Ho. by rewrite Ho.
Qed.

(** X19: a reading with a charge mode other than 0, 1, 2 leaves the
    option shown as it was and logs a warning, but its [max_charge_power]
    is taken over: it is the charge power sent with the next selection. *)
Theorem unknown_mode_keeps_the_option (self : t) (data : coordinator_data)
    (inverter : gmap string value) (m : Z) (power : value) (option : string) :
  data_index data (sn self) = Ok inverter ->
  inverter !! "chargeMode" = Some (VInt m) ->
  inverter !! "max_charge_power" = Some power ->
  ~ 0 <= m <= 2 ->
  _handle_coordinator_update self data =
    Ok (mk (sn self) (_attr_options self) (_attr_current_option self) power,
        [LogWarning "Unknown chargeMode in coordinator update"; WriteHaState]) /\
  (option ∈ supported_options ->
   exists k : Z,
     _OPTION_TO_MODE !! option = Some k /\
     snd (async_select_option
            (mk (sn self) (_attr_options self) (_attr_current_option self) power) option) =
       [WriteHaState; CallSetChargeMode (sn self) (VInt k) power; RequestRefresh]).
Proof.
  intros Hd Hm Hp Hr. split.
  - unfold _handle_coordinator_update. rewrite Hd.
    cbn [value_index]. rewrite Hm, Hp. cbn [_MODE_TO_OPTION_get].
    destruct (_MODE_TO_OPTION !! m) as [label|] eqn:E; [|reflexivity].
    apply mode_to_option_lookup in E. lia.
  - intros [k Hk]%supported_options_elem. exists k. split; [exact Hk|].
    unfold async_select_option. by rewrite Hk.
Qed.

End SelectEntity.

(** ** The number entity *)

Section Number.
Context `{Builtins}.

(** X20: on a coordinator update the number entity takes over the
    wallbox's [set_charge_power] when that converts to a float, also right
    after the user set another value; it keeps its value when the field is
    missing or [None], and when the conversion raises [TypeError] or
    [ValueError], which is logged.  [async_update] leaves the entity in the
    same state as [_handle_coordinator_update]. *)
Theorem number_follows_the_wallbox (self : SemsNumber.t) (data : coordinator_data)
    (reading : gmap string value) (value : float) :
  data_index data (SemsNumber.sn self) = Ok reading ->
  let reported := dict_get reading "set_charge_power" in
  let set := fst (SemsNumber.async_set_native_value data self value) in
  (reported = VNone ->
   SemsNumber._handle_coordinator_update self data = Ok (self, [WriteHaState]) /\
   SemsNumber._handle_coordinator_update set data = Ok (set, [WriteHaState])) /\
  (forall f : float,
     reported <> VNone -> py_float reported = Ok f ->
     SemsNumber._handle_coordinator_update self data =
       Ok (SemsNumber.mk (SemsNumber.sn self) (Some f), [WriteHaState]) /\
     SemsNumber._handle_coordinator_update set data =
       Ok (SemsNumber.mk (SemsNumber.sn self) (Some f), [WriteHaState])) /\
  (py_float reported = Raise TypeError \/ py_float reported = Raise ValueError ->
   reported <> VNone ->
   SemsNumber._handle_coordinator_update self data =
     Ok (self, [LogWarning "invalid set_charge_power value from API"; WriteHaState])) /\
  match SemsNumber.async_update self data,
        SemsNumber._handle_coordinator_update self data with
  | Ok (updated, _), Ok (handled, _) => updated = handled
  | Raise e, Raise e' => e = e'
  | _, _ => False
  end.
Proof.
  intros Hd. cbn zeta.
  unfold SemsNumber._handle_coordinator_update, SemsNumber.async_update,
    SemsNumber.async_set_native_value.
  cbn [fst SemsNumber.sn]. rewrite Hd.
  split; [|split; [|split]].
  - by intros ->.
  - intros f Hn ->. by destruct (dict_get reading "set_charge_power").
  - intros Herr Hn.
    destruct (dict_get reading "set_charge_power"); try done;
      cbn [is_none negb]; by destruct Herr as [-> | ->].
  - destruct (negb _); [|reflexivity].
    destruct (py_float _) as [f|e]; [reflexivity|]. by destruct e.
Qed.
End Number.

(** ** The switch *)

Section SwitchMore.
Context `{Builtins}.

(** X21: the switch shows a state other than the one the API reports only
    when that state is the target of the last command and less than 130
    seconds have passed since; once 130 seconds have passed it shows the
    API state.  The call leaves the grace record as it was or clears it. *)
Theorem switch_overrides_only_within_grace (self : SemsSwitch.t) (now : float)
    (data : gmap string value) (api_on shown : bool) (self' : SemsSwitch.t) :
  SemsSwitch.api_is_on data = Ok api_on ->
  SemsSwitch._compute_is_on_from_data self now data = Ok (shown, self') ->
  (shown <> api_on ->
   SemsSwitch._last_command_target self = Some shown /\
   self' = self /\
   exists t0 : float,
     SemsSwitch._last_command_ts self = Some t0 /\ (now - t0 <? 130)%float = true) /\
  (forall t0 : float,
     SemsSwitch._last_command_ts self = Some t0 -> (130 <=? now - t0)%float = true ->
     shown = api_on) /\
  (self' = self \/ self' = cleared self).
Proof.
  intros Hapi. unfold SemsSwitch._compute_is_on_from_data. rewrite Hapi.
  destruct self as [sn0 on0 ts target]. cbn [SemsSwitch._last_command_target
    SemsSwitch._last_command_ts SemsSwitch.sn SemsSwitch._attr_is_on].
  unfold cleared. cbn [SemsSwitch.sn SemsSwitch._attr_is_on].
  change SemsSwitch.GRACE_ON_SECONDS with 130%float.
  change SemsSwitch.GRACE_OFF_SECONDS with 130%float.
  destruct target as [[]|], ts as [t0|], api_on; cbn [SemsSwitch.is_True SemsSwitch.is_False
    andb negb Bool.eqb]; rewrite ?andb_false_r, ?andb_true_r;
    try (destruct (now - t0 <? 130)%float eqn:Hg);
    intros [= <- <-];
    (split; [|split]); try tauto; try (by right); try (by left);
    try (intros Hne; split; [reflexivity|]; split; [reflexivity|]; by exists t0);
    try (intros t1 [= <-] Hle; apply float_leb_not_ltb in Hle; congruence).
Qed.

(** X22: the setup of the switch creates it with the state the API
    reports and no command on record, and an update with the same reading
    leaves that entity unchanged; an exception of the conversion of [power]
    aborts the setup and every update of the same reading. *)
Theorem switch_setup_shows_the_reading (sn : string) (data : gmap string value)
    (now : float) :
  (forall e : exn,
     SemsSwitch.api_is_on data = Raise e ->
     SemsSwitch.async_setup_entry [(sn, data)] = Raise e /\
     forall self : SemsSwitch.t,
       SemsSwitch.sn self = sn ->
       SemsSwitch._handle_coordinator_update self now [(VStr sn, data)] = Raise e) /\
  (forall api_on : bool,
     SemsSwitch.api_is_on data = Ok api_on ->
     SemsSwitch.async_setup_entry [(sn, data)] = Ok [SemsSwitch.mk sn api_on None None] /\
     SemsSwitch._handle_coordinator_update (SemsSwitch.mk sn api_on None None) now
       [(VStr sn, data)] = Ok (SemsSwitch.mk sn api_on None None, [WriteHaState])).
Proof.
  split.
  - intros e He. cbn [SemsSwitch.async_setup_entry]. rewrite He. split; [reflexivity|].
    intros self <-. unfold SemsSwitch._handle_coordinator_update.
    cbn [data_index eq_str]. rewrite String.eqb_refl.
    unfold SemsSwitch._compute_is_on_from_data. by rewrite He.
  - intros api_on Ha. cbn [SemsSwitch.async_setup_entry]. rewrite Ha.
    split; [reflexivity|]. unfold SemsSwitch._handle_coordinator_update.
    cbn [data_index eq_str SemsSwitch.sn]. rewrite String.eqb_refl.
    by rewrite (compute_without_record _ _ _ api_on).
Qed.

(** X23: when the reading's [power] cannot be converted to a float
    ([TypeError] or [ValueError]), the power sensor shows [0.0], while the
    switch's update, manual update and setup raise that exception. *)
Theorem bad_power_reading (data : coordinator_data) (sn : string)
    (reading : gmap string value) (now : float) (self : SemsSwitch.t) :
  data_index data sn = Ok reading ->
  SemsSwitch.sn self = sn ->
  py_float (py_or (dict_get_default reading "power" (VInt 0)) (VInt 0)) = Raise TypeError \/
  py_float (py_or (dict_get_default reading "power" (VInt 0)) (VInt 0)) = Raise ValueError ->
  SemsPowerSensor.native_value data sn = Ok 0%float /\
  (exists e : exn,
     (e = TypeError \/ e = ValueError) /\
     SemsSwitch._handle_coordinator_update self now data = Raise e /\
     SemsSwitch.async_update self now data = Raise e /\
     SemsSwitch.async_setup_entry [(sn, reading)] = Raise e).
Proof.
  intros Hd <- Herr.
  assert (Hget : data_get data (SemsSwitch.sn self) = reading).
  { clear Herr. induction data as [|[k r] rest IH]; [discriminate|].
    cbn [data_index data_get] in *. destruct (eq_str k _); [congruence|by apply IH]. }
  unfold SemsPowerSensor.native_value, SemsSwitch._handle_coordinator_update,
    SemsSwitch.async_update, SemsSwitch._compute_is_on_from_data.
  cbn [SemsSwitch.async_setup_entry]. unfold SemsSwitch.api_is_on.
  rewrite Hget, Hd.
  destruct Herr as [-> | ->]; (split; [reflexivity|]); eexists; (split; [|done]); tauto.
Qed.
End SwitchMore.

(** ** From the entity to the request *)

Section Wire.
Context `{Builtins}.

Lemma command_done (body : option value) :
  auth_expired body = false ->
  command_outcome_of true (Some (Http 200 body)) = CmdDone.
Proof. unfold auth_expired, command_outcome_of. by intros ->. Qed.

(** X24: turning the switch on asks for [change_status] with status 1 and
    turning it off with status 2; with a cached token and a response that
    is fine, that call is one request to the power control address whose
    payload has the serial number and the status as the string "1" or
    "2", and nothing else is recorded. *)
Theorem switch_commands_on_the_wire (self : SemsSwitch.t) (now : float) (tok : token)
    (body : option value) (rest : list reply) (w : world) :
  _token (api w) = Some tok ->
  inbox w = Http 200 body :: rest ->
  auth_expired body = false ->
  let sent status :=
    mkWorld (api w) rest
      (trace w ++ [Post _PowerControlURL (TokenHeaders (Some tok))
                     (VDict {[ "sn" := VStr (SemsSwitch.sn self);
                               "status" := VStr status ]})]) in
  snd (SemsSwitch.async_turn_on self now) =
    [WriteHaState; RequestRefresh; CallChangeStatus (SemsSwitch.sn self) 1] /\
  run_action (CallChangeStatus (SemsSwitch.sn self) 1) w = (Ok tt, sent "1") /\
  snd (SemsSwitch.async_turn_off self now) =
    [WriteHaState; RequestRefresh; CallChangeStatus (SemsSwitch.sn self) 2] /\
  run_action (CallChangeStatus (SemsSwitch.sn self) 2) w = (Ok tt, sent "2").
Proof.
  intros Ht Hin Hb. cbn zeta. split; [reflexivity|].
  unfold run_action, change_status. change (Z.to_nat (1 + 1)) with 2%nat.
  rewrite !(change_status_cached tok) by exact Ht. cbn zeta.
  rewrite Hin. cbn [head]. change (0 <? Z.of_nat 1)%Z with true.
  rewrite (command_done body Hb). unfold after_post. rewrite Hin. done.
Qed.

(** X25: with a cached token and a response that is fine,
    [set_charge_mode] is one request to the charge mode address whose
    payload has the serial number under [sn], the mode under [type], and
    the charge power under [charge_power] exactly when it is not [None];
    it has no other key. *)
Theorem charge_power_on_the_wire (sn : string) (mode power : value) (tok : token)
    (body : option value) (rest : list reply) (w : world) :
  _token (api w) = Some tok ->
  inbox w = Http 200 body :: rest ->
  auth_expired body = false ->
  exists payload : gmap string value,
    run_action (CallSetChargeMode sn mode power) w =
      (Ok tt,
       mkWorld (api w) rest
         (trace w ++ [Post _SetChargeModeURL (TokenHeaders (Some tok)) (VDict payload)])) /\
    payload !! "sn" = Some (VStr sn) /\
    payload !! "type" = Some mode /\
    payload !! "charge_power" = (if is_none power then None else Some power) /\
    dom payload ⊆ ({[ "sn"; "type"; "charge_power" ]} : gset string).
Proof.
  intros Ht Hin Hb.
  exists (match set_charge_mode_payload sn mode power with VDict d => d | _ => ∅ end).
  split.
  - unfold run_action, set_charge_mode. change (Z.to_nat (1 + 1)) with 2%nat.
    rewrite (set_charge_mode_cached tok) by exact Ht. cbn zeta.
    rewrite Hin. cbn [head]. change (0 <? Z.of_nat 1)%Z with true.
    rewrite (command_done body Hb). unfold after_post. rewrite Hin. cbn [tail].
    unfold set_charge_mode_payload. by destruct (negb (is_none power)).
  - unfold set_charge_mode_payload. destruct (is_none power); cbn [negb].
    + do 3 (split; [by vm_compute|]).
      rewrite dom_insert_L, dom_singleton_L. set_unfold. tauto.
    + do 3 (split; [by vm_compute|]).
      rewrite !dom_insert_L, dom_singleton_L. set_unfold. tauto.
Qed.
End Wire.

(** ** The configuration flow *)

Section ConfigFlowProperties.
Import ConfigFlow.
Context `{Builtins}.

(** X26: the user step of the configuration flow shows the empty form
    when there is no input; with an input it makes one request, the login
    with the credentials entered, and creates the entry (titled with the
    serial number, holding the input) exactly when that login yields a
    token.  Every failure, a network error included, is reported as
    "invalid_auth": neither "cannot_connect" nor "unknown" is ever
    reported. *)
Theorem config_flow_accepts_iff_login_succeeds (data : user_input) (net : list reply)
    (tr : list event) :
  let step := async_step_user (Some data) net tr in
  let result := fst (fst step) in
  async_step_user None net tr = (ShowForm ∅, net, tr) /\
  (login_token_of (head net) <> None -> result = CreateEntry (wallbox_serial_No data) data) /\
  (login_token_of (head net) = None -> result = ShowForm {[ "base" := "invalid_auth" ]}) /\
  result <> ShowForm {[ "base" := "cannot_connect" ]} /\
  result <> ShowForm {[ "base" := "unknown" ]} /\
  snd (fst step) = tail net /\
  posts (snd step) =
    posts tr ++ [Post _LoginURL DefaultHeaders
                   (VDict {[ "account" := VStr (username data);
                             "pwd" := VStr (password data) ]})].
Proof.
  cbn zeta. split; [reflexivity|].
  unfold async_step_user, validate_input, SemsApiModel.__init__, test_authentication.
  rewrite run_try_except, _ensure_token_spec. cbn [api _token token_is_none orb].
  unfold after_login. cbn [api inbox trace _username _password].
  destruct (login_token_of (head net)) as [t|] eqn:Hl;
    cbn [token_is_none negb fst snd inbox trace].
  - split; [done|]. split; [done|]. split; [done|]. split; [done|]. split; [done|].
    rewrite <- !app_assoc, !posts_app. cbn [app].
    change (?a :: ?l) with ([a] ++ l). rewrite !posts_app, posts_login_log. done.
  - split; [done|]. split; [done|].
    split; [intros [= E]; apply (f_equal (fun m => m !! "base")) in E; by vm_compute in E|].
    split; [intros [= E]; apply (f_equal (fun m => m !! "base")) in E; by vm_compute in E|].
    split; [done|].
    rewrite <- !app_assoc, !posts_app. cbn [app].
    change (?a :: ?l) with ([a] ++ l). rewrite !posts_app, posts_login_log. done.
Qed.
End ConfigFlowProperties.

(** * Expired authorization, errors and endpoints, for every call *)

(** ** The first request of a call *)

(** The token with which a call sends its first request of its own, and
    the world in which it does: the cached token and the world as it is,
    or, when no token is cached or a renewal is asked for, the token of the
    login that the call starts with and the world after that login.
    [None]: that login fails, and the call sends no request of its own. *)
Definition first_request (renew : bool) (w : world) : option (token * world) :=
  if (token_is_none (_token (api w)) || renew)%bool then
    match login_token_of (head (inbox w)) with
    | Some tok => Some (tok, after_login w)
    | None => None
    end
  else
    match _token (api w) with
    | Some tok => Some (tok, w)
    | None => None
    end.

Section FirstRequest.
Context `{Builtins}.

Lemma first_request_world (renew : bool) (w w0 : world) (tok : token) :
  first_request renew w = Some (tok, w0) ->
  _token (api w0) = Some tok /\
  _username (api w0) = _username (api w) /\
  _password (api w0) = _password (api w) /\
  ((token_is_none (_token (api w)) || renew)%bool = false /\ w0 = w \/
   (token_is_none (_token (api w)) || renew)%bool = true /\
   login_token_of (head (inbox w)) = Some tok /\
   inbox w0 = tail (inbox w) /\
   trace w0 = trace w ++ [Post _LoginURL DefaultHeaders (login_payload (api w));
                          TokenStored tok]).
Proof.
  unfold first_request.
  destruct (token_is_none (_token (api w)) || renew)%bool eqn:Hr.
  - destruct (login_token_of (head (inbox w))) as [t|] eqn:Hl; [|discriminate].
    intros [= <- <-]. unfold after_login. cbn [api _token _username _password inbox trace].
    rewrite Hl. do 3 (split; [reflexivity|]). right.
    do 3 (split; [reflexivity|]).
    destruct (head (inbox w)) as [[|s [[| | | | | |j]|]]|]; try discriminate Hl.
    unfold login_token_of in Hl. unfold login_log.
    destruct (http_error s); [discriminate|].
    destruct (login_refused j); [discriminate|].
    by destruct (j !! "data") as [[]|].
  - destruct (_token (api w)) as [t|] eqn:Ht; [|discriminate].
    intros [= <- <-]. do 3 (split; [done|]). by left.
Qed.

Lemma getData_first_request (v : bool) (b : nat) (sn : string) (renew : bool)
    (w w0 : world) (tok : token) :
  first_request renew w = Some (tok, w0) ->
  getData_budget v (S b) sn renew w = getData_budget v (S b) sn false w0.
Proof.
  unfold first_request.
  destruct (token_is_none (_token (api w)) || renew)%bool eqn:Hr.
  - destruct (login_token_of (head (inbox w))) as [t|] eqn:Hl; [|discriminate].
    intros [= <- <-]. rewrite getData_renew by exact Hr. by rewrite Hl.
  - destruct (_token (api w)) as [t|]; [|discriminate].
    intros [= <- <-]. apply orb_false_iff in Hr as [_ ->]. reflexivity.
Qed.

Lemma change_status_first_request (b : nat) (sn : string) (status : Z) (renew : bool)
    (w w0 : world) (tok : token) :
  first_request renew w = Some (tok, w0) ->
  change_status_budget (S b) sn status renew w = change_status_budget (S b) sn status false w0.
Proof.
  unfold first_request.
  destruct (token_is_none (_token (api w)) || renew)%bool eqn:Hr.
  - destruct (login_token_of (head (inbox w))) as [t|] eqn:Hl; [|discriminate].
    intros [= <- <-]. rewrite change_status_renew by exact Hr. by rewrite Hl.
  - destruct (_token (api w)) as [t|]; [|discriminate].
    intros [= <- <-]. apply orb_false_iff in Hr as [_ ->]. reflexivity.
Qed.

Lemma set_charge_mode_first_request (b : nat) (sn : string) (mode power : value)
    (renew : bool) (w w0 : world) (tok : token) :
  first_request renew w = Some (tok, w0) ->
  set_charge_mode_budget (S b) sn mode power renew w =
  set_charge_mode_budget (S b) sn mode power false w0.
Proof.
  unfold first_request.
  destruct (token_is_none (_token (api w)) || renew)%bool eqn:Hr.
  - destruct (login_token_of (head (inbox w))) as [t|] eqn:Hl; [|discriminate].
    intros [= <- <-]. rewrite set_charge_mode_renew by exact Hr. by rewrite Hl.
  - destruct (_token (api w)) as [t|]; [|discriminate].
    intros [= <- <-]. apply orb_false_iff in Hr as [_ ->]. reflexivity.
Qed.

(** An expired response with no retry left is reported, not retried. *)
Lemma command_outcome_expired_last (s : Z) (body : option value) :
  auth_expired body = true ->
  command_outcome_of false (Some (Http s body)) = CmdNotSuccessful.
Proof.
  unfold auth_expired, command_outcome_of. intros ->.
  by rewrite orb_true_r, andb_false_r.
Qed.
End FirstRequest.

(** ** Expired authorization, for every call *)

Section ExpiredTwice.
Context `{Builtins}.

Lemma getData_expired_twice (tok tok' : token) (sn : string) (s s' : Z)
    (body body' : option value) (login_reply : reply) (rest' : list reply) (w0 : world) :
  _token (api w0) = Some tok ->
  inbox w0 = Http s body :: login_reply :: Http s' body' :: rest' ->
  http_error s = false -> auth_expired body = true ->
  login_token_of (Some login_reply) = Some tok' ->
  http_error s' = false -> auth_expired body' = true ->
  getData_budget false 2 sn false w0 =
    (Raise OutOfRetries,
     mkWorld (mkSemsApi (_username (api w0)) (_password (api w0)) None) rest'
       (trace w0 ++
        [Post _WallboxURL_V3 (TokenHeaders (Some tok)) (status_payload sn);
         TokenCleared;
         Post _LoginURL DefaultHeaders (login_payload (api w0));
         TokenStored tok';
         Post _WallboxURL_V3 (TokenHeaders (Some tok')) (status_payload sn);
         TokenCleared;
         Log INFO "SEMS - Maximum token fetch tries reached, aborting for now"])).
Proof.
  destruct w0 as [[u p t] inb tr]. cbn [api _token inbox trace _username _password].
  intros -> -> Hs Hb Hl Hs' Hb'.
  rewrite (getData_v3_cached tok) by reflexivity. cbn zeta. cbn [inbox head].
  rewrite status_outcome_expired by assumption.
  rewrite getData_renew by reflexivity.
  unfold clear_token, after_post. cbn [api inbox trace tail head _username _password].
  rewrite Hl.
  rewrite (getData_v3_cached tok')
    by (unfold after_login; cbn [api _token inbox head]; exact Hl).
  cbn zeta. unfold after_login. cbn [api inbox trace tail head _username _password].
  rewrite status_outcome_expired by assumption.
  rewrite getData_budget_O.
  unfold record, clear_token, after_post, after_login.
  cbn [api inbox trace tail head _username _password]. rewrite Hl.
  rewrite (login_log_accepted _ _ Hl). unfold login_payload. cbn [_username _password].
  rewrite <- !app_assoc. reflexivity.
Qed.

Lemma change_status_expired_twice (tok tok' : token) (sn : string) (status s s' : Z)
    (body body' : option value) (login_reply : reply) (rest' : list reply) (w0 : world) :
  _token (api w0) = Some tok ->
  inbox w0 = Http s body :: login_reply :: Http s' body' :: rest' ->
  auth_expired body = true ->
  login_token_of (Some login_reply) = Some tok' ->
  auth_expired body' = true ->
  change_status_budget 2 sn status false w0 =
    (Ok tt,
     mkWorld (mkSemsApi (_username (api w0)) (_password (api w0)) (Some tok')) rest'
       (trace w0 ++
        [Post _PowerControlURL (TokenHeaders (Some tok)) (change_status_payload sn status);
         TokenCleared;
         Post _LoginURL DefaultHeaders (login_payload (api w0));
         TokenStored tok';
         Post _PowerControlURL (TokenHeaders (Some tok')) (change_status_payload sn status);
         Log WARNING "Power control command not successful"])).
Proof.
  destruct w0 as [[u p t] inb tr]. cbn [api _token inbox trace _username _password].
  intros -> -> Hb Hl Hb'.
  rewrite (change_status_cached tok) by reflexivity. cbn zeta. cbn [inbox head].
  change (0 <? Z.of_nat 1)%Z with true.
  rewrite command_outcome_expired by assumption.
  rewrite change_status_renew by reflexivity.
  unfold clear_token, after_post. cbn [api inbox trace tail head _username _password].
  rewrite Hl.
  rewrite (change_status_cached tok')
    by (unfold after_login; cbn [api _token inbox head]; exact Hl).
  cbn zeta. unfold after_login. cbn [api inbox trace tail head _username _password].
  change (0 <? Z.of_nat 0)%Z with false.
  rewrite command_outcome_expired_last by assumption.
  unfold record, clear_token, after_post, after_login.
  cbn [api inbox trace tail head _username _password]. rewrite Hl.
  rewrite (login_log_accepted _ _ Hl). unfold login_payload. cbn [_username _password].
  rewrite <- !app_assoc. reflexivity.
Qed.

Lemma set_charge_mode_expired_twice (tok tok' : token) (sn : string) (mode power : value)
    (s s' : Z) (body body' : option value) (login_reply : reply) (rest' : list reply)
    (w0 : world) :
  _token (api w0) = Some tok ->
  inbox w0 = Http s body :: login_reply :: Http s' body' :: rest' ->
  auth_expired body = true ->
  login_token_of (Some login_reply) = Some tok' ->
  auth_expired body' = true ->
  set_charge_mode_budget 2 sn mode power false w0 =
    (Ok tt,
     mkWorld (mkSemsApi (_username (api w0)) (_password (api w0)) (Some tok')) rest'
       (trace w0 ++
        [Post _SetChargeModeURL (TokenHeaders (Some tok))
           (set_charge_mode_payload sn mode power);
         TokenCleared;
         Post _LoginURL DefaultHeaders (login_payload (api w0));
         TokenStored tok';
         Post _SetChargeModeURL (TokenHeaders (Some tok'))
           (set_charge_mode_payload sn mode power);
         Log WARNING "SetChargeMode command not successful"])).
Proof.
  destruct w0 as [[u p t] inb tr]. cbn [api _token inbox trace _username _password].
  intros -> -> Hb Hl Hb'.
  rewrite (set_charge_mode_cached tok) by reflexivity. cbn zeta. cbn [inbox head].
  change (0 <? Z.of_nat 1)%Z with true.
  rewrite command_outcome_expired by assumption.
  rewrite set_charge_mode_renew by reflexivity.
  unfold clear_token, after_post. cbn [api inbox trace tail head _username _password].
  rewrite Hl.
  rewrite (set_charge_mode_cached tok')
    by (unfold after_login; cbn [api _token inbox head]; exact Hl).
  cbn zeta. unfold after_login. cbn [api inbox trace tail head _username _password].
  change (0 <? Z.of_nat 0)%Z with false.
  rewrite command_outcome_expired_last by assumption.
  unfold record, clear_token, after_post, after_login.
  cbn [api inbox trace tail head _username _password]. rewrite Hl.
  rewrite (login_log_accepted _ _ Hl). unfold login_payload. cbn [_username _password].
  rewrite <- !app_assoc. reflexivity.
Qed.
End ExpiredTwice.

Section ExpiredAuthorizationInFull.
Context `{Builtins}.

Lemma getData_expired_login_failed (tok : token) (sn : string) (s : Z)
    (body : option value) (rest : list reply) (w0 : world) :
  _token (api w0) = Some tok ->
  inbox w0 = Http s body :: rest ->
  http_error s = false -> auth_expired body = true ->
  login_token_of (head rest) = None ->
  fst (getData_budget false 2 sn false w0) = Ok VNone.
Proof.
  intros Ht Hin Hs Hb Hl.
  rewrite (getData_v3_cached tok) by exact Ht. cbn zeta. rewrite Hin. cbn [head].
  rewrite status_outcome_expired by assumption.
  rewrite getData_renew by reflexivity.
  unfold clear_token, after_post. cbn [inbox]. rewrite Hin. cbn [tail]. by rewrite Hl.
Qed.

(** C1, as amended: for a call with the default [maxTokenRetries=1],
    whatever its [renewToken] and whether or not a token is cached, a
    response to its request that says the authorization has expired (for
    [getData]: one with a status that [raise_for_status] lets pass) is
    followed by the clearing of the token and exactly one login request;
    the same request is sent once more exactly when that login yields a
    token, and no further login or request follows; when the login fails
    [getData] returns [None] and the commands return.  When the repeated
    request is answered with the expiry message again, no further login
    follows: the commands log a warning and return, with the new token
    still cached, and [getData] clears the token once more and raises
    [OutOfRetries]. *)
Theorem expired_authorization_one_relogin (renew : bool) (tok : token) (sn : string)
    (status : Z) (mode power : value) (s : Z) (body : option value) (rest : list reply)
    (w w0 : world) :
  first_request renew w = Some (tok, w0) ->
  inbox w0 = Http s body :: rest ->
  auth_expired body = true ->
  let login := Post _LoginURL DefaultHeaders (login_payload (api w)) in
  let client (t : option token) := mkSemsApi (_username (api w)) (_password (api w)) t in
  (http_error s = false ->
   (exists tl,
      trace (snd (getData _USE_V4_STATUS sn renew 1 w)) =
        trace w0 ++ Post _WallboxURL_V3 (TokenHeaders (Some tok)) (status_payload sn)
                 :: TokenCleared :: login :: tl /\
      posts tl = retry_after_login _WallboxURL_V3 (status_payload sn) (head rest)) /\
   (login_token_of (head rest) = None ->
    fst (getData _USE_V4_STATUS sn renew 1 w) = Ok VNone) /\
   (forall (tok' : token) (s' : Z) (body' : option value) (rest' : list reply),
      login_token_of (head rest) = Some tok' ->
      tail rest = Http s' body' :: rest' ->
      http_error s' = false -> auth_expired body' = true ->
      getData _USE_V4_STATUS sn renew 1 w =
        (Raise OutOfRetries,
         mkWorld (client None) rest'
           (trace w0 ++
            [Post _WallboxURL_V3 (TokenHeaders (Some tok)) (status_payload sn);
             TokenCleared; login; TokenStored tok';
             Post _WallboxURL_V3 (TokenHeaders (Some tok')) (status_payload sn);
             TokenCleared;
             Log INFO "SEMS - Maximum token fetch tries reached, aborting for now"])))) /\
  ((exists tl,
      trace (snd (change_status sn status renew 1 w)) =
        trace w0 ++ Post _PowerControlURL (TokenHeaders (Some tok))
                      (change_status_payload sn status)
                 :: TokenCleared :: login :: tl /\
      posts tl = retry_after_login _PowerControlURL (change_status_payload sn status)
                   (head rest)) /\
   fst (change_status sn status renew 1 w) = Ok tt /\
   (forall (tok' : token) (s' : Z) (body' : option value) (rest' : list reply),
      login_token_of (head rest) = Some tok' ->
      tail rest = Http s' body' :: rest' ->
      auth_expired body' = true ->
      change_status sn status renew 1 w =
        (Ok tt,
         mkWorld (client (Some tok')) rest'
           (trace w0 ++
            [Post _PowerControlURL (TokenHeaders (Some tok))
               (change_status_payload sn status);
             TokenCleared; login; TokenStored tok';
             Post _PowerControlURL (TokenHeaders (Some tok'))
               (change_status_payload sn status);
             Log WARNING "Power control command not successful"])))) /\
  ((exists tl,
      trace (snd (set_charge_mode sn mode power renew 1 w)) =
        trace w0 ++ Post _SetChargeModeURL (TokenHeaders (Some tok))
                      (set_charge_mode_payload sn mode power)
                 :: TokenCleared :: login :: tl /\
      posts tl = retry_after_login _SetChargeModeURL
                   (set_charge_mode_payload sn mode power) (head rest)) /\
   fst (set_charge_mode sn mode power renew 1 w) = Ok tt /\
   (forall (tok' : token) (s' : Z) (body' : option value) (rest' : list reply),
      login_token_of (head rest) = Some tok' ->
      tail rest = Http s' body' :: rest' ->
      auth_expired body' = true ->
      set_charge_mode sn mode power renew 1 w =
        (Ok tt,
         mkWorld (client (Some tok')) rest'
           (trace w0 ++
            [Post _SetChargeModeURL (TokenHeaders (Some tok))
               (set_charge_mode_payload sn mode power);
             TokenCleared; login; TokenStored tok';
             Post _SetChargeModeURL (TokenHeaders (Some tok'))
               (set_charge_mode_payload sn mode power);
             Log WARNING "SetChargeMode command not successful"])))).
Proof.
  intros Hfirst Hin Hb. cbn zeta.
  destruct (first_request_world _ _ _ _ Hfirst) as (Ht & Hu & Hp & _).
  assert (Hlogin : login_payload (api w0) = login_payload (api w))
    by (unfold login_payload; by rewrite Hu, Hp).
  unfold getData, change_status, set_charge_mode.
  change (Z.to_nat (1 + 1)) with 2%nat. change _USE_V4_STATUS with false.
  rewrite (getData_first_request _ _ _ _ _ _ _ Hfirst),
    (change_status_first_request _ _ _ _ _ _ _ Hfirst),
    (set_charge_mode_first_request _ _ _ _ _ _ _ _ Hfirst).
  rewrite <- Hu, <- Hp, <- Hlogin.
  assert (Hrest : forall tok' s' body' rest',
            login_token_of (head rest) = Some tok' -> tail rest = Http s' body' :: rest' ->
            exists login_reply,
              inbox w0 = Http s body :: login_reply :: Http s' body' :: rest' /\
              login_token_of (Some login_reply) = Some tok').
  { intros tok' s' body' rest' Hl Htl. destruct rest as [|lr rest1]; [discriminate|].
    cbn in Htl, Hl. subst rest1. exists lr. by rewrite Hin. }
  split; [|split].
  - intros Hs. split; [|split].
    + apply (getData_expired_once tok sn s body rest w0); assumption.
    + intros Hl. by apply (getData_expired_login_failed tok sn s body rest).
    + intros tok' s' body' rest' Hl Htl Hs' Hb'.
      destruct (Hrest _ _ _ _ Hl Htl) as (lr & Hin' & Hl').
      by apply (getData_expired_twice tok tok' sn s s' body body' lr).
  - split; [|split].
    + apply (change_status_expired_once tok sn status s body rest w0); assumption.
    + by destruct (change_status_budget_returns 2 sn status false w0) as ([] & w' & ->).
    + intros tok' s' body' rest' Hl Htl Hb'.
      destruct (Hrest _ _ _ _ Hl Htl) as (lr & Hin' & Hl').
      by apply (change_status_expired_twice tok tok' sn status s s' body body' lr).
  - split; [|split].
    + apply (set_charge_mode_expired_once tok sn mode power s body rest w0); assumption.
    + by destruct (set_charge_mode_budget_returns 2 sn mode power false w0)
        as ([] & w' & ->).
    + intros tok' s' body' rest' Hl Htl Hb'.
      destruct (Hrest _ _ _ _ Hl Htl) as (lr & Hin' & Hl').
      by apply (set_charge_mode_expired_twice tok tok' sn mode power s s' body body' lr).
Qed.
End ExpiredAuthorizationInFull.

Section ErrorsAtEveryRequest.
Context `{Builtins}.

(** The replies to the repeated request of a command, sent with no
    retry left, that the command reports: also an expiry message. *)
Definition retry_failed (r : option reply) : bool :=
  match r with
  | None | Some NetFail => true
  | Some (Http s body) => negb (Z.eqb s 200) || auth_expired body
  end.

Lemma retry_failed_outcome (r : option reply) :
  retry_failed r = true ->
  command_outcome_of false r = CmdNotSuccessful \/ command_outcome_of false r = CmdRaised.
Proof.
  unfold retry_failed, command_outcome_of, auth_expired.
  destruct r as [[|s body]|]; try (intros _; by right).
  intros ->. rewrite andb_false_r. by left.
Qed.

Lemma poll_of_None (station : string) (w : world) :
  fst (getData _USE_V4_STATUS station false 1 w) = Ok VNone ->
  fst (_async_update_data station w) = Raise (UpdateFailed NoDataReceived).
Proof. intros Hget. rewrite _async_update_data_spec. cbn [fst]. by rewrite Hget. Qed.

(** What a call does after a response that says the authorization has
    expired, when the login that follows succeeds: the world in which the
    request is repeated. *)
Definition retry_world (url : string) (tok : token) (payload : value) (w0 : world) : world :=
  after_login (clear_token (after_post url (TokenHeaders (Some tok)) payload w0)).

Lemma getData_retry (tok tok' : token) (sn : string) (s : Z) (body : option value)
    (rest : list reply) (w0 : world) :
  _token (api w0) = Some tok ->
  inbox w0 = Http s body :: rest ->
  http_error s = false -> auth_expired body = true ->
  login_token_of (head rest) = Some tok' ->
  getData_budget false 2 sn false w0 =
  getData_budget false 1 sn false (retry_world _WallboxURL_V3 tok (status_payload sn) w0) /\
  _token (api (retry_world _WallboxURL_V3 tok (status_payload sn) w0)) = Some tok' /\
  inbox (retry_world _WallboxURL_V3 tok (status_payload sn) w0) = tail rest.
Proof.
  intros Ht Hin Hs Hb Hl. unfold retry_world.
  rewrite (getData_v3_cached tok) by exact Ht. cbn zeta. rewrite Hin. cbn [head].
  rewrite status_outcome_expired by assumption.
  rewrite getData_renew by reflexivity.
  unfold clear_token, after_post, after_login. cbn [inbox api _token]. rewrite Hin.
  cbn [tail]. by rewrite Hl.
Qed.

Lemma change_status_retry (tok tok' : token) (sn : string) (status s : Z)
    (body : option value) (rest : list reply) (w0 : world) :
  _token (api w0) = Some tok ->
  inbox w0 = Http s body :: rest ->
  auth_expired body = true ->
  login_token_of (head rest) = Some tok' ->
  change_status_budget 2 sn status false w0 =
  change_status_budget 1 sn status false
    (retry_world _PowerControlURL tok (change_status_payload sn status) w0) /\
  _token (api (retry_world _PowerControlURL tok (change_status_payload sn status) w0))
    = Some tok' /\
  inbox (retry_world _PowerControlURL tok (change_status_payload sn status) w0) = tail rest.
Proof.
  intros Ht Hin Hb Hl. unfold retry_world.
  rewrite (change_status_cached tok) by exact Ht. cbn zeta. rewrite Hin. cbn [head].
  change (0 <? Z.of_nat 1)%Z with true.
  rewrite command_outcome_expired by assumption.
  rewrite change_status_renew by reflexivity.
  unfold clear_token, after_post, after_login. cbn [inbox api _token]. rewrite Hin.
  cbn [tail]. by rewrite Hl.
Qed.

Lemma set_charge_mode_retry (tok tok' : token) (sn : string) (mode power : value) (s : Z)
    (body : option value) (rest : list reply) (w0 : world) :
  _token (api w0) = Some tok ->
  inbox w0 = Http s body :: rest ->
  auth_expired body = true ->
  login_token_of (head rest) = Some tok' ->
  set_charge_mode_budget 2 sn mode power false w0 =
  set_charge_mode_budget 1 sn mode power false
    (retry_world _SetChargeModeURL tok (set_charge_mode_payload sn mode power) w0) /\
  _token (api (retry_world _SetChargeModeURL tok (set_charge_mode_payload sn mode power) w0))
    = Some tok' /\
  inbox (retry_world _SetChargeModeURL tok (set_charge_mode_payload sn mode power) w0)
    = tail rest.
Proof.
  intros Ht Hin Hb Hl. unfold retry_world.
  rewrite (set_charge_mode_cached tok) by exact Ht. cbn zeta. rewrite Hin. cbn [head].
  change (0 <? Z.of_nat 1)%Z with true.
  rewrite command_outcome_expired by assumption.
  rewrite set_charge_mode_renew by reflexivity.
  unfold clear_token, after_post, after_login. cbn [inbox api _token]. rewrite Hin.
  cbn [tail]. by rewrite Hl.
Qed.
End ErrorsAtEveryRequest.

Lemma inbox_after_expiry (url : string) (h : headers) (p : value) (w0 : world) :
  inbox (clear_token (after_post url h p w0)) = tail (inbox w0).
Proof. reflexivity. Qed.

Section ErrorsOfEveryCall.
Context `{Builtins}.

(** C3, as amended: whichever request of a call fails, the call reports
    it and makes no further request.  A login that yields no token, be it
    the login the call starts with or the one after an expired
    authorization, makes [getData] return [None] and the commands log an
    error and return; so does, for [getData], a reply to the status request
    (the first, sent with a cached or a fresh token, or the repeated one)
    that is a network error, an HTTP error status, a body that is no JSON
    object, or a response without [data] other than the expiry message; in
    each of these cases the poll fails with [UpdateFailed].  A command logs
    a warning or an error and returns when its request raises or is
    answered with a status other than 200 (and no expiry message, or any on
    the repeated request).  A response with status 200 that does not say
    the authorization has expired completes the command with nothing
    logged, whatever its body: a vendor error in it is not detected. *)
Theorem errors_fail_the_poll_and_are_logged (station sn : string) (status : Z)
    (mode power : value) (renew : bool) (w : world) :
  let polled := fst (_async_update_data station w) in
  let could_not text := Log ERROR ("SEMS - Could not ensure token before " ++ text) in
  (* the login that the call starts with yields no token *)
  ((token_is_none (_token (api w)) || renew)%bool = true ->
   login_token_of (head (inbox w)) = None ->
   getData _USE_V4_STATUS station renew 1 w =
     (Ok VNone, record [could_not "getData"] (after_login w)) /\
   (renew = false -> polled = Raise (UpdateFailed NoDataReceived)) /\
   change_status sn status renew 1 w =
     (Ok tt, record [could_not "change_status"] (after_login w)) /\
   set_charge_mode sn mode power renew 1 w =
     (Ok tt, record [could_not "set_charge_mode"] (after_login w))) /\
  (forall (tok : token) (w0 : world),
     first_request renew w = Some (tok, w0) ->
     let h := TokenHeaders (Some tok) in
     let status_request := after_post _WallboxURL_V3 h (status_payload station) w0 in
     let power_request := after_post _PowerControlURL h (change_status_payload sn status) w0 in
     let mode_request :=
       after_post _SetChargeModeURL h (set_charge_mode_payload sn mode power) w0 in
     (* the first request of the call *)
     (fetch_failed (head (inbox w0)) = true ->
      exists text,
        getData _USE_V4_STATUS station renew 1 w =
          (Ok VNone, record [Log ERROR text] status_request) /\
        (renew = false -> polled = Raise (UpdateFailed NoDataReceived))) /\
     (command_failed (head (inbox w0)) = true ->
      exists lvl text text',
        (lvl = WARNING \/ lvl = ERROR) /\
        change_status sn status renew 1 w = (Ok tt, record [Log lvl text] power_request) /\
        set_charge_mode sn mode power renew 1 w =
          (Ok tt, record [Log lvl text'] mode_request)) /\
     (* a response with status 200, whatever its body *)
     (forall (body : option value) (rest : list reply),
        inbox w0 = Http 200 body :: rest -> auth_expired body = false ->
        change_status sn status renew 1 w = (Ok tt, power_request) /\
        set_charge_mode sn mode power renew 1 w = (Ok tt, mode_request)) /\
     (* after a response that says the authorization has expired *)
     (forall (s : Z) (body : option value) (rest : list reply),
        inbox w0 = Http s body :: rest -> auth_expired body = true ->
        (login_token_of (head rest) = None ->
         (http_error s = false ->
          getData _USE_V4_STATUS station renew 1 w =
            (Ok VNone,
             record [could_not "getData"] (after_login (clear_token status_request))) /\
          (renew = false -> polled = Raise (UpdateFailed NoDataReceived))) /\
         change_status sn status renew 1 w =
           (Ok tt,
            record [could_not "change_status"] (after_login (clear_token power_request))) /\
         set_charge_mode sn mode power renew 1 w =
           (Ok tt,
            record [could_not "set_charge_mode"] (after_login (clear_token mode_request)))) /\
        (forall tok' : token,
           login_token_of (head rest) = Some tok' ->
           let h' := TokenHeaders (Some tok') in
           (http_error s = false -> fetch_failed (head (tail rest)) = true ->
            exists text,
              getData _USE_V4_STATUS station renew 1 w =
                (Ok VNone,
                 record [Log ERROR text]
                   (after_post _WallboxURL_V3 h' (status_payload station)
                      (after_login (clear_token status_request)))) /\
              (renew = false -> polled = Raise (UpdateFailed NoDataReceived))) /\
           (retry_failed (head (tail rest)) = true ->
            exists lvl text text',
              (lvl = WARNING \/ lvl = ERROR) /\
              change_status sn status renew 1 w =
                (Ok tt,
                 record [Log lvl text]
                   (after_post _PowerControlURL h' (change_status_payload sn status)
                      (after_login (clear_token power_request)))) /\
              set_charge_mode sn mode power renew 1 w =
                (Ok tt,
                 record [Log lvl text']
                   (after_post _SetChargeModeURL h' (set_charge_mode_payload sn mode power)
                      (after_login (clear_token mode_request)))))))).
Proof.
  cbn zeta.
  assert (Hpoll : forall w', renew = false ->
            getData _USE_V4_STATUS station renew 1 w = (Ok VNone, w') ->
            fst (_async_update_data station w) = Raise (UpdateFailed NoDataReceived)).
  { intros w' -> Hget. apply poll_of_None. by rewrite Hget. }
  unfold getData, change_status, set_charge_mode in *.
  change (Z.to_nat (1 + 1)) with 2%nat in *. change _USE_V4_STATUS with false in *.
  split.
  - intros Hr Hl.
    assert (Hget : getData_budget false 2 station renew w =
              (Ok VNone,
               record [Log ERROR "SEMS - Could not ensure token before getData"]
                 (after_login w))).
    { rewrite getData_renew by exact Hr. by rewrite Hl. }
    split; [exact Hget|]. split; [intros Hn; by apply (Hpoll _ Hn Hget)|].
    rewrite change_status_renew, set_charge_mode_renew by exact Hr. by rewrite Hl.
  - intros tok w0 Hfirst.
    destruct (first_request_world _ _ _ _ Hfirst) as (Ht & _).
    rewrite (getData_first_request _ _ _ _ _ _ _ Hfirst),
      (change_status_first_request _ _ _ _ _ _ _ Hfirst),
      (set_charge_mode_first_request _ _ _ _ _ _ _ _ Hfirst) in *.
    split; [|split; [|split]].
    + intros (text & Htext)%fetch_failed_outcome. exists text.
      assert (Hget : getData_budget false 2 station false w0 =
                (Ok VNone,
                 record [Log ERROR text]
                   (after_post _WallboxURL_V3 (TokenHeaders (Some tok))
                      (status_payload station) w0))).
      { rewrite (getData_v3_cached tok) by exact Ht. cbn zeta. by rewrite Htext. }
      split; [exact Hget|]. intros Hn. by apply (Hpoll _ Hn Hget).
    + intros Hc.
      rewrite (change_status_cached tok), (set_charge_mode_cached tok) by exact Ht.
      cbn zeta.
      destruct (command_failed_outcome (0 <? Z.of_nat 1)%Z _ Hc) as [-> | ->].
      * exists WARNING. eexists _, _. split; [by left|]. split; reflexivity.
      * exists ERROR. eexists _, _. split; [by right|]. split; reflexivity.
    + intros body rest Hin Hb.
      rewrite (change_status_cached tok), (set_charge_mode_cached tok) by exact Ht.
      cbn zeta. rewrite Hin. cbn [head]. change (0 <? Z.of_nat 1)%Z with true.
      by rewrite (command_done body Hb).
    + intros s body rest Hin Hb. split.
      * intros Hl. split; [|split].
        -- intros Hs.
           assert (Hget : getData_budget false 2 station false w0 =
                     (Ok VNone,
                      record [Log ERROR "SEMS - Could not ensure token before getData"]
                        (after_login
                           (clear_token
                              (after_post _WallboxURL_V3 (TokenHeaders (Some tok))
                                 (status_payload station) w0))))).
           { rewrite (getData_v3_cached tok) by exact Ht. cbn zeta. rewrite Hin.
             cbn [head]. rewrite status_outcome_expired by assumption.
             rewrite getData_renew by reflexivity.
             rewrite inbox_after_expiry, Hin. cbn [tail]. by rewrite Hl. }
           split; [exact Hget|]. intros Hn. by apply (Hpoll _ Hn Hget).
        -- rewrite (change_status_cached tok) by exact Ht. cbn zeta. rewrite Hin.
           cbn [head]. change (0 <? Z.of_nat 1)%Z with true.
           rewrite command_outcome_expired by assumption.
           rewrite change_status_renew by reflexivity.
           rewrite inbox_after_expiry, Hin. cbn [tail]. by rewrite Hl.
        -- rewrite (set_charge_mode_cached tok) by exact Ht. cbn zeta. rewrite Hin.
           cbn [head]. change (0 <? Z.of_nat 1)%Z with true.
           rewrite command_outcome_expired by assumption.
           rewrite set_charge_mode_renew by reflexivity.
           rewrite inbox_after_expiry, Hin. cbn [tail]. by rewrite Hl.
      * intros tok' Hl. cbn zeta. split.
        -- intros Hs (text & Htext)%fetch_failed_outcome. exists text.
           destruct (getData_retry tok tok' station s body rest w0 Ht Hin Hs Hb Hl)
             as (Hrun & Ht' & Hin').
           assert (Hget : getData_budget false 2 station false w0 =
                     (Ok VNone,
                      record [Log ERROR text]
                        (after_post _WallboxURL_V3 (TokenHeaders (Some tok'))
                           (status_payload station)
                           (after_login
                              (clear_token
                                 (after_post _WallboxURL_V3 (TokenHeaders (Some tok))
                                    (status_payload station) w0)))))).
           { rewrite Hrun. rewrite (getData_v3_cached tok') by exact Ht'. cbn zeta.
             rewrite Hin', Htext. reflexivity. }
           split; [exact Hget|]. intros Hn. by apply (Hpoll _ Hn Hget).
        -- intros Hc.
           destruct (change_status_retry tok tok' sn status s body rest w0 Ht Hin Hb Hl)
             as (Hrun & Ht' & Hin').
           destruct (set_charge_mode_retry tok tok' sn mode power s body rest w0 Ht Hin
                       Hb Hl) as (Hrun2 & Ht2 & Hin2).
           rewrite Hrun, Hrun2.
           rewrite (change_status_cached tok') by exact Ht'.
           rewrite (set_charge_mode_cached tok') by exact Ht2.
           cbn zeta. rewrite Hin', Hin2. change (0 <? Z.of_nat 0)%Z with false.
           destruct (retry_failed_outcome _ Hc) as [-> | ->].
           ++ exists WARNING. eexists _, _. split; [by left|]. split; reflexivity.
           ++ exists ERROR. eexists _, _. split; [by right|]. split; reflexivity.
Qed.
End ErrorsOfEveryCall.

Section EndpointsOfEveryCall.
Context `{Builtins}.

(** Whether the response to the fallback request says that the
    authorization has expired; without a [msg] of its own, the [msg] of the
    v4 response is the one that is read. *)
Definition fallback_expired (msg : string) (r : option reply) : bool :=
  match r with
  | Some (Http s (Some (VDict j))) =>
      negb (http_error s) && is_none (dict_get j "data")
      && expired (py_str (dict_get_default j "msg" (VStr msg)))
  | _ => false
  end.

(** The world after the v4 request, the warning and the fallback request. *)
Definition after_fallback (tok : token) (sn : string) (w0 : world) : world :=
  after_post _WallboxURL_V3 (TokenHeaders (Some tok)) (status_payload sn)
    (record [WARN_NO_DATA]
       (after_post _WallboxURL_V4 (TokenHeaders (Some tok)) (status_payload sn) w0)).

Ltac trace_suffix :=
  eexists; split; [rewrite <- ?app_assoc; cbn [app]; reflexivity|reflexivity].

Lemma getData_v4_fallback_run (tok : token) (b : nat) (sn : string) (s : Z)
    (j : gmap string value) (rest : list reply) (w0 : world) :
  _token (api w0) = Some tok ->
  inbox w0 = Http s (Some (VDict j)) :: rest ->
  http_error s = false ->
  is_none (dict_get j "data") = true ->
  contains SUCCESS_MARK (py_str (dict_get_default j "msg" (VStr ""))) = true ->
  let msg := py_str (dict_get_default j "msg" (VStr "")) in
  (fallback_expired msg (head rest) = true ->
   getData_budget true (S b) sn false w0 =
   getData_budget true b sn true (clear_token (after_fallback tok sn w0))) /\
  (fallback_expired msg (head rest) = false ->
   exists tl,
     trace (snd (getData_budget true (S b) sn false w0)) =
       trace (after_fallback tok sn w0) ++ tl /\ posts tl = []).
Proof.
  destruct w0 as [[u p t] inb tr]. cbn [api _token inbox trace]. intros -> -> Hs Hd Hm.
  apply is_none_true in Hd. cbn zeta.
  cbn [getData_budget].
  unfold getData_except, _build_headers, fetch_status_json, v4_no_data_fallback,
    _resolve_status_url, WARN_NO_DATA, after_fallback, record, after_post, clear_token,
    fallback_expired.
  exec. repeat (rewrite _ensure_token_spec; exec).
  rewrite Hs. exec. rewrite Hd. exec.
  change (endswith _WallboxURL_V4 "GetEvChargerMoreView") with true. rewrite Hm. exec.
  destruct rest as [|[|s2 b2] rest']; exec;
    try (split; [discriminate|intros _; trace_suffix]).
  destruct (http_error s2); exec;
    [destruct b2 as [[]|]; split; (discriminate || (intros _; trace_suffix))|].
  destruct b2 as [[| | | | | |d]|]; exec;
    try (split; [discriminate|intros _; trace_suffix]).
  destruct (is_none (dict_get d "data") && expired _)%bool eqn:E; exec.
  - split; [|discriminate]. intros _. apply getData_budget_except.
  - split; [discriminate|]. intros _.
    destruct (is_none (dict_get d "data")); exec; trace_suffix.
Qed.

(** A v4 response without data, without the vendor's word for success
    but with the expiry message: the token is cleared and the call starts
    over; no request to v3 is made on the way. *)
Lemma getData_v4_no_mark_expired (tok : token) (b : nat) (sn : string) (s : Z)
    (j : gmap string value) (rest : list reply) (w0 : world) :
  _token (api w0) = Some tok ->
  inbox w0 = Http s (Some (VDict j)) :: rest ->
  http_error s = false ->
  is_none (dict_get j "data") = true ->
  contains SUCCESS_MARK (py_str (dict_get_default j "msg" (VStr ""))) = false ->
  expired (py_str (dict_get_default j "msg" (VStr ""))) = true ->
  getData_budget true (S b) sn false w0 =
  getData_budget true b sn true
    (clear_token
       (after_post _WallboxURL_V4 (TokenHeaders (Some tok)) (status_payload sn) w0)).
Proof.
  destruct w0 as [[u p t] inb tr]. cbn [api _token inbox trace]. intros -> -> Hs Hd Hm He.
  apply is_none_true in Hd.
  cbn [getData_budget].
  unfold getData_except, _build_headers, fetch_status_json, v4_no_data_fallback,
    _resolve_status_url, record, after_post, clear_token.
  exec. repeat (rewrite _ensure_token_spec; exec).
  rewrite Hs. exec. rewrite Hd. exec.
  change (endswith _WallboxURL_V4 "GetEvChargerMoreView") with true. rewrite Hm. exec.
  rewrite He. exec. apply getData_budget_except.
Qed.

Lemma posts_first_request (renew : bool) (w w0 : world) (tok : token) :
  first_request renew w = Some (tok, w0) ->
  posts (trace w0) = posts (trace w) \/
  posts (trace w0) =
    posts (trace w) ++ [Post _LoginURL DefaultHeaders (login_payload (api w))].
Proof.
  intros Hfirst.
  destruct (first_request_world _ _ _ _ Hfirst) as (_ & _ & _ & [[_ ->] | (_ & _ & _ & ->)]).
  - by left.
  - right. by rewrite posts_app.
Qed.

(** C7, as amended: a call of [getData] with [maxTokenRetries >= 0]
    that gets to its status request, with the cached token or after a
    login of its own, sends that request to the v4 endpoint when the switch
    is on and to the v3 endpoint when it is off (as shipped).  With v4 in
    use, a 404 is followed by the same request to v3; a response without
    [data] whose [msg] has the vendor's word for success is followed by
    one request to v3, which is the last request of the call unless its
    response says that the authorization has expired and a retry is left;
    then, as whenever that is said, the token is cleared and the call starts
    over with a renewal and one retry less.  A response without [data]
    whose [msg] lacks that word is followed by no request to v3: the call
    ends with [None], or starts over in that way when the message says the
    authorization has expired. *)
Theorem status_fetch_falls_back_to_v3 (v renew : bool) (tok : token) (sn : string)
    (r : Z) (w w0 : world) :
  0 <= r ->
  first_request renew w = Some (tok, w0) ->
  let h := TokenHeaders (Some tok) in
  let p := status_payload sn in
  let run := getData v sn renew r w in
  let does (es : list event) := exists tl, trace (snd run) = trace w0 ++ es ++ tl in
  _resolve_status_url v = (if v then _WallboxURL_V4 else _WallboxURL_V3) /\
  _resolve_status_url _USE_V4_STATUS = _WallboxURL_V3 /\
  (posts (trace w0) = posts (trace w) \/
   posts (trace w0) =
     posts (trace w) ++ [Post _LoginURL DefaultHeaders (login_payload (api w))]) /\
  does [Post (_resolve_status_url v) h p] /\
  (v = true -> forall body rest,
     inbox w0 = Http 404 body :: rest ->
     does [Post _WallboxURL_V4 h p; WARN_404; Post _WallboxURL_V3 h p]) /\
  (v = true -> forall s j rest,
     inbox w0 = Http s (Some (VDict j)) :: rest ->
     http_error s = false ->
     is_none (dict_get j "data") = true ->
     let msg := py_str (dict_get_default j "msg" (VStr "")) in
     (contains SUCCESS_MARK msg = true ->
      (exists tl,
         trace (snd run) =
           trace w0 ++ [Post _WallboxURL_V4 h p; WARN_NO_DATA; Post _WallboxURL_V3 h p] ++ tl /\
         (r = 0 \/ fallback_expired msg (head rest) = false -> posts tl = [])) /\
      (fallback_expired msg (head rest) = true ->
       run = getData true sn true (r - 1) (clear_token (after_fallback tok sn w0)))) /\
     (contains SUCCESS_MARK msg = false ->
      (expired msg = false ->
       run = (Ok VNone,
              record [Log ERROR "Unable to fetch data from SEMS, message"]
                (after_post _WallboxURL_V4 h p w0))) /\
      (expired msg = true ->
       run = getData true sn true (r - 1) (clear_token (after_post _WallboxURL_V4 h p w0))))).
Proof.
  intros Hr Hfirst. cbn zeta.
  destruct (first_request_world _ _ _ _ Hfirst) as (Ht & _).
  unfold getData. rewrite to_nat_succ by exact Hr.
  replace (Z.to_nat (r - 1 + 1)) with (Z.to_nat r) by lia.
  rewrite (getData_first_request _ _ _ _ _ _ _ Hfirst).
  split; [reflexivity|]. split; [reflexivity|].
  split; [exact (posts_first_request _ _ _ _ Hfirst)|].
  split; [|split].
  - apply (getData_starts_as_fetch v tok); [exact Ht|]. apply fetch_starts_with_request.
  - intros -> body rest Hin. apply (getData_starts_as_fetch true tok); [exact Ht|].
    by apply (fetch_v4_404 _ _ body rest).
  - intros -> s j rest Hin Hs Hd. split.
    + intros Hm.
      destruct (getData_v4_fallback_run tok (Z.to_nat r) sn s j rest w0 Ht Hin Hs Hd Hm)
        as [Hexp Hlast].
      split; [|exact Hexp].
      destruct (fallback_expired _ (head rest)) eqn:E.
      * rewrite (Hexp eq_refl).
        destruct (extends_getData_budget true (Z.to_nat r) sn true
                    (clear_token (after_fallback tok sn w0))) as (tl & Htl).
        exists (TokenCleared :: tl). split.
        -- rewrite Htl. unfold clear_token, after_fallback, record, after_post.
           cbn [trace]. rewrite <- !app_assoc. reflexivity.
        -- intros [-> | ?]; [|discriminate].
           change (Z.to_nat 0) with 0%nat in Htl. rewrite getData_budget_O in Htl.
           cbn [snd record trace] in Htl. apply app_inv_head in Htl. by subst tl.
      * destruct (Hlast eq_refl) as (tl & Htl & Hp). exists tl. split; [|done].
        rewrite Htl. unfold after_fallback, record, after_post. cbn [trace].
        rewrite <- !app_assoc. reflexivity.
    + intros Hm. split.
      * intros He. by apply (getData_v4_no_mark_no_retry tok _ sn s j rest).
      * intros He. by apply (getData_v4_no_mark_expired tok _ sn s j rest).
Qed.
End EndpointsOfEveryCall.

(** * Concrete runs *)

(** The two builtins left open above play no part in these runs. *)
Definition plain_builtins : Builtins :=
  {| py_repr := fun _ => "<object>"; float_of_str := fun _ => Raise ValueError |}.

Definition tok0 : gmap string value := {[ "uid" := VStr "u-1"; "token" := VStr "t-0" ]}.
Definition tok1 : gmap string value := {[ "uid" := VStr "u-1"; "token" := VStr "t-1" ]}.

Definition client0 : SemsApi := mkSemsApi "user@example.org" "secret" (Some tok0).

(** A world with the token [tok0] cached, the given replies to come and
    nothing done yet. *)
Definition world0 (replies : list reply) : world := mkWorld client0 replies [].

Definition expired_body : value :=
  VDict {[ "hasError" := VBool false; "code" := VInt 100002;
           "msg" := VStr "The authorization has expired, please log in again.";
           "data" := VNone ]}.

Definition login_ok_body : value :=
  VDict {[ "hasError" := VBool false; "code" := VInt 0; "msg" := VStr "Successful";
           "data" := VDict tok1; "api" := VStr "https://eu.semsportal.com/api/" ]}.

Definition reading0 : gmap string value :=
  {[ "sn" := VStr "SN1"; "model" := VStr "GW11K-HCA"; "fireware" := VStr "1.0";
     "status" := VStr "EVDetail_Status_Title_Waiting"; "power" := VFloat 0;
     "chargeEnergy" := VStr "12.5"; "chargeMode" := VInt 1;
     "max_charge_power" := VInt 11 ]}.

Definition data_body (r : gmap string value) : value :=
  VDict {[ "hasError" := VBool false; "code" := VInt 0; "msg" := VStr "success";
           "data" := VDict r ]}.

(** The vendor refuses a command in a response with status 200. *)
Definition vendor_error_body : value :=
  VDict {[ "hasError" := VBool true; "code" := VInt 100001;
           "msg" := VStr "The device is offline"; "data" := VNone ]}.

(** A successful answer that carries no [data] and says so in English. *)
Definition success_no_data_body : value :=
  VDict {[ "hasError" := VBool false; "code" := VInt 0; "msg" := VStr "success" ]}.

Definition requests_to (url : string) (tr : list event) : list event :=
  List.filter (fun e => match e with Post u _ _ => String.eqb u url | _ => false end) tr.

(** C1 as it is stated: exactly one clearing of the token, one login
    and one retry, that is two requests to the command's address. *)
Definition one_clearing_one_login_one_retry (url : string) (tr : list event) : Prop :=
  length (clearings tr) = 1%nat /\
  length (requests_to _LoginURL tr) = 1%nat /\
  length (requests_to url tr) = 2%nat.

Definition twice_expired : world :=
  world0 [Http 200 (Some expired_body); Http 200 (Some login_ok_body);
          Http 200 (Some expired_body)].

Definition expired_then_no_login : world :=
  world0 [Http 200 (Some expired_body); NetFail; Http 200 (Some (data_body reading0))].

Definition expired_then_fine : world :=
  world0 [Http 200 (Some expired_body); Http 200 (Some login_ok_body);
          Http 200 (Some (data_body reading0))].

(** C1, counterexample: when the retry is answered with the same expiry
    message, [getData] clears the token a second time; and when the login
    fails, no function retries its request. *)
Lemma expired_twice_or_login_failed :
  ~ one_clearing_one_login_one_retry _WallboxURL_V3
      (trace (snd (getData (H := plain_builtins) _USE_V4_STATUS "SN1" false 1
                     twice_expired))) /\
  ~ one_clearing_one_login_one_retry _WallboxURL_V3
      (trace (snd (getData (H := plain_builtins) _USE_V4_STATUS "SN1" false 1
                     expired_then_no_login))) /\
  ~ one_clearing_one_login_one_retry _PowerControlURL
      (trace (snd (change_status (H := plain_builtins) "SN1" 1 false 1
                     expired_then_no_login))) /\
  ~ one_clearing_one_login_one_retry _SetChargeModeURL
      (trace (snd (set_charge_mode (H := plain_builtins) "SN1" (VInt 0) VNone false 1
                     expired_then_no_login))).
Proof.
  repeat split; intros (H1 & H2 & H3); vm_compute in H1, H3; discriminate.
Qed.

Lemma exhausted_retries_fail_update_witness :
  -1 < 0 /\
  fst (getData (H := plain_builtins) _USE_V4_STATUS "SN1" true (-1) twice_expired)
    = Raise OutOfRetries /\
  fst (_async_update_data (H := plain_builtins) "SN1" twice_expired)
    = Raise (UpdateFailed TooManyRetries).
Proof.
  assert (Hneg : -1 < 0) by lia.
  destruct (exhausted_retries_fail_update (H := plain_builtins) _USE_V4_STATUS "SN1" true
              (-1) twice_expired "SN1" twice_expired Hneg) as [Hraise Hpoll].
  split; [exact Hneg|]. split; [exact Hraise|].
  apply Hpoll. by vm_compute.
Defined.

Definition failing_reply : world := world0 [Http 500 None].

(** C3, counterexample: a vendor error that arrives with status 200 is
    not noticed by the commands: nothing is logged, and the trace is the
    one of a command that succeeded. *)
Lemma command_ignores_vendor_error :
  let refused := world0 [Http 200 (Some vendor_error_body)] in
  let accepted := world0 [Http 200 (Some (data_body ∅))] in
  change_status (H := plain_builtins) "SN1" 1 false 1 refused =
    (Ok tt,
     mkWorld client0 []
       [Post _PowerControlURL (TokenHeaders (Some tok0)) (change_status_payload "SN1" 1)]) /\
  failure_logged
    (trace (snd (change_status (H := plain_builtins) "SN1" 1 false 1 refused))) = false /\
  change_status (H := plain_builtins) "SN1" 1 false 1 refused =
    change_status (H := plain_builtins) "SN1" 1 false 1 accepted /\
  failure_logged
    (trace (snd (set_charge_mode (H := plain_builtins) "SN1" (VInt 0) (VFloat 6) false 1
                   refused))) = false /\
  set_charge_mode (H := plain_builtins) "SN1" (VInt 0) (VFloat 6) false 1 refused =
    set_charge_mode (H := plain_builtins) "SN1" (VInt 0) (VFloat 6) false 1 accepted.
Proof. cbv zeta. repeat split; by vm_compute. Qed.

Definition fine_reply : world := world0 [Http 200 (Some (data_body reading0))].

Definition reading_without_sn : gmap string value := delete "sn" reading0.

Lemma update_holds_one_reading_witness :
  fst (_async_update_data (H := plain_builtins) "SN1" fine_reply)
    = Ok [(VStr "SN1", reading0)] /\
  data_get [(VStr "SN1", reading0)] "SN1" = reading0 /\
  fst (_async_update_data (H := plain_builtins) "SN1"
         (world0 [Http 200 (Some (data_body reading_without_sn))]))
    = Raise (UpdateFailed MissingSn).
Proof.
  assert (Hok : fst (_async_update_data (H := plain_builtins) "SN1" fine_reply)
                = Ok [(VStr "SN1", reading0)]) by (by vm_compute).
  split; [exact Hok|].
  destruct (update_holds_one_reading (H := plain_builtins) "SN1" fine_reply)
    as [Hone _].
  destruct (Hone _ Hok) as (fetched & Hget & Hsn & [= Heq <-] & _ & Hlookup).
  split.
  - apply (Hlookup "SN1"). by rewrite <- Heq.
  - destruct (update_holds_one_reading (H := plain_builtins) "SN1"
                (world0 [Http 200 (Some (data_body reading_without_sn))])) as [_ Hnone].
    apply (Hnone reading_without_sn); [by vm_compute|]. left. by vm_compute.
Defined.

(** C7, counterexample: with the v4 endpoint in use, a response with
    status 200 that reports success in English and carries no [data] is not
    followed by a request to v3: the fetch ends there with [None]. *)
Lemma v4_success_without_data_not_retried :
  let w := world0 [Http 200 (Some success_no_data_body);
                   Http 200 (Some (data_body reading0))] in
  let after := getData (H := plain_builtins) true "SN1" false 1 w in
  fst after = Ok VNone /\
  requests_to _WallboxURL_V3 (trace (snd after)) = [] /\
  posts (trace (snd after)) =
    [Post _WallboxURL_V4 (TokenHeaders (Some tok0)) (status_payload "SN1")].
Proof. cbv zeta. repeat split; by vm_compute. Qed.

Definition v4_not_found : world :=
  world0 [Http 404 None; Http 200 (Some (data_body reading0))].

Definition number0 : SemsNumber.t := SemsNumber.mk "SN1" None.

Lemma charge_power_command_witness :
  SemsNumber.in_range 7.5 = true /\
  SemsNumber.in_range 4.2 = true /\
  SemsNumber.async_set_native_value [(VStr "SN1", reading0)] number0 7.5 =
    (SemsNumber.mk "SN1" (Some 7.5%float),
     [WriteHaState; CallSetChargeMode "SN1" (VInt 0) (VFloat 7.5); RequestRefresh]) /\
  SemsNumber.async_set_native_value [(VStr "SN1", reading0)] number0 4.2 =
    (SemsNumber.mk "SN1" (Some 4.2%float),
     [WriteHaState; CallSetChargeMode "SN1" (VInt 1) (VFloat 4.2); RequestRefresh]).
Proof.
  split; [reflexivity|]. split; [reflexivity|]. split.
  - destruct (charge_power_command [(VStr "SN1", reading0)] number0 7.5 eq_refl)
      as (_ & _ & _ & _ & Habove & _).
    exact (Habove eq_refl).
  - destruct (charge_power_command [(VStr "SN1", reading0)] number0 4.2 eq_refl)
      as (_ & _ & _ & _ & _ & Hbelow & _).
    rewrite (Hbelow eq_refl). by vm_compute.
Defined.

Definition switch0 : SemsSwitch.t := SemsSwitch.mk "SN1" false None None.

Definition reading_charging : gmap string value :=
  <["status" := VStr "EVDetail_Status_Title_Charging"]> (<["power" := VFloat 7.2]> reading0).

Lemma switch_grace_period_witness :
  let on := fst (SemsSwitch.async_turn_on switch0 1000) in
  SemsSwitch.api_is_on (H := plain_builtins) reading0 = Ok false /\
  SemsSwitch.api_is_on (H := plain_builtins) reading_charging = Ok true /\
  (1060 - 1000 <? 130)%float = true /\
  SemsSwitch._compute_is_on_from_data (H := plain_builtins) on 1060 reading0
    = Ok (true, on) /\
  SemsSwitch.handle_updates (H := plain_builtins) on
    [(1060%float, [(VStr "SN1", reading0)]); (1120%float, [(VStr "SN1", reading0)])]
    = Ok ([true; true], on) /\
  SemsSwitch._compute_is_on_from_data (H := plain_builtins) on 1060 reading_charging
    = Ok (true, cleared on) /\
  SemsSwitch._compute_is_on_from_data (H := plain_builtins) (cleared on) 1070 reading0
    = Ok (false, cleared on).
Proof.
  cbv zeta.
  assert (Hoff : SemsSwitch.api_is_on (H := plain_builtins) reading0 = Ok false)
    by (by vm_compute).
  assert (Hon : SemsSwitch.api_is_on (H := plain_builtins) reading_charging = Ok true)
    by (by vm_compute).
  split; [exact Hoff|]. split; [exact Hon|]. split; [reflexivity|].
  destruct (switch_grace_period (H := plain_builtins) switch0 1000 1060 reading0
              [(1060%float, [(VStr "SN1", reading0)]);
               (1120%float, [(VStr "SN1", reading0)])])
    as (_ & _ & Hgrace & _ & _ & _ & _ & _ & _).
  split; [exact (Hgrace eq_refl Hoff)|].
  split; [by vm_compute|].
  destruct (switch_grace_period (H := plain_builtins) switch0 1000 1060 reading_charging [])
    as (_ & _ & _ & _ & _ & _ & Hagree & _ & _).
  split; [exact (Hagree Hon)|].
  destruct (switch_grace_period (H := plain_builtins) switch0 1000 1070 reading0 [])
    as (_ & _ & _ & _ & _ & _ & _ & _ & Hdirect).
  exact (proj1 (Hdirect false Hoff)).
Defined.

(** ** Further concrete runs *)

(** X8 on two expired responses with a successful login in between. *)
Lemma too_many_retries_iff_expired_twice_witness :
  _token (api twice_expired) = Some tok0 /\
  fst (_async_update_data (H := plain_builtins) "SN1" twice_expired)
    = Raise (UpdateFailed TooManyRetries).
Proof.
  split; [reflexivity|].
  apply (too_many_retries_iff_expired_twice (H := plain_builtins) "SN1" tok0 twice_expired
           eq_refl).
  split; [|split].
  - eexists _, _. split; [reflexivity|]. split; [reflexivity|]. split; by vm_compute.
  - by vm_compute.
  - eexists _, _. split; [reflexivity|]. split; [reflexivity|]. split; by vm_compute.
Defined.

(** A client that has not logged in yet, a login that succeeds and a
    reading. *)
Definition first_poll : world :=
  mkWorld (mkSemsApi "user@example.org" "secret" None)
    [Http 200 (Some login_ok_body); Http 200 (Some (data_body reading0))] [].

(** X9 on a successful login followed by a reading. *)
Lemma first_poll_logs_in_then_fetches_witness :
  _token (api first_poll) = None /\
  login_token_of (Some (Http 200 (Some login_ok_body)))
    = Some (<["api" := VStr "https://eu.semsportal.com/api/"]> tok1) /\
  fst (getData (H := plain_builtins) _USE_V4_STATUS "SN1" false 1 first_poll)
    = Ok (VDict reading0) /\
  _token (api (snd (getData (H := plain_builtins) _USE_V4_STATUS "SN1" false 1 first_poll)))
    = Some (<["api" := VStr "https://eu.semsportal.com/api/"]> tok1).
Proof.
  assert (Hlogin : login_token_of (Some (Http 200 (Some login_ok_body)))
                   = Some (<["api" := VStr "https://eu.semsportal.com/api/"]> tok1))
    by (by vm_compute).
  split; [reflexivity|]. split; [exact Hlogin|].
  rewrite (first_poll_logs_in_then_fetches (H := plain_builtins) "SN1" 1 first_poll
             (Http 200 (Some login_ok_body))
             (<["api" := VStr "https://eu.semsportal.com/api/"]> tok1) 200
             {[ "hasError" := VBool false; "code" := VInt 0; "msg" := VStr "success";
                "data" := VDict reading0 ]} []
             ltac:(lia) eq_refl eq_refl Hlogin eq_refl ltac:(by vm_compute)).
  split; by vm_compute.
Defined.

(** A client that has not logged in, and a network that is down. *)
Definition no_network : world :=
  mkWorld (mkSemsApi "user@example.org" "secret" None) [NetFail] [].

(** X10 on a network that is down. *)
Lemma failed_login_fails_the_poll_witness :
  _token (api no_network) = None /\
  login_token_of (head (inbox no_network)) = None /\
  fst (_async_update_data (H := plain_builtins) "SN1" no_network)
    = Raise (UpdateFailed NoDataReceived) /\
  length (posts (trace (snd (_async_update_data (H := plain_builtins) "SN1" no_network))))
    = 1%nat.
Proof.
  split; [reflexivity|]. split; [reflexivity|].
  destruct (failed_login_fails_the_poll (H := plain_builtins) "SN1" no_network
              eq_refl eq_refl) as (Hfail & Hposts & _).
  split; [exact Hfail|]. by rewrite Hposts.
Defined.

(** The vendor sends the reading wrapped in a list. *)
Definition reading_in_a_list : gmap string value :=
  {[ "hasError" := VBool false; "code" := VInt 0; "msg" := VStr "success";
     "data" := VList [VDict reading0] ]}.

(** X12 on a reading wrapped in a list. *)
Lemma malformed_reading_escapes_the_poll_witness :
  _token (api (world0 [Http 200 (Some (VDict reading_in_a_list))])) = Some tok0 /\
  http_error 200 = false /\
  fst (_async_update_data (H := plain_builtins) "SN1"
         (world0 [Http 200 (Some (VDict reading_in_a_list))])) = Raise AttributeError.
Proof.
  split; [reflexivity|]. split; [reflexivity|].
  destruct (malformed_reading_escapes_the_poll (H := plain_builtins) "SN1" tok0
              (world0 [Http 200 (Some (VDict reading_in_a_list))]) 200 reading_in_a_list []
              eq_refl eq_refl eq_refl) as [Hlist _].
  apply Hlist; by vm_compute.
Defined.

Definition select0 : InverterOperationModeEntity.t :=
  InverterOperationModeEntity.mk "SN1" InverterOperationModeEntity.supported_options "Fast"
    (VInt 11).

Lemma select0_shows_an_option : shows_an_option select0.
Proof.
  split; [reflexivity|]. apply supported_options_labels. by left.
Qed.

(** X17 on a known and an unknown label. *)
Lemma select_keeps_showing_an_option_witness :
  shows_an_option select0 /\
  shows_an_option (fst (InverterOperationModeEntity.async_select_option select0 "PV priority")) /\
  shows_an_option (fst (InverterOperationModeEntity.async_select_option select0 "Eco")).
Proof.
  destruct (select_keeps_showing_an_option select0 select0_shows_an_option) as [Hsel _].
  split; [exact select0_shows_an_option|]. split; apply Hsel.
Defined.

(** X18 on the label of mode 1. *)
Lemma selected_option_survives_the_poll_witness :
  InverterOperationModeEntity._OPTION_TO_MODE !! "PV priority" = Some 1 /\
  data_index [(VStr "SN1", reading0)] "SN1" = Ok reading0 /\
  InverterOperationModeEntity._handle_coordinator_update
    (fst (InverterOperationModeEntity.async_select_option select0 "PV priority"))
    [(VStr "SN1", reading0)] =
  Ok (InverterOperationModeEntity.mk "SN1" InverterOperationModeEntity.supported_options
        "PV priority" (VInt 11), [WriteHaState]).
Proof.
  split; [by vm_compute|]. split; [reflexivity|].
  apply (selected_option_survives_the_poll select0 "PV priority" 1 [(VStr "SN1", reading0)]
           reading0 (VInt 11)); by vm_compute.
Defined.

(** A reading with a charge mode the integration does not know. *)
Definition reading_mode_7 : gmap string value := <["chargeMode" := VInt 7]> reading0.

(** X19 on a reading with charge mode 7. *)
Lemma unknown_mode_keeps_the_option_witness :
  ~ 0 <= 7 <= 2 /\
  InverterOperationModeEntity._handle_coordinator_update select0
    [(VStr "SN1", reading_mode_7)] =
  Ok (select0, [LogWarning "Unknown chargeMode in coordinator update"; WriteHaState]).
Proof.
  split; [lia|].
  apply (unknown_mode_keeps_the_option select0 [(VStr "SN1", reading_mode_7)]
           reading_mode_7 7 (VInt 11) "Fast"); [reflexivity|by vm_compute|by vm_compute|lia].
Defined.

(** X20 on a reading without [set_charge_power]. *)
Lemma number_follows_the_wallbox_witness :
  data_index [(VStr "SN1", reading0)] "SN1" = Ok reading0 /\
  dict_get reading0 "set_charge_power" = VNone /\
  SemsNumber._handle_coordinator_update (H := plain_builtins)
    (fst (SemsNumber.async_set_native_value [(VStr "SN1", reading0)] number0 7.5%float))
    [(VStr "SN1", reading0)] =
  Ok (SemsNumber.mk "SN1" (Some 7.5%float), [WriteHaState]).
Proof.
  split; [reflexivity|]. split; [by vm_compute|].
  destruct (number_follows_the_wallbox (H := plain_builtins) number0
              [(VStr "SN1", reading0)] reading0 7.5%float eq_refl) as [Hnone _].
  apply Hnone. by vm_compute.
Defined.

(** X21 ten seconds after a turn-on command. *)
Lemma switch_overrides_only_within_grace_witness :
  SemsSwitch.api_is_on (H := plain_builtins) reading0 = Ok false /\
  SemsSwitch._compute_is_on_from_data (H := plain_builtins)
    (fst (SemsSwitch.async_turn_on switch0 0%float)) 10%float reading0 =
  Ok (true, fst (SemsSwitch.async_turn_on switch0 0%float)) /\
  exists t0 : float,
    SemsSwitch._last_command_ts (fst (SemsSwitch.async_turn_on switch0 0%float)) = Some t0 /\
    (10 - t0 <? 130)%float = true.
Proof.
  assert (Hrun : SemsSwitch._compute_is_on_from_data (H := plain_builtins)
                   (fst (SemsSwitch.async_turn_on switch0 0%float)) 10%float reading0 =
                 Ok (true, fst (SemsSwitch.async_turn_on switch0 0%float)))
    by (by vm_compute).
  assert (Hapi : SemsSwitch.api_is_on (H := plain_builtins) reading0 = Ok false)
    by (by vm_compute).
  split; [exact Hapi|]. split; [exact Hrun|].
  destruct (switch_overrides_only_within_grace (H := plain_builtins)
              (fst (SemsSwitch.async_turn_on switch0 0%float)) 10%float reading0 false true
              (fst (SemsSwitch.async_turn_on switch0 0%float)) Hapi Hrun)
    as (Hover & _ & _).
  destruct (Hover ltac:(discriminate)) as (_ & _ & Hgrace). exact Hgrace.
Defined.

(** A reading whose power is no number. *)
Definition reading_bad_power : gmap string value :=
  <["power" := VList [VInt 1]]> reading0.

(** X23 on a power that is a list. *)
Lemma bad_power_reading_witness :
  data_index [(VStr "SN1", reading_bad_power)] "SN1" = Ok reading_bad_power /\
  SemsPowerSensor.native_value (H := plain_builtins) [(VStr "SN1", reading_bad_power)] "SN1"
    = Ok 0%float /\
  SemsSwitch._handle_coordinator_update (H := plain_builtins) switch0 0%float
    [(VStr "SN1", reading_bad_power)] = Raise TypeError.
Proof.
  split; [reflexivity|].
  destruct (bad_power_reading (H := plain_builtins) [(VStr "SN1", reading_bad_power)] "SN1"
              reading_bad_power 0%float switch0 eq_refl eq_refl
              ltac:(left; by vm_compute)) as (Hpower & e & _ & Hupdate & _).
  split; [exact Hpower|]. rewrite Hupdate. by vm_compute in Hupdate.
Defined.

(** X24 on a turn-on. *)
Lemma switch_commands_on_the_wire_witness :
  _token (api fine_reply) = Some tok0 /\
  auth_expired (H := plain_builtins) (Some (data_body reading0)) = false /\
  posts (trace (snd (run_action (H := plain_builtins) (CallChangeStatus "SN1" 1) fine_reply)))
    = [Post _PowerControlURL (TokenHeaders (Some tok0))
         (VDict {[ "sn" := VStr "SN1"; "status" := VStr "1" ]})].
Proof.
  split; [reflexivity|]. split; [by vm_compute|].
  destruct (switch_commands_on_the_wire (H := plain_builtins) switch0 0%float tok0
              (Some (data_body reading0)) [] fine_reply eq_refl eq_refl
              ltac:(by vm_compute)) as (_ & Hon & _).
  cbn [SemsSwitch.sn switch0] in Hon. by rewrite Hon.
Defined.

(** X25 without a charge power. *)
Lemma charge_power_on_the_wire_witness :
  _token (api fine_reply) = Some tok0 /\
  auth_expired (H := plain_builtins) (Some (data_body reading0)) = false /\
  exists payload : gmap string value,
    posts (trace (snd (run_action (H := plain_builtins)
                         (CallSetChargeMode "SN1" (VInt 1) VNone) fine_reply)))
      = [Post _SetChargeModeURL (TokenHeaders (Some tok0)) (VDict payload)] /\
    payload !! "charge_power" = None.
Proof.
  split; [reflexivity|]. split; [by vm_compute|].
  destruct (charge_power_on_the_wire (H := plain_builtins) "SN1" (VInt 1) VNone tok0
              (Some (data_body reading0)) [] fine_reply eq_refl eq_refl
              ltac:(by vm_compute)) as (payload & Hrun & _ & _ & Hpower & _).
  exists payload. rewrite Hrun. split; [reflexivity|exact Hpower].
Defined.

(** ** Concrete runs of the amended claims *)

(** A client without a token: the login succeeds, the status request is
    answered with the expiry message, and the login after it fails. *)
Definition login_then_expired : world :=
  mkWorld (mkSemsApi "user@example.org" "secret" None)
    [Http 200 (Some login_ok_body); Http 200 (Some expired_body); NetFail;
     Http 200 (Some (data_body reading0))] [].

Definition tok1_api : gmap string value :=
  <["api" := VStr "https://eu.semsportal.com/api/"]> tok1.

(** C1 on two expired responses with a cached token, and on an expired
    response to a client that had to log in first. *)
Lemma expired_authorization_one_relogin_witness :
  first_request false twice_expired = Some (tok0, twice_expired) /\
  auth_expired (H := plain_builtins) (Some expired_body) = true /\
  getData (H := plain_builtins) _USE_V4_STATUS "SN1" false 1 twice_expired =
    (Raise OutOfRetries,
     mkWorld (mkSemsApi "user@example.org" "secret" None) []
       [Post _WallboxURL_V3 (TokenHeaders (Some tok0)) (status_payload "SN1");
        TokenCleared;
        Post _LoginURL DefaultHeaders (login_payload client0);
        TokenStored tok1_api;
        Post _WallboxURL_V3 (TokenHeaders (Some tok1_api)) (status_payload "SN1");
        TokenCleared;
        Log INFO "SEMS - Maximum token fetch tries reached, aborting for now"]) /\
  change_status (H := plain_builtins) "SN1" 1 false 1 twice_expired =
    (Ok tt,
     mkWorld (mkSemsApi "user@example.org" "secret" (Some tok1_api)) []
       [Post _PowerControlURL (TokenHeaders (Some tok0)) (change_status_payload "SN1" 1);
        TokenCleared;
        Post _LoginURL DefaultHeaders (login_payload client0);
        TokenStored tok1_api;
        Post _PowerControlURL (TokenHeaders (Some tok1_api)) (change_status_payload "SN1" 1);
        Log WARNING "Power control command not successful"]) /\
  first_request false login_then_expired
    = Some (tok1_api, after_login login_then_expired) /\
  posts (trace (snd (getData (H := plain_builtins) _USE_V4_STATUS "SN1" false 1
                       login_then_expired))) =
    [Post _LoginURL DefaultHeaders (login_payload client0);
     Post _WallboxURL_V3 (TokenHeaders (Some tok1_api)) (status_payload "SN1");
     Post _LoginURL DefaultHeaders (login_payload client0)] /\
  fst (getData (H := plain_builtins) _USE_V4_STATUS "SN1" false 1 login_then_expired)
    = Ok VNone.
Proof.
  assert (Hfirst : first_request false twice_expired = Some (tok0, twice_expired))
    by reflexivity.
  assert (Hexp : auth_expired (H := plain_builtins) (Some expired_body) = true)
    by (by vm_compute).
  assert (Hlogin : first_request false login_then_expired
                   = Some (tok1_api, after_login login_then_expired)) by (by vm_compute).
  split; [exact Hfirst|]. split; [exact Hexp|].
  destruct (expired_authorization_one_relogin (H := plain_builtins) false tok0 "SN1" 1
              (VInt 0) VNone 200 (Some expired_body)
              [Http 200 (Some login_ok_body); Http 200 (Some expired_body)]
              twice_expired twice_expired Hfirst eq_refl Hexp)
    as (Hget & (_ & _ & Hcmd) & _).
  destruct (Hget eq_refl) as (_ & _ & Htwice).
  split; [exact (Htwice tok1_api 200 (Some expired_body) [] ltac:(by vm_compute) eq_refl
                   eq_refl Hexp)|].
  split; [exact (Hcmd tok1_api 200 (Some expired_body) [] ltac:(by vm_compute) eq_refl Hexp)|].
  split; [exact Hlogin|].
  destruct (expired_authorization_one_relogin (H := plain_builtins) false tok1_api "SN1"
              1 (VInt 0) VNone 200 (Some expired_body)
              [NetFail; Http 200 (Some (data_body reading0))]
              login_then_expired (after_login login_then_expired) Hlogin
              ltac:(by vm_compute) Hexp)
    as (Hget' & _).
  destruct (Hget' eq_refl) as ((tl & Htl & Hposts) & Hnone & _).
  split; [|exact (Hnone eq_refl)].
  rewrite Htl. change (?a :: ?b :: ?c :: tl) with ([a; b; c] ++ tl).
  rewrite !posts_app, Hposts. by vm_compute.
Defined.

(** A poll whose repeated request, after an expired authorization and a
    successful login, is answered with a server error. *)
Definition retry_fails : world :=
  world0 [Http 200 (Some expired_body); Http 200 (Some login_ok_body); Http 500 None].

(** C3 on a server error at the first request, and at the repeated
    request. *)
Lemma errors_fail_the_poll_and_are_logged_witness :
  first_request false failing_reply = Some (tok0, failing_reply) /\
  fetch_failed (H := plain_builtins) (head (inbox failing_reply)) = true /\
  fst (_async_update_data (H := plain_builtins) "SN1" failing_reply)
    = Raise (UpdateFailed NoDataReceived) /\
  first_request false retry_fails = Some (tok0, retry_fails) /\
  fetch_failed (H := plain_builtins) (Some (Http 500 None)) = true /\
  fst (_async_update_data (H := plain_builtins) "SN1" retry_fails)
    = Raise (UpdateFailed NoDataReceived) /\
  failure_logged
    (trace (snd (change_status (H := plain_builtins) "SN1" 1 false 1 retry_fails))) = true.
Proof.
  split; [reflexivity|]. split; [reflexivity|].
  destruct (errors_fail_the_poll_and_are_logged (H := plain_builtins) "SN1" "SN1" 1
              (VInt 0) VNone false failing_reply) as [_ Hfirst].
  destruct (Hfirst tok0 failing_reply eq_refl) as (Hfetch & _).
  destruct (Hfetch eq_refl) as (text & _ & Hpoll).
  split; [exact (Hpoll eq_refl)|].
  split; [reflexivity|]. split; [reflexivity|].
  destruct (errors_fail_the_poll_and_are_logged (H := plain_builtins) "SN1" "SN1" 1
              (VInt 0) VNone false retry_fails) as [_ Hretry].
  destruct (Hretry tok0 retry_fails eq_refl) as (_ & _ & _ & Hexpired).
  destruct (Hexpired 200 (Some expired_body)
              [Http 200 (Some login_ok_body); Http 500 None] eq_refl
              ltac:(by vm_compute)) as [_ Hagain].
  destruct (Hagain tok1_api ltac:(by vm_compute)) as [Hget Hcmd].
  destruct (Hget eq_refl eq_refl) as (text' & _ & Hpoll').
  split; [exact (Hpoll' eq_refl)|].
  destruct (Hcmd eq_refl) as (lvl & t1 & t2 & Hlvl & -> & _).
  cbn [snd record trace]. unfold failure_logged. rewrite existsb_app.
  destruct Hlvl as [-> | ->]; cbn; by rewrite orb_true_r.
Defined.

(** The vendor's answer that reports success and carries no [data]. *)
Definition success_mark_no_data : gmap string value :=
  {[ "hasError" := VBool false; "code" := VInt 0; "msg" := VStr "操作成功" ]}.

Definition v4_no_data : world :=
  world0 [Http 200 (Some (VDict success_mark_no_data)); Http 200 (Some (data_body reading0))].

Definition v4_no_word : world :=
  world0 [Http 200 (Some success_no_data_body); Http 200 (Some (data_body reading0))].

(** C7 on a 404, on a response without data with and without the
    vendor's word for success, and on a client that logs in first. *)
Lemma status_fetch_falls_back_to_v3_witness :
  0 <= 1 /\
  first_request false v4_not_found = Some (tok0, v4_not_found) /\
  (exists tl,
     trace (snd (getData (H := plain_builtins) true "SN1" false 1 v4_not_found)) =
       trace v4_not_found ++
       [Post _WallboxURL_V4 (TokenHeaders (Some tok0)) (status_payload "SN1");
        WARN_404;
        Post _WallboxURL_V3 (TokenHeaders (Some tok0)) (status_payload "SN1")] ++ tl) /\
  first_request false v4_no_data = Some (tok0, v4_no_data) /\
  (exists tl,
     trace (snd (getData (H := plain_builtins) true "SN1" false 1 v4_no_data)) =
       trace v4_no_data ++
       [Post _WallboxURL_V4 (TokenHeaders (Some tok0)) (status_payload "SN1");
        WARN_NO_DATA;
        Post _WallboxURL_V3 (TokenHeaders (Some tok0)) (status_payload "SN1")] ++ tl /\
     posts tl = []) /\
  getData (H := plain_builtins) true "SN1" false 1 v4_no_word =
    (Ok VNone,
     record [Log ERROR "Unable to fetch data from SEMS, message"]
       (after_post _WallboxURL_V4 (TokenHeaders (Some tok0)) (status_payload "SN1")
          v4_no_word)) /\
  first_request false first_poll = Some (tok1_api, after_login first_poll) /\
  (exists tl,
     trace (snd (getData (H := plain_builtins) _USE_V4_STATUS "SN1" false 1 first_poll)) =
       trace (after_login first_poll) ++
       [Post _WallboxURL_V3 (TokenHeaders (Some tok1_api)) (status_payload "SN1")] ++ tl).
Proof.
  assert (Hr : 0 <= 1) by lia.
  split; [exact Hr|]. split; [reflexivity|].
  destruct (status_fetch_falls_back_to_v3 (H := plain_builtins) true false tok0 "SN1" 1
              v4_not_found v4_not_found Hr eq_refl) as (_ & _ & _ & _ & H404 & _).
  split; [exact (H404 eq_refl None [Http 200 (Some (data_body reading0))] eq_refl)|].
  split; [reflexivity|].
  destruct (status_fetch_falls_back_to_v3 (H := plain_builtins) true false tok0 "SN1" 1
              v4_no_data v4_no_data Hr eq_refl) as (_ & _ & _ & _ & _ & Hdata).
  destruct (Hdata eq_refl 200 success_mark_no_data [Http 200 (Some (data_body reading0))]
              eq_refl eq_refl ltac:(by vm_compute)) as [Hmark _].
  destruct (Hmark ltac:(by vm_compute)) as [(tl & Htl & Hlast) _].
  split; [exists tl; split; [exact Htl|apply Hlast; right; by vm_compute]|].
  destruct (status_fetch_falls_back_to_v3 (H := plain_builtins) true false tok0 "SN1" 1
              v4_no_word v4_no_word Hr eq_refl) as (_ & _ & _ & _ & _ & Hword).
  destruct (Hword eq_refl 200
              {[ "hasError" := VBool false; "code" := VInt 0; "msg" := VStr "success" ]}
              [Http 200 (Some (data_body reading0))]
              eq_refl eq_refl ltac:(by vm_compute)) as [_ Hnomark].
  destruct (Hnomark ltac:(by vm_compute)) as [Hend _].
  split; [exact (Hend ltac:(by vm_compute))|].
  assert (Hlogin : first_request false first_poll = Some (tok1_api, after_login first_poll))
    by (by vm_compute).
  split; [exact Hlogin|].
  destruct (status_fetch_falls_back_to_v3 (H := plain_builtins) _USE_V4_STATUS false
              tok1_api "SN1" 1 first_poll (after_login first_poll) Hr Hlogin)
    as (_ & _ & _ & Hfirst & _).
  exact Hfirst.
Defined.
